(** * Ordered positions in the kanban board backend

    A shallow embedding of the position-bearing part of the Django
    application [board]: the [Column] and [Task] models with their [save]
    overrides (models.py), the move serializers and the label handling of
    [TaskSerializer] (api/serializers.py), the create / destroy / move
    handlers of [ColumnViewSet] and [TaskViewSet] with the query set of
    the column view (api/views.py), and the routes of the column view
    (api/urls.py).

    The database is an explicit value [DB]; every ORM call is an action in
    a small state-and-exception monad, so that [try ... except] and
    [transaction.atomic()] are modelled as the code has them. *)

From stdpp Require Import base gmap list strings fin_maps.

Local Open Scope Z_scope.

(** ** Rows of the tables (models.py)

    Only the fields read or written by the modelled handlers are kept:
    colours, descriptions, due dates and timestamps never influence a
    position, a label link or an activity entry.  A primary key is the
    positive integer of Django's automatic [id] field, and a foreign key is
    the primary key of the row it points to; boards and users occur only
    as such keys.  Positions are Python integers.  [PositiveIntegerField]
    forbids storing a negative one, which the handlers never attempt: a
    requested position is validated to be at least 0, and a position is
    decreased only when it is greater than the position of a stored
    row. *)

Module Column.
Record t := mk { title : string; board : positive; position : Z }.
Definition with_position (p : Z) (c : t) : t := mk (title c) (board c) p.
End Column.

Module Task.
Record t := mk { title : string; column : positive; position : Z; creator : positive }.
Definition with_position (p : Z) (x : t) : t :=
  mk (title x) (column x) p (creator x).
Definition with_column (c : positive) (x : t) : t :=
  mk (title x) c (position x) (creator x).
Definition with_title (s : string) (x : t) : t :=
  mk s (column x) (position x) (creator x).
End Task.

Module Label.
Record t := mk { name : string; board : positive }.
End Label.

Module TaskLabel.
Record t := mk { task : positive; label : positive }.
End TaskLabel.

(** Values of the JSON [details] payload of an activity entry. *)
Inductive JSON :=
| JInt (z : Z)
| JStr (s : string).

Module ActivityLog.
Record t := mk {
  user : positive;
  board : positive;
  action : string;
  details : list (string * JSON)
}.
End ActivityLog.

#[global] Instance Column_eq_dec : EqDecision Column.t.
Proof. solve_decision. Defined.
#[global] Instance Task_eq_dec : EqDecision Task.t.
Proof. solve_decision. Defined.
#[global] Instance TaskLabel_eq_dec : EqDecision TaskLabel.t.
Proof. solve_decision. Defined.
#[global] Instance JSON_eq_dec : EqDecision JSON.
Proof. solve_decision. Defined.

(** ** The database *)

Record DB := mkDB {
  Column_objects : gmap positive Column.t;
  Task_objects : gmap positive Task.t;
  Label_objects : gmap positive Label.t;
  (* rows in insertion order; unique_together = [task, label] *)
  TaskLabel_objects : list TaskLabel.t;
  (* rows in insertion order *)
  ActivityLog_objects : list ActivityLog.t
}.

Definition empty_db : DB := mkDB ∅ ∅ ∅ [] [].

Definition set_columns (f : gmap positive Column.t → gmap positive Column.t) (db : DB) : DB :=
  mkDB (f (Column_objects db)) (Task_objects db) (Label_objects db)
       (TaskLabel_objects db) (ActivityLog_objects db).

Definition set_tasks (f : gmap positive Task.t → gmap positive Task.t) (db : DB) : DB :=
  mkDB (Column_objects db) (f (Task_objects db)) (Label_objects db)
       (TaskLabel_objects db) (ActivityLog_objects db).

Definition set_task_labels (f : list TaskLabel.t → list TaskLabel.t) (db : DB) : DB :=
  mkDB (Column_objects db) (Task_objects db) (Label_objects db)
       (f (TaskLabel_objects db)) (ActivityLog_objects db).

Definition set_activity (f : list ActivityLog.t → list ActivityLog.t) (db : DB) : DB :=
  mkDB (Column_objects db) (Task_objects db) (Label_objects db)
       (TaskLabel_objects db) (f (ActivityLog_objects db)).

(** ** Actions: state passing with Python exceptions *)

Inductive Exn :=
| Http404
| DoesNotExist (model : string)
| IntegrityError.

Inductive Outcome (A : Type) :=
| Returns (a : A) (db : DB)
| Raises (e : Exn) (db : DB).
Arguments Returns {A} a db.
Arguments Raises {A} e db.

Definition M (A : Type) : Type := DB → Outcome A.

#[global] Instance M_ret : MRet M := λ A a db, Returns a db.
#[global] Instance M_bind : MBind M := λ A B f m db,
  match m db with
  | Returns a db' => f a db'
  | Raises e db' => Raises e db'
  end.

Definition query {A} (f : DB → A) : M A := λ db, Returns (f db) db.
Definition modify (f : DB → DB) : M unit := λ db, Returns tt (f db).

(** [try: body except DoesNotExist: handler]; any other exception
    propagates. *)
Definition try_except_DoesNotExist {A} (body : M A) (handler : M A) : M A :=
  λ db, match body db with
        | Raises (DoesNotExist _) db' => handler db'
        | o => o
        end.

(** [with transaction.atomic(): body]: an exception leaving the block
    rolls the database back to its state on entry. *)
Definition atomic {A} (body : M A) : M A :=
  λ db, match body db with
        | Raises e _ => Raises e db
        | o => o
        end.

Definition state_of {A} (o : Outcome A) : DB :=
  match o with Returns _ db => db | Raises _ db => db end.

(** ** Query sets *)

(** The primary key the database hands to a new row: one above the largest
    key in use, [1] in an empty table. *)
Definition fresh_pk {A} (tbl : gmap positive A) : positive :=
  foldr (λ k acc, Pos.max (Pos.succ k) acc) 1%positive (map_to_list tbl).*1.

(** Look a row up by a client-supplied integer id. *)
Definition lookup_id {A} (id : Z) (tbl : gmap positive A) : option (positive * A) :=
  match id with
  | Zpos k => pair k <$> tbl !! k
  | _ => None
  end.

(** [Model.objects.filter(cond).update(...)]. *)
Definition qs_update {A} (cond : A → bool) (f : A → A) (tbl : gmap positive A) : gmap positive A :=
  (λ r, if cond r then f r else r) <$> tbl.

(** Rows of a table satisfying [cond], as a list of values. *)
Definition qs_filter {A} (cond : A → bool) (tbl : gmap positive A) : list A :=
  filter (λ r, cond r = true) (map_to_list tbl).*2.

(** [.aggregate(models.Max('position'))['position__max']]: [None] on an
    empty query set. *)
Definition position__max (ps : list Z) : option Z :=
  foldr (λ p acc, Some (match acc with None => p | Some m => Z.max p m end)) None ps.

(** Python's [x or d] on an optional integer: [None] and [0] are both
    falsy. *)
Definition py_or (x : option Z) (d : Z) : Z :=
  match x with
  | None => d
  | Some 0 => d
  | Some v => v
  end.

Definition Column_objects_get (id : Z) : M (positive * Column.t) :=
  λ db, match lookup_id id (Column_objects db) with
        | Some c => Returns c db
        | None => Raises (DoesNotExist "Column") db
        end.

Definition Label_objects_get (id : Z) : M (positive * Label.t) :=
  λ db, match lookup_id id (Label_objects db) with
        | Some l => Returns l db
        | None => Raises (DoesNotExist "Label") db
        end.

(** [ActivityLog.objects.create(...)]. *)
Definition ActivityLog_objects_create (e : ActivityLog.t) : M unit :=
  modify (set_activity (λ l, l ++ [e])).

(** [TaskLabel.objects.create(task=..., label=...)]: the unique constraint
    on the pair rejects a second identical row. *)
Definition TaskLabel_objects_create (task label : positive) : M unit :=
  λ db, if decide (TaskLabel.mk task label ∈ TaskLabel_objects db)
        then Raises IntegrityError db
        else Returns tt (set_task_labels (λ l, l ++ [TaskLabel.mk task label]) db).

(** [TaskLabel.objects.filter(task=task).delete()]. *)
Definition TaskLabel_objects_delete_task (task : positive) : M unit :=
  modify (set_task_labels (filter (λ tl, TaskLabel.task tl ≠ task))).

(** ** Column.save and Task.save (models.py)

    A model instance is its primary key ([None] before the first save)
    together with its field values; a positive key is truthy, so
    [not self.pk] holds exactly for [None]. *)

(** The positions held in container [k]: the values of
    [Model.objects.filter(container=k)] projected on [position]. *)
Definition sibling_positions {A} (container : A → positive) (position : A → Z)
    (k : positive) (tbl : gmap positive A) : list Z :=
  position <$> qs_filter (λ r, bool_decide (container r = k)) tbl.

Definition Column_sibling_positions (board : positive) (db : DB) : list Z :=
  sibling_positions Column.board Column.position board (Column_objects db).

Definition Task_sibling_positions (column : positive) (db : DB) : list Z :=
  sibling_positions Task.column Task.position column (Task_objects db).

Definition Column_save (pk : option positive) (self : Column.t) : M (positive * Column.t) :=
  match pk with
  | None =>
      max_position ← query (λ db,
        position__max (Column_sibling_positions (Column.board self) db));
      let self := Column.with_position (py_or max_position (-1) + 1) self in
      id ← query (λ db, fresh_pk (Column_objects db));
      modify (set_columns (insert id self));;
      mret (id, self)
  | Some id =>
      modify (set_columns (insert id self));;
      mret (id, self)
  end.

Definition Task_save (pk : option positive) (self : Task.t) : M (positive * Task.t) :=
  match pk with
  | None =>
      max_position ← query (λ db,
        position__max (Task_sibling_positions (Task.column self) db));
      let self := Task.with_position (py_or max_position (-1) + 1) self in
      id ← query (λ db, fresh_pk (Task_objects db));
      modify (set_tasks (insert id self));;
      mret (id, self)
  | Some id =>
      modify (set_tasks (insert id self));;
      mret (id, self)
  end.

(** [Model.objects.create] with the given field values. *)
Definition Column_objects_create (fields : Column.t) : M (positive * Column.t) :=
  Column_save None fields.
Definition Task_objects_create (fields : Task.t) : M (positive * Task.t) :=
  Task_save None fields.

(** [instance.delete()]: the cascade removes the label links of a task,
    and the tasks of a column together with their links. *)
Definition Task_delete (pk : positive) : M unit :=
  modify (λ db,
    set_tasks (delete pk)
      (set_task_labels (filter (λ tl, TaskLabel.task tl ≠ pk)) db)).

Definition Column_delete (pk : positive) : M unit :=
  modify (λ db,
    let doomed (k : positive) : bool :=
      match Task_objects db !! k with
      | Some x => bool_decide (Task.column x = pk)
      | None => false
      end in
    set_columns (delete pk)
      (set_tasks (filter (λ kx, Task.column kx.2 ≠ pk))
        (set_task_labels (filter (λ tl, doomed (TaskLabel.task tl) = false)) db))).

(** ** Serializers (api/serializers.py) *)

(** What a field of a request was rejected for. *)
Inductive FieldError :=
| min_value (limit : Z)
| message (text : string).

Module ColumnMoveSerializer.
(** The request body after JSON parsing: [position] is an integer. *)
Record data := mk { position : Z }.

(** [position = serializers.IntegerField(min_value=0)]. *)
Definition errors (d : data) : list (string * FieldError) :=
  if bool_decide (0 ≤ position d) then [] else [("position", min_value 0)].

Definition is_valid (d : data) : bool :=
  match errors d with [] => true | _ => false end.
End ColumnMoveSerializer.

Module TaskMoveSerializer.
Record data := mk { column_id : Z; position : Z }.

(** [validate_column_id]: the column must exist. *)
Definition validate_column_id (value : Z) (db : DB) : list (string * FieldError) :=
  match lookup_id value (Column_objects db) with
  | Some _ => []
  | None => [("column_id", message "Колонка не найдена")]
  end.

(** Field errors are collected over all fields, in declaration order. *)
Definition errors (d : data) (db : DB) : list (string * FieldError) :=
  validate_column_id (column_id d) db ++
  (if bool_decide (0 ≤ position d) then [] else [("position", min_value 0)]).

Definition is_valid (d : data) (db : DB) : bool :=
  match errors d db with [] => true | _ => false end.
End TaskMoveSerializer.

Module TaskSerializer.
(** Validated data of a create: the writable model fields and the
    optional [label_ids] list. *)
Record create_data := mk_create {
  title : string;
  column : positive;
  position : Z;
  label_ids : option (list Z)
}.

(** Validated data of a (partial) update: every field is optional. *)
Record update_data := mk_update {
  new_title : option string;
  new_column : option positive;
  new_position : option Z;
  new_label_ids : option (list Z)
}.

(** The loop [for label_id in label_ids: try: ... except
    Label.DoesNotExist: continue]. *)
Fixpoint add_labels (task : positive) (label_ids : list Z) : M unit :=
  match label_ids with
  | [] => mret tt
  | label_id :: rest =>
      try_except_DoesNotExist
        (label ← Label_objects_get label_id;
         TaskLabel_objects_create task label.1)
        (mret tt);;
      add_labels task rest
  end.

Definition create (user : positive) (validated_data : create_data) : M (positive * Task.t) :=
  let label_ids := default [] (label_ids validated_data) in
  task ← Task_objects_create
           (Task.mk (title validated_data) (column validated_data)
                    (position validated_data) user);
  add_labels task.1 label_ids;;
  mret task.

(** [ModelSerializer.update]: set the supplied attributes, then save. *)
Definition super_update (instance : positive * Task.t) (validated_data : update_data)
  : M (positive * Task.t) :=
  let x := instance.2 in
  let x := from_option (λ v, Task.with_title v x) x (new_title validated_data) in
  let x := from_option (λ v, Task.with_column v x) x (new_column validated_data) in
  let x := from_option (λ v, Task.with_position v x) x (new_position validated_data) in
  Task_save (Some instance.1) x.

Definition update (instance : positive * Task.t) (validated_data : update_data)
  : M (positive * Task.t) :=
  let label_ids := new_label_ids validated_data in
  task ← super_update instance validated_data;
  match label_ids with
  | Some label_ids =>
      TaskLabel_objects_delete_task task.1;;
      add_labels task.1 label_ids
  | None => mret tt
  end;;
  mret task.
End TaskSerializer.

(** ** Views (api/views.py) *)

Inductive Body :=
| Status (s : string)                        (* {'status': s} *)
| Error (s : string)                         (* {'error': s} *)
| Errors (l : list (string * FieldError))    (* serializer.errors *)
| Serialized (pk : positive)                 (* serializer.data of a saved row *)
| NoContent.

Inductive HttpResponse := Response (data : Body) (status : Z).

Definition HTTP_200_OK : Z := 200.
Definition HTTP_201_CREATED : Z := 201.
Definition HTTP_204_NO_CONTENT : Z := 204.
Definition HTTP_400_BAD_REQUEST : Z := 400.
Definition HTTP_404_NOT_FOUND : Z := 404.

(** [x.position + 1] and [x.position - 1] of an [update(position=F(...))]. *)
Definition Column_shift (d : Z) (c : Column.t) : Column.t :=
  Column.with_position (Column.position c + d) c.
Definition Task_shift (d : Z) (x : Task.t) : Task.t :=
  Task.with_position (Task.position x + d) x.

(** ** The routes of the column view (api/urls.py)

    [columns/] serves [list] and [create]; [columns/<int:pk>/] serves
    [retrieve], [update], [partial_update] and [destroy];
    [columns/<int:pk>/move/] serves [move]; the one route that captures a
    [board_id], [boards/<int:board_id>/columns/], serves [list] alone. *)
Module urls.
Inductive ColumnRoute :=
| column_list
| column_detail (pk : positive)
| column_move (pk : positive)
| board_columns (board_id : Z).

(** [self.kwargs.get("board_id", None)] on a request that came in by the
    route. *)
Definition kwargs_board_id (route : ColumnRoute) : option Z :=
  match route with
  | board_columns board_id => Some board_id
  | column_list | column_detail _ | column_move _ => None
  end.
End urls.

Module ColumnViewSet.
(** [get_queryset]: the columns of the board that the keyword argument
    [board_id] of the URL names.  Without that argument the filter is
    [board_id=None], an [IS NULL] test that no row passes, the board of a
    column being a required foreign key. *)
Definition get_queryset (board_id : option Z) (db : DB) : gmap positive Column.t :=
  filter (λ kc, Some (Zpos (Column.board kc.2)) = board_id) (Column_objects db).

(** [self.get_object()]: the column of the query set with this primary
    key, or a 404. *)
Definition get_object (board_id : option Z) (pk : positive) : M (positive * Column.t) :=
  λ db, match get_queryset board_id db !! pk with
        | Some c => Returns (pk, c) db
        | None => Raises Http404 db
        end.

Definition perform_create (user : positive) (validated_data : Column.t)
  : M (positive * Column.t) :=
  column ← Column_objects_create validated_data;
  ActivityLog_objects_create
    (ActivityLog.mk user (Column.board column.2) "create_column"
       [("column_title", JStr (Column.title column.2));
        ("position", JInt (Column.position column.2))]);;
  mret column.

Definition perform_destroy (user : positive) (instance : positive * Column.t) : M unit :=
  ActivityLog_objects_create
    (ActivityLog.mk user (Column.board instance.2) "delete_column"
       [("column_title", JStr (Column.title instance.2))]);;
  Column_delete instance.1.

(** The [destroy] action of the framework: fetch, [perform_destroy],
    answer 204. *)
Definition destroy (board_id : option Z) (user pk : positive) : M HttpResponse :=
  instance ← get_object board_id pk;
  perform_destroy user instance;;
  mret (Response NoContent HTTP_204_NO_CONTENT).

Definition move (board_id : option Z) (user pk : positive)
    (data : ColumnMoveSerializer.data) : M HttpResponse :=
  column ← get_object board_id pk;
  if ColumnMoveSerializer.is_valid data then
    let new_position := ColumnMoveSerializer.position data in
    column ← atomic (
      (if bool_decide (new_position < Column.position column.2) then
         modify (set_columns (qs_update
           (λ c, bool_decide (Column.board c = Column.board column.2)
                 && bool_decide (new_position ≤ Column.position c)
                 && bool_decide (Column.position c < Column.position column.2))
           (Column_shift 1)))
       else
         modify (set_columns (qs_update
           (λ c, bool_decide (Column.board c = Column.board column.2)
                 && bool_decide (Column.position column.2 < Column.position c)
                 && bool_decide (Column.position c ≤ new_position))
           (Column_shift (-1)))));;
      let column := (column.1, Column.with_position new_position column.2) in
      Column_save (Some column.1) column.2);
    ActivityLog_objects_create
      (ActivityLog.mk user (Column.board column.2) "move_column"
         [("column_title", JStr (Column.title column.2));
          ("from_position", JInt (Column.position column.2));
          ("to_position", JInt new_position)]);;
    mret (Response (Status "column moved") HTTP_200_OK)
  else
    mret (Response (Errors (ColumnMoveSerializer.errors data)) HTTP_400_BAD_REQUEST).
End ColumnViewSet.

Module TaskViewSet.
(** [self.get_object()]: the task with this primary key, or a 404; the
    query set of a request without query parameters holds every task, and
    permission classes are left to the access layer. *)
Definition get_object (pk : positive) : M (positive * Task.t) :=
  λ db, match Task_objects db !! pk with
        | Some x => Returns (pk, x) db
        | None => Raises Http404 db
        end.

(** [task.column]: the related row. *)
Definition column_of (task : positive * Task.t) : M (positive * Column.t) :=
  Column_objects_get (Zpos (Task.column task.2)).

Definition perform_create (user : positive) (validated_data : TaskSerializer.create_data)
  : M (positive * Task.t) :=
  task ← TaskSerializer.create user validated_data;
  column ← column_of task;
  ActivityLog_objects_create
    (ActivityLog.mk user (Column.board column.2) "create_task"
       [("task_id", JInt (Zpos task.1));
        ("task_title", JStr (Task.title task.2));
        ("column", JStr (Column.title column.2))]);;
  mret task.

Definition perform_destroy (user : positive) (instance : positive * Task.t) : M unit :=
  column ← column_of instance;
  ActivityLog_objects_create
    (ActivityLog.mk user (Column.board column.2) "delete_task"
       [("task_id", JInt (Zpos instance.1));
        ("task_title", JStr (Task.title instance.2))]);;
  Task_delete instance.1.

Definition destroy (user pk : positive) : M HttpResponse :=
  instance ← get_object pk;
  perform_destroy user instance;;
  mret (Response NoContent HTTP_204_NO_CONTENT).

Definition move (user pk : positive) (data : TaskMoveSerializer.data) : M HttpResponse :=
  task ← get_object pk;
  valid ← query (TaskMoveSerializer.is_valid data);
  if (valid : bool) then
    let column_id := TaskMoveSerializer.column_id data in
    let new_position := TaskMoveSerializer.position data + 1 in
    found ← try_except_DoesNotExist
              (c ← Column_objects_get column_id; mret (Some c))
              (mret None);
    match found with
    | None => mret (Response (Error "Column not found") HTTP_404_NOT_FOUND)
    | Some new_column =>
      atomic (
        old_column ← column_of task;
        let old_position := Task.position task.2 in
        if bool_decide (old_column.1 ≠ new_column.1) then
          modify (set_tasks (qs_update
            (λ x, bool_decide (Task.column x = old_column.1)
                  && bool_decide (old_position < Task.position x))
            (Task_shift (-1))));;
          modify (set_tasks (qs_update
            (λ x, bool_decide (Task.column x = new_column.1)
                  && bool_decide (new_position ≤ Task.position x))
            (Task_shift 1)));;
          let task := (task.1, Task.with_position new_position
                                 (Task.with_column new_column.1 task.2)) in
          Task_save (Some task.1) task.2;;
          ActivityLog_objects_create
            (ActivityLog.mk user (Column.board new_column.2) "move_task"
               [("task_id", JInt (Zpos task.1));
                ("task_title", JStr (Task.title task.2));
                ("from_column", JStr (Column.title old_column.2));
                ("to_column", JStr (Column.title new_column.2));
                ("from_position", JInt old_position);
                ("to_position", JInt new_position)]);;
          mret (Response (Status "task moved") HTTP_200_OK)
        else
          (if bool_decide (new_position < old_position) then
             modify (set_tasks (qs_update
               (λ x, bool_decide (Task.column x = old_column.1)
                     && bool_decide (new_position ≤ Task.position x)
                     && bool_decide (Task.position x < old_position))
               (Task_shift 1)))
           else
             modify (set_tasks (qs_update
               (λ x, bool_decide (Task.column x = old_column.1)
                     && bool_decide (old_position < Task.position x)
                     && bool_decide (Task.position x ≤ new_position))
               (Task_shift (-1)))));;
          let task := (task.1, Task.with_position new_position task.2) in
          Task_save (Some task.1) task.2;;
          mret (Response (Status "task moved") HTTP_200_OK))
    end
  else
    errors ← query (TaskMoveSerializer.errors data);
    mret (Response (Errors errors) HTTP_400_BAD_REQUEST).
End TaskViewSet.

(** ** The operations of the board, as requests *)

Inductive Op :=
| create_column (user board : positive) (title : string)
| move_column (user column : positive) (target_position : Z)
| delete_column (user column : positive)
| create_task (user column : positive) (title : string)
| move_task (user task : positive) (target_column target_position : Z)
| delete_task (user task : positive).

(** The outcome of one request, as it comes in by its route of
    api/urls.py.  A create goes through [perform_create] with the position
    field at its model default [0]; a task create is made only for an
    existing column, as the column field of the serializer requires; a
    column move comes in by [columns/<int:pk>/move/] and a column delete
    by [columns/<int:pk>/]. *)
Definition handle (op : Op) : M HttpResponse :=
  match op with
  | create_column user board title =>
      column ← ColumnViewSet.perform_create user (Column.mk title board 0);
      mret (Response (Serialized column.1) HTTP_201_CREATED)
  | move_column user pk p =>
      ColumnViewSet.move (urls.kwargs_board_id (urls.column_move pk))
        user pk (ColumnMoveSerializer.mk p)
  | delete_column user pk =>
      ColumnViewSet.destroy (urls.kwargs_board_id (urls.column_detail pk))
        user pk
  | create_task user column title =>
      exists_column ← query (λ db, bool_decide (is_Some (Column_objects db !! column)));
      if (exists_column : bool) then
        task ← TaskViewSet.perform_create user
                 (TaskSerializer.mk_create title column 0 None);
        mret (Response (Serialized task.1) HTTP_201_CREATED)
      else
        mret (Response (Errors [("column", message "does_not_exist")]) HTTP_400_BAD_REQUEST)
  | move_task user pk c p =>
      TaskViewSet.move user pk (TaskMoveSerializer.mk c p)
  | delete_task user pk =>
      TaskViewSet.destroy user pk
  end.

Definition run_op (db : DB) (op : Op) : DB := state_of (handle op db).

Definition run (ops : list Op) (db : DB) : DB := foldl run_op db ops.

(** ** Density of positions *)

(** The positions [ps] are exactly [0, 1, ..., n-1], each once, where [n]
    is their number. *)
Definition dense (ps : list Z) : Prop :=
  ps ≡ₚ seqZ 0 (Z.of_nat (length ps)).

Definition board_dense (db : DB) : Prop :=
  ∀ b, dense (Column_sibling_positions b db).

Definition column_dense (db : DB) : Prop :=
  ∀ c, dense (Task_sibling_positions c db).

(** ** The tables a successful move leaves

    Read off the move handlers: the sibling update chosen by the
    comparison of the positions, then the save of the moved row. *)

Definition Column_moved (pk : positive) (column : Column.t) (new_position : Z)
    (cols : gmap positive Column.t) : gmap positive Column.t :=
  <[pk := Column.with_position new_position column]>
    (if bool_decide (new_position < Column.position column) then
       qs_update
         (λ c, bool_decide (Column.board c = Column.board column)
               && bool_decide (new_position ≤ Column.position c)
               && bool_decide (Column.position c < Column.position column))
         (Column_shift 1) cols
     else
       qs_update
         (λ c, bool_decide (Column.board c = Column.board column)
               && bool_decide (Column.position column < Column.position c)
               && bool_decide (Column.position c ≤ new_position))
         (Column_shift (-1)) cols).

Definition move_column_entry (user : positive) (column : Column.t) (new_position : Z)
  : ActivityLog.t :=
  ActivityLog.mk user (Column.board column) "move_column"
    [("column_title", JStr (Column.title column));
     ("from_position", JInt new_position);
     ("to_position", JInt new_position)].

Definition column_moved_response : HttpResponse :=
  Response (Status "column moved") HTTP_200_OK.
Definition task_moved_response : HttpResponse :=
  Response (Status "task moved") HTTP_200_OK.

Definition result_of {A} (o : Outcome A) : option A :=
  match o with Returns a _ => Some a | Raises _ _ => None end.

(** ** A concrete board

    Board 1 with columns C1, C2, C3 at positions 0, 1, 2; tasks T1, T2, T3
    at positions 0, 1, 2 of C1 and T4 at position 0 of C2; two labels. *)
Definition kanban : DB :=
  mkDB
    (list_to_map [(1%positive, Column.mk "C1" 1 0);
                  (2%positive, Column.mk "C2" 1 1);
                  (3%positive, Column.mk "C3" 1 2)])
    (list_to_map [(1%positive, Task.mk "T1" 1 0 1);
                  (2%positive, Task.mk "T2" 1 1 1);
                  (3%positive, Task.mk "T3" 1 2 1);
                  (4%positive, Task.mk "T4" 2 0 1)])
    (list_to_map [(1%positive, Label.mk "bug" 1);
                  (2%positive, Label.mk "feature" 1)])
    [] [].

Definition exception_of {A} (o : Outcome A) : option Exn :=
  match o with Returns _ _ => None | Raises e _ => Some e end.

(** The task table after a successful move into another column. *)
Definition Task_moved_across (pk : positive) (task : Task.t)
    (new_column : positive) (new_position : Z)
    (tasks : gmap positive Task.t) : gmap positive Task.t :=
  <[pk := Task.with_position new_position (Task.with_column new_column task)]>
    (qs_update
       (λ x, bool_decide (Task.column x = new_column)
             && bool_decide (new_position ≤ Task.position x))
       (Task_shift 1)
       (qs_update
          (λ x, bool_decide (Task.column x = Task.column task)
                && bool_decide (Task.position task < Task.position x))
          (Task_shift (-1)) tasks)).

Definition move_task_entry (user pk : positive) (task : Task.t)
    (old_column new_column : Column.t) (new_position : Z) : ActivityLog.t :=
  ActivityLog.mk user (Column.board new_column) "move_task"
    [("task_id", JInt (Zpos pk));
     ("task_title", JStr (Task.title task));
     ("from_column", JStr (Column.title old_column));
     ("to_column", JStr (Column.title new_column));
     ("from_position", JInt (Task.position task));
     ("to_position", JInt new_position)].

(** The labels that the ids of a [label_ids] list denote, in order; ids
    without a label are dropped. *)
Definition existing_labels (label_ids : list Z) (db : DB) : list positive :=
  omap (λ id, fst <$> lookup_id id (Label_objects db)) label_ids.

(** The position a sibling at [p] has after an item went from [o] to
    [n] in its container. *)
Definition shift_position (o n p : Z) : Z :=
  if decide (n < o) then
    if decide (n ≤ p < o) then p + 1 else p
  else
    if decide (o < p ≤ n) then p - 1 else p.

(** ** Operations that keep positions dense

    A create into a container that does not hold exactly one item; a task
    move that stores the task at an index of its destination (below the
    number of tasks of the column for a move inside the column, at most
    the number of tasks of the destination for a move into another
    column); the deletion of the task at the highest position of its
    column.  Column moves and column deletes are not restricted. *)
Definition admissible (db : DB) (op : Op) : Prop :=
  match op with
  | create_column _ board _ =>
      length (Column_sibling_positions board db) ≠ 1%nat
  | move_column _ _ _ => True
  | delete_column _ _ => True
  | create_task _ column _ =>
      length (Task_sibling_positions column db) ≠ 1%nat
  | move_task _ pk column_id p =>
      ∀ task ck new_column,
        Task_objects db !! pk = Some task →
        lookup_id column_id (Column_objects db) = Some (ck, new_column) →
        if decide (Task.column task = ck)
        then p + 1 < Z.of_nat (length (Task_sibling_positions ck db))
        else p + 1 ≤ Z.of_nat (length (Task_sibling_positions ck db))
  | delete_task _ pk =>
      ∀ task, Task_objects db !! pk = Some task →
        Task.position task
          = Z.of_nat (length (Task_sibling_positions (Task.column task) db)) - 1
  end.

Fixpoint admissible_run (db : DB) (ops : list Op) : Prop :=
  match ops with
  | [] => True
  | op :: ops => admissible db op ∧ admissible_run (run_op db op) ops
  end.

(** ** Concrete requests on the concrete board *)

(** Task T2 to column C2 at position 0. *)
Definition T2_to_C2 : Outcome HttpResponse :=
  TaskViewSet.move 1 2 (TaskMoveSerializer.mk 2 0) kanban.

(** Task T3 to position 0 of its own column C1, task T1 to position 7 of
    its own column C1. *)
Definition T3_to_front : Outcome HttpResponse :=
  TaskViewSet.move 1 3 (TaskMoveSerializer.mk 1 0) kanban.
Definition T1_to_7 : Outcome HttpResponse :=
  TaskViewSet.move 1 1 (TaskMoveSerializer.mk 1 7) kanban.

(** Column C3 to position 0 and column C2 to position -1, as requests on
    [columns/<int:pk>/move/]. *)
Definition C3_to_front : Outcome HttpResponse :=
  handle (move_column 1 3 0) kanban.
Definition C2_to_minus_1 : Outcome HttpResponse :=
  handle (move_column 1 2 (-1)) kanban.

(** The call [move] for column C3 and position 0 in a view whose keyword
    arguments name board 1, as no route of api/urls.py supplies them. *)
Definition C3_to_front_on_board_1 : Outcome HttpResponse :=
  ColumnViewSet.move (Some 1) 1 3 (ColumnMoveSerializer.mk 0) kanban.

(** A database with a single column, on board 7. *)
Definition one_column : DB := run [create_column 1 7 "A"] empty_db.

(** A create and an update whose [label_ids] name no label (7) and the
    label 1 twice. *)
Definition create_with_label_twice : Outcome (positive * Task.t) :=
  TaskSerializer.create 1
    (TaskSerializer.mk_create "T5" 2 0 (Some [7; 1; 1])) kanban.
Definition update_with_label_twice : Outcome (positive * Task.t) :=
  TaskSerializer.update (2%positive, Task.mk "T2" 1 1 1)
    (TaskSerializer.mk_update None None None (Some [7; 1; 1])) kanban.

(** A sequence of admissible operations on the concrete board. *)
Definition reshuffle : list Op :=
  [move_task 1 1 2 0; create_task 1 1 "T5"; move_task 1 5 1 0;
   delete_task 1 3; move_column 1 3 0; create_column 1 1 "C4";
   delete_column 1 1].

(** From the empty database: a column on each of two boards, a task in
    each column, and the second task moved behind the first. *)
Definition two_tasks : list Op :=
  [create_column 1 1 "A"; create_column 1 2 "B";
   create_task 1 1 "t1"; create_task 1 2 "t2"; move_task 1 2 1 0].

(** The task table after a successful move inside the column of the
    task. *)
Definition Task_moved_within (pk : positive) (task : Task.t) (new_position : Z)
    (tasks : gmap positive Task.t) : gmap positive Task.t :=
  <[pk := Task.with_position new_position task]>
    (if bool_decide (new_position < Task.position task) then
       qs_update
         (λ x, bool_decide (Task.column x = Task.column task)
               && bool_decide (new_position ≤ Task.position x)
               && bool_decide (Task.position x < Task.position task))
         (Task_shift 1) tasks
     else
       qs_update
         (λ x, bool_decide (Task.column x = Task.column task)
               && bool_decide (Task.position task < Task.position x)
               && bool_decide (Task.position x ≤ new_position))
         (Task_shift (-1)) tasks).

(** Every stored position is non-negative, as [PositiveIntegerField]
    demands. *)
Definition positions_nonnegative (db : DB) : Prop :=
  map_Forall (λ _ c, 0 ≤ Column.position c) (Column_objects db)
  ∧ map_Forall (λ _ x, 0 ≤ Task.position x) (Task_objects db).

(** Referential integrity of the modelled tables: the column of every task
    and the task of every label link are stored. *)
Definition no_orphans (db : DB) : Prop :=
  map_Forall (λ _ x, is_Some (Column_objects db !! Task.column x)) (Task_objects db)
  ∧ Forall (λ tl, is_Some (Task_objects db !! TaskLabel.task tl)) (TaskLabel_objects db).

(** ** Updating a column (api/views.py, [ColumnViewSet.perform_update]) *)

Module ColumnSerializer.
(** Validated data of a (partial) update of a column: every writable model
    field is optional. *)
Record update_data := mk_update {
  new_title : option string;
  new_board : option positive;
  new_position : option Z
}.

(** [ModelSerializer.update]: set the supplied attributes, then save. *)
Definition update (instance : positive * Column.t) (validated_data : update_data)
  : M (positive * Column.t) :=
  let c := instance.2 in
  let c := from_option (λ v, Column.mk v (Column.board c) (Column.position c)) c
             (new_title validated_data) in
  let c := from_option (λ v, Column.mk (Column.title c) v (Column.position c)) c
             (new_board validated_data) in
  let c := from_option (λ v, Column.with_position v c) c
             (new_position validated_data) in
  Column_save (Some instance.1) c.
End ColumnSerializer.

(** The [update] action for the column [pk]: the serializer is built on
    the row that [get_object] finds; in [perform_update] the old title is
    read from a fresh [get_object], the serializer saves, and a title
    change is logged. *)
Definition ColumnViewSet_perform_update (board_id : option Z) (user pk : positive)
    (validated_data : ColumnSerializer.update_data) : M (positive * Column.t) :=
  instance ← ColumnViewSet.get_object board_id pk;
  old ← ColumnViewSet.get_object board_id pk;
  let old_title := Column.title old.2 in
  column ← ColumnSerializer.update instance validated_data;
  (if bool_decide (old_title ≠ Column.title column.2) then
     ActivityLog_objects_create
       (ActivityLog.mk user (Column.board column.2) "update_column"
          [("old_title", JStr old_title);
           ("new_title", JStr (Column.title column.2))])
   else mret tt);;
  mret column.

(** ** Boards, members and permission classes (api/permissions.py) *)

Module Board.
Record t := mk { title : string; owner : positive; members : gset positive }.
End Board.

Inductive Method := GET | HEAD | OPTIONS | POST | PUT | PATCH | DELETE.

(** [request.method in permissions.SAFE_METHODS]. *)
Definition SAFE_METHODS (m : Method) : bool :=
  match m with GET | HEAD | OPTIONS => true | _ => false end.

(** The objects the permission classes are asked about, each with the rows
    its relations lead to: [obj.board] of a column or label,
    [obj.column.board] of a task, [obj.task.column.board] of a comment or
    attachment. *)
Inductive Obj :=
| BoardObj (board : Board.t)
| ColumnObj (board : Board.t)
| TaskObj (board : Board.t) (creator : positive) (assignee : option positive)
| LabelObj (board : Board.t)
| CommentObj (board : Board.t) (author : positive)
| AttachmentObj (board : Board.t).

(** [board.owner == request.user or request.user in board.members.all()]. *)
Definition owner_or_member (user : positive) (board : Board.t) : bool :=
  bool_decide (Board.owner board = user) || bool_decide (user ∈ Board.members board).

Module IsBoardOwnerOrMember.
Definition has_object_permission (user : positive) (method : Method)
    (obj : Board.t) : bool :=
  if SAFE_METHODS method then owner_or_member user obj
  else bool_decide (Board.owner obj = user).
End IsBoardOwnerOrMember.

Module IsBoardMember.
(** A column, a task (through its [board] property) and a label have the
    attribute [board]; a board has neither [board] nor [column] and is
    taken itself; a comment or an attachment has neither, is taken itself
    too, and has no [owner]: the check ends in [AttributeError], here
    [None]. *)
Definition has_object_permission (user : positive) (method : Method)
    (obj : Obj) : option bool :=
  match obj with
  | ColumnObj board | TaskObj board _ _ | LabelObj board =>
      Some (owner_or_member user board)
  | BoardObj board => Some (owner_or_member user board)
  | CommentObj _ _ | AttachmentObj _ => None
  end.
End IsBoardMember.

Module IsTaskAssigneeOrCreator.
Definition has_object_permission (user : positive) (method : Method)
    (board : Board.t) (creator : positive) (assignee : option positive) : bool :=
  if bool_decide (Board.owner board = user) then true
  else if SAFE_METHODS method then bool_decide (user ∈ Board.members board)
  else bool_decide (creator = user) || bool_decide (assignee = Some user).
End IsTaskAssigneeOrCreator.

Module IsCommentAuthor.
Definition has_object_permission (user : positive) (method : Method)
    (board : Board.t) (author : positive) : bool :=
  if SAFE_METHODS method then owner_or_member user board
  else bool_decide (author = user).
End IsCommentAuthor.

(** ** Members of a board (api/views.py, [BoardMembersAPIView])

    The tables this view reads and writes: boards with their member sets,
    users by name, and the activity log. *)

Record Site := mkSite {
  Board_objects : gmap positive Board.t;
  User_objects : gmap positive string;
  Site_activity : list ActivityLog.t
}.

Definition HTTP_403_FORBIDDEN : Z := 403.

Module BoardMembersAPIView.
(** What [get] answers: an error response, or the serialized users. *)
Inductive Reply :=
| Plain (r : HttpResponse)
| Users (ids : gset positive).

(** [get_queryset]: the stored users that are the owner or a member of the
    board; no user for an unknown board. *)
Definition get_queryset (board_id : positive) (site : Site) : gset positive :=
  match Board_objects site !! board_id with
  | None => ∅
  | Some board =>
      filter (λ u, u = Board.owner board ∨ u ∈ Board.members board)
             (dom (User_objects site))
  end.

Definition get (request_user board_id : positive) (site : Site) : Reply :=
  match Board_objects site !! board_id with
  | None => Plain (Response (Error "Board not found") HTTP_404_NOT_FOUND)
  | Some board =>
      if negb (owner_or_member request_user board) then
        Plain (Response (Error "Permission denied") HTTP_403_FORBIDDEN)
      else Users (get_queryset board_id site)
  end.

(** [post]: [user_id] is [request.data.get('user_id')], absent ([None]) or
    an integer; [not user_id] holds for an absent one and for 0. *)
Definition post (request_user board_id : positive) (user_id : option Z)
    (site : Site) : HttpResponse * Site :=
  match Board_objects site !! board_id with
  | None => (Response (Error "Board not found") HTTP_404_NOT_FOUND, site)
  | Some board =>
      if bool_decide (Board.owner board ≠ request_user) then
        (Response (Error "Only board owner can add members") HTTP_403_FORBIDDEN, site)
      else
        match user_id with
        | None | Some 0 =>
            (Response (Error "user_id is required") HTTP_400_BAD_REQUEST, site)
        | Some id =>
            match lookup_id id (User_objects site) with
            | None => (Response (Error "User not found") HTTP_404_NOT_FOUND, site)
            | Some (user, username) =>
                if bool_decide (user = Board.owner board) then
                  (Response (Error "User is board owner") HTTP_400_BAD_REQUEST, site)
                else
                  (Response (Status "member added") HTTP_201_CREATED,
                   mkSite
                     (<[board_id := Board.mk (Board.title board) (Board.owner board)
                                      ({[user]} ∪ Board.members board)]>
                        (Board_objects site))
                     (User_objects site)
                     (Site_activity site ++
                        [ActivityLog.mk request_user board_id "add_member"
                           [("member_id", JInt (Zpos user));
                            ("member_username", JStr username)]]))
            end
        end
  end.
End BoardMembersAPIView.

(** A site with board 1 owned by user 1 with member 2, and users 1, 2, 3. *)
Definition small_site : Site :=
  mkSite {[1%positive := Board.mk "Roadmap" 1 {[2%positive]}]}
         (list_to_map [(1%positive, "ann"); (2%positive, "bob"); (3%positive, "cy")])
         [].

(** [BoardViewSet.perform_destroy]: the deletion is logged, then the board
    is deleted; [ActivityLog.board] is declared with [on_delete=CASCADE],
    so the entries of the board go with it.  (The columns and labels of
    the board go too; they are not part of [Site].) *)
Definition BoardViewSet_perform_destroy (user : positive)
    (instance : positive * Board.t) (site : Site) : Site :=
  let logged :=
    Site_activity site ++
    [ActivityLog.mk user instance.1 "delete_board"
       [("board_title", JStr (Board.title instance.2))]] in
  mkSite (delete instance.1 (Board_objects site))
         (User_objects site)
         (filter (λ e, ActivityLog.board e ≠ instance.1) logged).

(** [ActivityLogViewSet.get_queryset]: the entries of the boards the user
    owns or is a member of, newest first. *)
Definition ActivityLogViewSet_get_queryset (user : positive) (site : Site)
  : list ActivityLog.t :=
  let user_boards : gset positive :=
    dom (filter (λ kb, owner_or_member user kb.2 = true) (Board_objects site)) in
  reverse (filter (λ e, ActivityLog.board e ∈ user_boards) (Site_activity site)).

(** * Properties *)

(** ** The position allocator of [save] *)

Lemma position__max_nil_iff (ps : list Z) : position__max ps = None ↔ ps = [].
Proof. destruct ps; simpl; split; intros; congruence. Qed.

Lemma position__max_spec (ps : list Z) (m : Z) :
  position__max ps = Some m → m ∈ ps ∧ ∀ p, p ∈ ps → p ≤ m.
Proof.
  revert m. induction ps as [|q ps IH]; simpl; intros m Hm; [done|].
  destruct (position__max ps) as [m'|] eqn:E.
  - destruct (IH m' eq_refl) as [Hin Hle].
    injection Hm as <-. split.
    + rewrite elem_of_cons.
      destruct (Z.max_spec q m') as [[_ ->]|[_ ->]]; auto.
    + intros p [->|Hp]%elem_of_cons; [lia|]. specialize (Hle p Hp). lia.
  - apply position__max_nil_iff in E as ->. injection Hm as <-.
    split; [apply list_elem_of_singleton; done|].
    intros p Hp. apply list_elem_of_singleton in Hp. lia.
Qed.

(** What [(max_position or -1) + 1] evaluates to. *)
Lemma py_or_allocate (x : option Z) :
  py_or x (-1) + 1 =
    match x with
    | None => 0
    | Some m => if decide (m = 0) then 0 else m + 1
    end.
Proof. destruct x as [[| |]|]; reflexivity. Qed.

Lemma fresh_pk_bound {A} (tbl : gmap positive A) (k : positive) :
  is_Some (tbl !! k) → (k < fresh_pk tbl)%positive.
Proof.
  intros [x Hx]. apply elem_of_map_to_list in Hx.
  unfold fresh_pk. induction (map_to_list tbl) as [|[k' x'] l IH]; [inversion Hx|].
  simpl. apply elem_of_cons in Hx as [Heq|Hin].
  - injection Heq as <- <-.
    eapply Pos.lt_le_trans; [|apply Pos.le_max_l]. lia.
  - eapply Pos.lt_le_trans; [apply IH, Hin|apply Pos.le_max_r].
Qed.

Lemma fresh_pk_None {A} (tbl : gmap positive A) : tbl !! fresh_pk tbl = None.
Proof.
  destruct (tbl !! fresh_pk tbl) eqn:E; [|done].
  pose proof (fresh_pk_bound tbl (fresh_pk tbl) (mk_is_Some _ _ E)). lia.
Qed.

(** ** Dense position lists *)

Lemma dense_nil : dense [].
Proof. unfold dense. simpl. reflexivity. Qed.

Lemma dense_NoDup (ps : list Z) : dense ps → NoDup ps.
Proof. unfold dense. intros ->. apply NoDup_seqZ. Qed.

Lemma dense_bounded (ps : list Z) (p : Z) :
  dense ps → p ∈ ps → 0 ≤ p < Z.of_nat (length ps).
Proof.
  unfold dense. intros Hd Hp. rewrite Hd in Hp.
  apply elem_of_seqZ in Hp. lia.
Qed.

Lemma dense_elem (ps : list Z) (p : Z) :
  dense ps → 0 ≤ p < Z.of_nat (length ps) → p ∈ ps.
Proof.
  unfold dense. intros Hd Hp. rewrite Hd. apply elem_of_seqZ. lia.
Qed.

(** A duplicate-free list of [n] positions below [n] is dense. *)
Lemma NoDup_bounded_dense (ps : list Z) :
  NoDup ps → (∀ p, p ∈ ps → 0 ≤ p < Z.of_nat (length ps)) → dense ps.
Proof.
  intros Hnd Hb. unfold dense.
  apply submseteq_length_Permutation.
  - apply NoDup_submseteq; [done|].
    intros p Hp. apply elem_of_seqZ. specialize (Hb p Hp). lia.
  - rewrite length_seqZ. lia.
Qed.

#[global] Instance dense_Permutation : Proper ((≡ₚ) ==> iff) dense.
Proof.
  assert (∀ l k, l ≡ₚ k → dense l → dense k) as Himpl.
  { intros l k Hlk Hd. unfold dense in *. by rewrite <- Hlk. }
  intros l k Hlk. split; apply Himpl; [done | by symmetry].
Qed.

Lemma dense_position__max (ps : list Z) :
  dense ps → ps ≠ [] → position__max ps = Some (Z.of_nat (length ps) - 1).
Proof.
  intros Hd Hne.
  destruct (position__max ps) as [m|] eqn:E;
    [|by apply position__max_nil_iff in E].
  destruct (position__max_spec ps m E) as [Hin Hmax].
  pose proof (dense_bounded ps m Hd Hin).
  assert (Z.of_nat (length ps) - 1 ∈ ps) as Hlast.
  { apply dense_elem; [done|]. destruct ps; [done|]. simpl. lia. }
  specialize (Hmax _ Hlast). f_equal. lia.
Qed.

(** Appending at the end keeps a list dense; removing the last position
    too. *)
Lemma dense_snoc (ps : list Z) :
  dense ps → dense (Z.of_nat (length ps) :: ps).
Proof.
  intros Hd. apply NoDup_bounded_dense.
  - apply NoDup_cons. split; [|by apply dense_NoDup].
    intros Hin. pose proof (dense_bounded _ _ Hd Hin). lia.
  - intros p [->|Hp]%elem_of_cons; simpl; [lia|].
    pose proof (dense_bounded _ _ Hd Hp). lia.
Qed.

Lemma dense_remove (ps : list Z) (o : Z) :
  dense (o :: ps) → (dense ps ↔ o = Z.of_nat (length ps)).
Proof.
  intros Hd. pose proof (dense_NoDup _ Hd) as [Hnotin Hnd]%NoDup_cons.
  split.
  - intros Hps.
    pose proof (dense_bounded _ o Hd ltac:(rewrite elem_of_cons; auto)) as Ho.
    simpl in Ho.
    destruct (decide (o = Z.of_nat (length ps))) as [|Hne]; [done|].
    exfalso. apply Hnotin. apply dense_elem; [done|]. lia.
  - intros ->. apply NoDup_bounded_dense; [done|].
    intros p Hp.
    pose proof (dense_bounded _ p Hd ltac:(rewrite elem_of_cons; auto)) as Hb.
    simpl in Hb.
    assert (p ≠ Z.of_nat (length ps)) by (intros ->; done).
    lia.
Qed.

(** ** Positions of the siblings in a table *)

Section positions.
Context {A : Type} (container : A → positive) (position : A → Z).
Implicit Types (tbl : gmap positive A) (k i : positive) (r : A).

Local Abbreviation pos_of := (sibling_positions container position).
Local Abbreviation rows_pos k l :=
  (position <$> filter (λ r, bool_decide (container r = k) = true) l.*2).

Lemma rows_pos_cons k i r (l : list (positive * A)) :
  rows_pos k ((i, r) :: l) =
    if decide (container r = k) then position r :: rows_pos k l
    else rows_pos k l.
Proof.
  simpl. rewrite filter_cons.
  destruct (decide (container r = k)) as [Heq|Hne].
  - rewrite decide_True; [done|]. by apply bool_decide_eq_true.
  - rewrite decide_False; [done|]. by rewrite bool_decide_eq_true.
Qed.

Lemma rows_pos_Permutation k (l l' : list (positive * A)) :
  l ≡ₚ l' → rows_pos k l ≡ₚ rows_pos k l'.
Proof. by intros ->. Qed.

Lemma pos_of_insert_fresh k i r tbl :
  tbl !! i = None →
  pos_of k (<[i:=r]> tbl) ≡ₚ
    if decide (container r = k) then position r :: pos_of k tbl
    else pos_of k tbl.
Proof.
  intros Hi. unfold sibling_positions, qs_filter.
  rewrite (rows_pos_Permutation k _ _ (map_to_list_insert tbl i r Hi)).
  by rewrite rows_pos_cons.
Qed.

Lemma pos_of_delete k i r tbl :
  tbl !! i = Some r →
  pos_of k tbl ≡ₚ
    if decide (container r = k) then position r :: pos_of k (delete i tbl)
    else pos_of k (delete i tbl).
Proof.
  intros Hi. unfold sibling_positions, qs_filter.
  rewrite <- (rows_pos_Permutation k _ _ (map_to_list_delete tbl i r Hi)).
  by rewrite rows_pos_cons.
Qed.

Lemma pos_of_insert k i r tbl :
  pos_of k (<[i:=r]> tbl) ≡ₚ
    if decide (container r = k) then position r :: pos_of k (delete i tbl)
    else pos_of k (delete i tbl).
Proof.
  rewrite <- insert_delete_eq.
  apply pos_of_insert_fresh, lookup_delete_eq.
Qed.

(** An update that keeps the container and moves positions by [τ]. *)
Lemma pos_of_fmap k (g : A → A) (τ : Z → Z) tbl :
  (∀ r, container (g r) = container r) →
  (∀ r, container r = k → position (g r) = τ (position r)) →
  pos_of k (g <$> tbl) ≡ₚ τ <$> pos_of k tbl.
Proof.
  intros Hc Hp. unfold sibling_positions, qs_filter.
  rewrite map_to_list_fmap.
  induction (map_to_list tbl) as [|[i r] l IH]; [done|].
  rewrite fmap_cons. unfold prod_map at 1. simpl fst. simpl snd.
  rewrite !rows_pos_cons, Hc.
  destruct (decide (container r = k)) as [Heq|Hne].
  - rewrite fmap_cons, (Hp r Heq). by f_equiv.
  - done.
Qed.

(** Rows kept or dropped by a cascade. *)
Lemma pos_of_filter_keep k (P : A → Prop) `{∀ r, Decision (P r)} tbl :
  (∀ r, container r = k → P r) →
  pos_of k (filter (λ ir, P ir.2) tbl) ≡ₚ pos_of k tbl.
Proof.
  intros HP. induction tbl as [|i r tbl Hi IH] using map_ind.
  - by rewrite map_filter_empty.
  - destruct (decide (P r)) as [Hr|Hr].
    + rewrite map_filter_insert_True by done.
      rewrite !pos_of_insert_fresh; [|done|by rewrite map_lookup_filter_None; left].
      destruct (decide _); by rewrite IH.
    + rewrite map_filter_insert_not'; [|done|by intros y Hy; rewrite Hi in Hy].
      rewrite pos_of_insert_fresh by done.
      destruct (decide (container r = k)) as [Heq|]; [|done].
      destruct Hr. by apply HP.
Qed.

Lemma pos_of_filter_drop k (P : A → Prop) `{∀ r, Decision (P r)} tbl :
  (∀ r, container r = k → ¬ P r) →
  pos_of k (filter (λ ir, P ir.2) tbl) = [].
Proof.
  intros HP. apply elem_of_nil_inv. intros p Hp.
  unfold sibling_positions, qs_filter in Hp.
  apply list_elem_of_fmap in Hp as (r & -> & Hr).
  apply list_elem_of_filter in Hr as [Hk Hr].
  apply bool_decide_eq_true in Hk.
  apply list_elem_of_fmap in Hr as ([i r'] & -> & Hir).
  apply elem_of_map_to_list, map_lookup_filter_Some in Hir as [_ Hir].
  by apply (HP r').
Qed.

End positions.


(** ** The column move handler *)

Ltac run_action :=
  cbv beta iota delta [mbind M_bind mret M_ret query modify atomic
                       ActivityLog_objects_create];
  cbn [fst snd ColumnMoveSerializer.position
       TaskMoveSerializer.column_id TaskMoveSerializer.position].

(** Decide one [admissible] condition on a concrete database. *)
Ltac admissible_here :=
  cbn [admissible];
  first [ exact I
        | intros ? ? ? Htask Hcolumn; vm_compute in Htask, Hcolumn;
          injection Htask as <-; injection Hcolumn as <- <-;
          vm_compute; first [reflexivity | discriminate]
        | intros ? Hrow; vm_compute in Hrow; injection Hrow as <-;
          vm_compute; reflexivity
        | vm_compute; discriminate ].

Lemma ColumnMoveSerializer_is_valid_iff (n : Z) :
  ColumnMoveSerializer.is_valid (ColumnMoveSerializer.mk n) = bool_decide (0 ≤ n).
Proof.
  unfold ColumnMoveSerializer.is_valid, ColumnMoveSerializer.errors. simpl.
  by destruct (bool_decide (0 ≤ n)).
Qed.

Lemma ColumnViewSet_get_queryset_Some board_id pk db column :
  ColumnViewSet.get_queryset board_id db !! pk = Some column ↔
  Column_objects db !! pk = Some column
  ∧ board_id = Some (Zpos (Column.board column)).
Proof.
  unfold ColumnViewSet.get_queryset. rewrite map_lookup_filter_Some. simpl.
  split; intros [H1 H2]; by split.
Qed.

(** Without the keyword argument [board_id] the query set is empty. *)
Lemma ColumnViewSet_get_queryset_None pk db :
  ColumnViewSet.get_queryset None db !! pk = None.
Proof.
  destruct (ColumnViewSet.get_queryset None db !! pk) as [column|] eqn:E; [|done].
  apply ColumnViewSet_get_queryset_Some in E as [_ E]. discriminate.
Qed.

Lemma ColumnViewSet_move_missing board_id user pk data db :
  ColumnViewSet.get_queryset board_id db !! pk = None →
  ColumnViewSet.move board_id user pk data db = Raises Http404 db.
Proof.
  intros Hpk. unfold ColumnViewSet.move, ColumnViewSet.get_object.
  run_action. by rewrite Hpk.
Qed.

Lemma ColumnViewSet_move_invalid board_id user pk n db column :
  ColumnViewSet.get_queryset board_id db !! pk = Some column → n < 0 →
  ColumnViewSet.move board_id user pk (ColumnMoveSerializer.mk n) db =
    Returns (Response (Errors [("position", min_value 0)]) HTTP_400_BAD_REQUEST) db.
Proof.
  intros Hpk Hn. unfold ColumnViewSet.move, ColumnViewSet.get_object.
  run_action. rewrite Hpk, ColumnMoveSerializer_is_valid_iff.
  rewrite bool_decide_eq_false_2 by lia.
  unfold ColumnMoveSerializer.errors. simpl.
  by rewrite bool_decide_eq_false_2 by lia.
Qed.

Lemma ColumnViewSet_move_ok board_id user pk n db column :
  ColumnViewSet.get_queryset board_id db !! pk = Some column → 0 ≤ n →
  ColumnViewSet.move board_id user pk (ColumnMoveSerializer.mk n) db =
    Returns column_moved_response
      (set_activity (λ l, l ++ [move_column_entry user column n])
        (set_columns (Column_moved pk column n) db)).
Proof.
  intros Hpk Hn. unfold ColumnViewSet.move, ColumnViewSet.get_object.
  run_action. rewrite Hpk, ColumnMoveSerializer_is_valid_iff.
  rewrite bool_decide_eq_true_2 by lia. simpl.
  unfold Column_moved, Column_save. run_action.
  by destruct (bool_decide (n < Column.position column)).
Qed.

(** The three ways a column move can end. *)
Lemma ColumnViewSet_move_cases board_id user pk n db :
  let o := ColumnViewSet.move board_id user pk (ColumnMoveSerializer.mk n) db in
  o = Raises Http404 db
  ∨ o = Returns (Response (Errors [("position", min_value 0)])
                          HTTP_400_BAD_REQUEST) db
  ∨ (∃ column,
       Column_objects db !! pk = Some column
       ∧ board_id = Some (Zpos (Column.board column))
       ∧ 0 ≤ n
       ∧ o = Returns column_moved_response
               (set_activity (λ l, l ++ [move_column_entry user column n])
                 (set_columns (Column_moved pk column n) db))).
Proof.
  intros o. unfold o. clear o.
  destruct (ColumnViewSet.get_queryset board_id db !! pk) as [column|] eqn:Hpk;
    [|left; by apply ColumnViewSet_move_missing].
  right. destruct (decide (0 ≤ n)) as [Hn|Hn].
  - right. exists column.
    pose proof Hpk as [Hrow Hboard]%ColumnViewSet_get_queryset_Some.
    repeat split; try done. by apply ColumnViewSet_move_ok.
  - left. apply (ColumnViewSet_move_invalid _ _ _ _ _ column); [done|lia].
Qed.

(** A request on [columns/<int:pk>/move/] is answered 404. *)
Lemma handle_move_column user pk n db :
  handle (move_column user pk n) db = Raises Http404 db.
Proof. apply ColumnViewSet_move_missing, ColumnViewSet_get_queryset_None. Qed.

Lemma Column_moved_self pk column n cols :
  Column_moved pk column n cols !! pk = Some (Column.with_position n column).
Proof. unfold Column_moved. apply lookup_insert_eq. Qed.

Lemma Column_moved_other pk column n cols k c :
  k ≠ pk → cols !! k = Some c →
  Column_moved pk column n cols !! k =
    Some (if decide (Column.board c = Column.board column) then
            if decide (n < Column.position column
                       ∧ n ≤ Column.position c < Column.position column)
            then Column_shift 1 c
            else if decide (Column.position column < Column.position c ≤ n)
            then Column_shift (-1) c
            else c
          else c).
Proof.
  intros Hne Hk. unfold Column_moved. rewrite lookup_insert_ne by done.
  case_bool_decide; unfold qs_update; rewrite lookup_fmap, Hk; simpl;
    repeat case_bool_decide; repeat case_decide; simpl;
    try reflexivity; try lia; try contradiction.
Qed.

(** C4. No column move renumbers anything.  The handler looks the column
    up in a query set filtered by the keyword argument [board_id] of the
    URL, which [columns/<int:pk>/move/] does not supply: every request is
    answered 404 with the database as it was, before the code that shifts
    the siblings is reached.  So for column C3 of the concrete board,
    stored at position 2 and asked to go to position 0. *)
Theorem column_move_is_not_found :
  Column_objects kanban !! 3%positive = Some (Column.mk "C3" 1 2)
  ∧ C3_to_front = Raises Http404 kanban
  ∧ ∀ user pk n db, handle (move_column user pk n) db = Raises Http404 db.
Proof.
  split; [reflexivity|]. split; [apply handle_move_column|].
  intros user pk n db. apply handle_move_column.
Qed.


(** ** The task move handler *)

Lemma TaskViewSet_move_missing user pk data db :
  Task_objects db !! pk = None →
  TaskViewSet.move user pk data db = Raises Http404 db.
Proof.
  intros Hpk. unfold TaskViewSet.move, TaskViewSet.get_object.
  run_action. by rewrite Hpk.
Qed.

Lemma TaskViewSet_move_invalid user pk data db task :
  Task_objects db !! pk = Some task →
  TaskMoveSerializer.errors data db ≠ [] →
  TaskViewSet.move user pk data db =
    Returns (Response (Errors (TaskMoveSerializer.errors data db))
                      HTTP_400_BAD_REQUEST) db.
Proof.
  intros Hpk Herr. unfold TaskViewSet.move, TaskViewSet.get_object.
  run_action. rewrite Hpk. unfold TaskMoveSerializer.is_valid.
  destruct (TaskMoveSerializer.errors data db) eqn:E; [congruence|].
  cbv beta iota. by rewrite E.
Qed.

(** ** C1: the cross-column move of the specification *)

(** C1. Moving T2 from C1 (T1, T2, T3 at 0, 1, 2) to C2 (T4 at 0) with
    target position 0 succeeds; C1 is left with T1 at 0 and T3 at 1, but in
    C2 the task T4 stays at position 0 and T2 is stored at position 1: the
    handler uses the requested position plus one as destination index. *)
Theorem cross_column_move_of_T2 :
  result_of T2_to_C2 = Some task_moved_response
  ∧ Task_objects (state_of T2_to_C2) !! 1%positive = Some (Task.mk "T1" 1 0 1)
  ∧ Task_objects (state_of T2_to_C2) !! 3%positive = Some (Task.mk "T3" 1 1 1)
  ∧ Task_objects (state_of T2_to_C2) !! 4%positive = Some (Task.mk "T4" 2 0 1)
  ∧ Task_objects (state_of T2_to_C2) !! 2%positive = Some (Task.mk "T2" 2 1 1).
Proof. vm_compute. repeat split. Qed.

(** ** C2: the position given to a new item *)

Lemma Column_save_new (self : Column.t) (db : DB) :
  Column_save None self db =
    let p := py_or (position__max (Column_sibling_positions (Column.board self) db)) (-1) + 1 in
    Returns (fresh_pk (Column_objects db), Column.with_position p self)
            (set_columns (insert (fresh_pk (Column_objects db))
                                 (Column.with_position p self)) db).
Proof. reflexivity. Qed.

Lemma Task_save_new (self : Task.t) (db : DB) :
  Task_save None self db =
    let p := py_or (position__max (Task_sibling_positions (Task.column self) db)) (-1) + 1 in
    Returns (fresh_pk (Task_objects db), Task.with_position p self)
            (set_tasks (insert (fresh_pk (Task_objects db))
                               (Task.with_position p self)) db).
Proof. reflexivity. Qed.

(** The allocator agrees with "largest sibling position plus one, or 0
    without siblings" except when the largest position is 0. *)
Lemma allocated_position (ps : list Z) :
  py_or (position__max ps) (-1) + 1 =
    match position__max ps with
    | None => 0
    | Some 0 => 0
    | Some m => m + 1
    end.
Proof. destruct (position__max ps) as [[|m|m]|]; reflexivity. Qed.

(** C2. In a container whose only item sits at position 0 the new item is
    stored at position 0 again, not at 1: a second column of a board with
    one column, and a second task of column C2 holding only T4. *)
Theorem second_item_position :
  Column_sibling_positions 7 one_column = [0]
  ∧ result_of (Column_objects_create (Column.mk "B" 7 0) one_column)
      = Some (2%positive, Column.mk "B" 7 0)
  ∧ Task_sibling_positions 2 kanban = [0]
  ∧ result_of (Task_objects_create (Task.mk "T5" 2 0 1) kanban)
      = Some (5%positive, Task.mk "T5" 2 0 1).
Proof. vm_compute. repeat split. Qed.

(** ** C5: invalid target positions *)

(** C5, as stated, fails.  A target position at or beyond the number of
    siblings is accepted: moving task T1 inside its three-task column to
    position 7 answers "task moved" and rewrites all three positions.  And
    the answer to a negative target of a column move is not a validation
    error: column C2 asked to go to position -1 is answered 404. *)
Lemma move_beyond_last_is_accepted :
  length (Task_sibling_positions 1 kanban) = 3%nat
  ∧ result_of T1_to_7 = Some task_moved_response
  ∧ Task.position <$> Task_objects (state_of T1_to_7) !! 1%positive = Some 8
  ∧ Task.position <$> Task_objects (state_of T1_to_7) !! 2%positive = Some 0
  ∧ Task.position <$> Task_objects (state_of T1_to_7) !! 3%positive = Some 1
  ∧ Column_objects kanban !! 2%positive = Some (Column.mk "C2" 1 1)
  ∧ C2_to_minus_1 = Raises Http404 kanban.
Proof. vm_compute. repeat split. Qed.

(** C5, amended. A move request whose target position is negative leaves
    the database as it was, for tasks and for columns.  A task move is
    answered with the validation errors of the serializer (status 400,
    naming the [position] field).  A column move is answered with an
    error, whatever the keyword arguments of its URL: the 404 of the
    lookup, which comes first, or else the validation errors of the
    serializer. *)
Theorem negative_position_rejected
    (user pk : positive) (column_id n : Z) (db : DB) :
  n < 0 →
  (is_Some (Task_objects db !! pk) →
     ∃ errors,
       TaskViewSet.move user pk (TaskMoveSerializer.mk column_id n) db
         = Returns (Response (Errors errors) HTTP_400_BAD_REQUEST) db
       ∧ ("position", min_value 0) ∈ errors)
  ∧ state_of (TaskViewSet.move user pk (TaskMoveSerializer.mk column_id n) db) = db
  ∧ state_of (handle (move_column user pk n) db) = db
  ∧ (∀ board_id,
       ColumnViewSet.move board_id user pk (ColumnMoveSerializer.mk n) db
         = Raises Http404 db
       ∨ ColumnViewSet.move board_id user pk (ColumnMoveSerializer.mk n) db
           = Returns (Response (Errors [("position", min_value 0)])
                               HTTP_400_BAD_REQUEST) db).
Proof.
  intros Hn.
  assert (("position", min_value 0)
            ∈ TaskMoveSerializer.errors (TaskMoveSerializer.mk column_id n) db) as Herr.
  { unfold TaskMoveSerializer.errors. simpl.
    rewrite bool_decide_eq_false_2 by lia.
    rewrite elem_of_app, list_elem_of_singleton. by right. }
  assert (TaskMoveSerializer.errors (TaskMoveSerializer.mk column_id n) db ≠ []) as Hne.
  { intros E. rewrite E in Herr. by apply elem_of_nil in Herr. }
  split; [|split; [|split]].
  - intros [task Hpk]. eexists. split; [|exact Herr].
    by apply (TaskViewSet_move_invalid _ _ _ _ task).
  - destruct (Task_objects db !! pk) as [task|] eqn:Hpk.
    + by rewrite (TaskViewSet_move_invalid _ _ _ _ task).
    + by rewrite TaskViewSet_move_missing.
  - by rewrite handle_move_column.
  - intros board_id.
    destruct (ColumnViewSet_move_cases board_id user pk n db)
      as [E|[E|(column & _ & _ & Hpos & _)]]; [by left|by right|lia].
Qed.

Lemma negative_position_rejected_witness :
  (∃ errors,
     TaskViewSet.move 1 2 (TaskMoveSerializer.mk 2 (-1)) kanban
       = Returns (Response (Errors errors) HTTP_400_BAD_REQUEST) kanban
     ∧ ("position", min_value 0) ∈ errors)
  ∧ state_of (handle (move_column 1 2 (-1)) kanban) = kanban.
Proof.
  destruct (negative_position_rejected 1 2 2 (-1) kanban ltac:(lia))
    as (Ht & _ & Hc & _).
  split; [|exact Hc].
  apply Ht. exists (Task.mk "T2" 1 1 1). vm_compute. reflexivity.
Defined.

(** ** C7: a target column that does not exist *)

(** C7, as stated, fails: the answer is not the 404 of the handler.  The
    serializer has already rejected the unknown column, so the request is
    answered with status 400 and the field error of [column_id]. *)
Lemma unknown_column_is_a_validation_error :
  lookup_id 9 (Column_objects kanban) = None
  ∧ TaskViewSet.move 1 2 (TaskMoveSerializer.mk 9 0) kanban
    = Returns (Response (Errors [("column_id", message "Колонка не найдена")])
                        HTTP_400_BAD_REQUEST) kanban
  ∧ TaskViewSet.move 1 2 (TaskMoveSerializer.mk 9 0) kanban
    ≠ Returns (Response (Error "Column not found") HTTP_404_NOT_FOUND) kanban.
Proof.
  split; [reflexivity|].
  assert (TaskViewSet.move 1 2 (TaskMoveSerializer.mk 9 0) kanban
    = Returns (Response (Errors [("column_id", message "Колонка не найдена")])
                        HTTP_400_BAD_REQUEST) kanban) as E
    by (vm_compute; reflexivity).
  split; [exact E|]. rewrite E. discriminate.
Qed.

(** C7, amended. A task move naming a column id for which no column exists
    is answered with the validation errors of the serializer (status 400,
    with the "column not found" message on [column_id]), and the database
    is left as it was. *)
Theorem unknown_column_rejected
    (user pk : positive) (column_id n : Z) (db : DB) (task : Task.t) :
  Task_objects db !! pk = Some task →
  lookup_id column_id (Column_objects db) = None →
  ∃ errors,
    TaskViewSet.move user pk (TaskMoveSerializer.mk column_id n) db
      = Returns (Response (Errors errors) HTTP_400_BAD_REQUEST) db
    ∧ ("column_id", message "Колонка не найдена") ∈ errors.
Proof.
  intros Hpk Hcol.
  assert (("column_id", message "Колонка не найдена")
            ∈ TaskMoveSerializer.errors (TaskMoveSerializer.mk column_id n) db) as Herr.
  { unfold TaskMoveSerializer.errors, TaskMoveSerializer.validate_column_id.
    simpl. rewrite Hcol. rewrite elem_of_app, list_elem_of_singleton. by left. }
  eexists. split; [|exact Herr].
  apply (TaskViewSet_move_invalid _ _ _ _ task Hpk).
  intros E. rewrite E in Herr. by apply elem_of_nil in Herr.
Qed.

Lemma unknown_column_rejected_witness :
  ∃ errors,
    TaskViewSet.move 1 2 (TaskMoveSerializer.mk 9 0) kanban
      = Returns (Response (Errors errors) HTTP_400_BAD_REQUEST) kanban
    ∧ ("column_id", message "Колонка не найдена") ∈ errors.
Proof.
  apply (unknown_column_rejected 1 2 9 0 kanban (Task.mk "T2" 1 1 1));
    vm_compute; reflexivity.
Defined.


(** ** C6: the activity entry of a move *)

Lemma Column_objects_get_Some id db (c : positive * Column.t) :
  lookup_id id (Column_objects db) = Some c →
  Column_objects_get id db = Returns c db.
Proof. intros H. unfold Column_objects_get. by rewrite H. Qed.

Lemma lookup_id_pos {A} (k : positive) (tbl : gmap positive A) (x : A) :
  tbl !! k = Some x → lookup_id (Zpos k) tbl = Some (k, x).
Proof. intros H. unfold lookup_id. by rewrite H. Qed.

Lemma TaskMoveSerializer_valid column_id n db (c : positive * Column.t) :
  lookup_id column_id (Column_objects db) = Some c → 0 ≤ n →
  TaskMoveSerializer.is_valid (TaskMoveSerializer.mk column_id n) db = true.
Proof.
  intros Hc Hn.
  unfold TaskMoveSerializer.is_valid, TaskMoveSerializer.errors,
    TaskMoveSerializer.validate_column_id. simpl.
  rewrite Hc. by rewrite bool_decide_eq_true_2 by lia.
Qed.

Lemma TaskViewSet_move_across user pk column_id n db task ck new_column old_column :
  Task_objects db !! pk = Some task →
  lookup_id column_id (Column_objects db) = Some (ck, new_column) →
  Column_objects db !! Task.column task = Some old_column →
  Task.column task ≠ ck →
  0 ≤ n →
  TaskViewSet.move user pk (TaskMoveSerializer.mk column_id n) db =
    Returns task_moved_response
      (set_activity
         (λ l, l ++ [move_task_entry user pk task old_column new_column (n + 1)])
         (set_tasks (Task_moved_across pk task ck (n + 1)) db)).
Proof.
  intros Hpk Hnew Hold Hne Hn.
  unfold TaskViewSet.move, TaskViewSet.get_object. run_action.
  rewrite Hpk, (TaskMoveSerializer_valid _ _ _ _ Hnew Hn). cbv beta iota.
  unfold try_except_DoesNotExist.
  rewrite (Column_objects_get_Some _ _ _ Hnew). cbv beta iota.
  unfold TaskViewSet.column_of. cbn [fst snd].
  rewrite (Column_objects_get_Some _ _ _ (lookup_id_pos _ _ _ Hold)).
  cbv beta iota. cbn [fst snd].
  rewrite bool_decide_eq_true_2 by done.
  reflexivity.
Qed.

(** C6, as stated, fails.  Moving T3 inside column C1 succeeds and appends
    no activity entry at all.  Moving column C3 from position 2 to
    position 0 is answered 404 on its route and appends nothing; in a view
    whose keyword arguments name board 1 the move succeeds and appends one
    entry, which carries the title of the column but no identifier, and
    whose [from_position] is the new position 0, not the position 2 the
    column held before. *)
Lemma move_entries_of_the_handlers :
  result_of T3_to_front = Some task_moved_response
  ∧ Task_objects (state_of T3_to_front) !! 3%positive = Some (Task.mk "T3" 1 1 1)
  ∧ ActivityLog_objects (state_of T3_to_front) = ActivityLog_objects kanban
  ∧ Column_objects kanban !! 3%positive = Some (Column.mk "C3" 1 2)
  ∧ C3_to_front = Raises Http404 kanban
  ∧ result_of C3_to_front_on_board_1 = Some column_moved_response
  ∧ ActivityLog_objects (state_of C3_to_front_on_board_1) =
      [ActivityLog.mk 1 1 "move_column"
         [("column_title", JStr "C3");
          ("from_position", JInt 0);
          ("to_position", JInt 0)]].
Proof. vm_compute. repeat split. Qed.

(** C6, amended. A successful column move, and a successful move of a task
    into another column, each append exactly one activity entry.  The
    entry of a column move carries the acting user, the board, the action
    [move_column], the title of the column and the new position.  The
    entry of a task move carries the acting user, the board of the
    destination column, the action [move_task], the identifier and title
    of the task, the titles of the source and destination columns, the
    position the task held before and the position it is stored at. *)
Theorem move_appends_one_entry (user pk : positive) (n : Z) (db : DB) :
  0 ≤ n →
  (∀ board_id db',
     ColumnViewSet.move board_id user pk (ColumnMoveSerializer.mk n) db
       = Returns column_moved_response db' →
     ∃ column entry,
       Column_objects db !! pk = Some column
       ∧ ActivityLog_objects db' = ActivityLog_objects db ++ [entry]
       ∧ ActivityLog.user entry = user
       ∧ ActivityLog.board entry = Column.board column
       ∧ ActivityLog.action entry = "move_column"
       ∧ ("column_title", JStr (Column.title column)) ∈ ActivityLog.details entry
       ∧ ("to_position", JInt n) ∈ ActivityLog.details entry
       ∧ Column.position <$> Column_objects db' !! pk = Some n)
  ∧ (∀ task column_id ck new_column old_column,
       Task_objects db !! pk = Some task →
       lookup_id column_id (Column_objects db) = Some (ck, new_column) →
       Column_objects db !! Task.column task = Some old_column →
       Task.column task ≠ ck →
       ∃ db',
         TaskViewSet.move user pk (TaskMoveSerializer.mk column_id n) db
           = Returns task_moved_response db'
         ∧ ActivityLog_objects db' = ActivityLog_objects db ++
             [ActivityLog.mk user (Column.board new_column) "move_task"
                [("task_id", JInt (Zpos pk));
                 ("task_title", JStr (Task.title task));
                 ("from_column", JStr (Column.title old_column));
                 ("to_column", JStr (Column.title new_column));
                 ("from_position", JInt (Task.position task));
                 ("to_position", JInt (n + 1))]]
         ∧ Task_objects db' !! pk
             = Some (Task.mk (Task.title task) ck (n + 1) (Task.creator task))).
Proof.
  intros Hn. split.
  - intros board_id db' Hmove.
    destruct (ColumnViewSet_move_cases board_id user pk n db)
      as [E|[E|(column & Hpk & _ & _ & E)]];
      rewrite E in Hmove; try discriminate.
    injection Hmove as <-. eexists column, _.
    split; [done|]. simpl. rewrite Column_moved_self. simpl.
    repeat split; unfold move_column_entry; simpl;
      rewrite ?elem_of_cons; auto.
  - intros task column_id ck new_column old_column Hpk Hnew Hold Hne.
    eexists. split; [by eapply TaskViewSet_move_across|].
    simpl. split; [reflexivity|].
    unfold Task_moved_across. by rewrite lookup_insert_eq.
Qed.

Lemma move_appends_one_entry_witness :
  (∃ column entry,
     Column_objects kanban !! 3%positive = Some column
     ∧ ActivityLog_objects (state_of C3_to_front_on_board_1)
         = ActivityLog_objects kanban ++ [entry]
     ∧ ("to_position", JInt 0) ∈ ActivityLog.details entry)
  ∧ (∃ db',
       TaskViewSet.move 1 2 (TaskMoveSerializer.mk 2 0) kanban
         = Returns task_moved_response db'
       ∧ ActivityLog_objects db' =
           [ActivityLog.mk 1 1 "move_task"
              [("task_id", JInt 2);
               ("task_title", JStr "T2");
               ("from_column", JStr "C1");
               ("to_column", JStr "C2");
               ("from_position", JInt 1);
               ("to_position", JInt 1)]]).
Proof.
  destruct (move_appends_one_entry 1 3 0 kanban ltac:(lia)) as [Hc _].
  destruct (move_appends_one_entry 1 2 0 kanban ltac:(lia)) as [_ Ht].
  split.
  - destruct (Hc (Some 1) (state_of C3_to_front_on_board_1)
                 ltac:(vm_compute; reflexivity))
      as (column & entry & Hpk & Hlog & _ & _ & _ & _ & Hto & _).
    by exists column, entry.
  - destruct (Ht (Task.mk "T2" 1 1 1) 2 2%positive (Column.mk "C2" 1 1)
                 (Column.mk "C1" 1 0)
                 ltac:(vm_compute; reflexivity) ltac:(vm_compute; reflexivity)
                 ltac:(vm_compute; reflexivity) ltac:(discriminate))
      as (db' & Hmove & Hlog & _).
    by exists db'.
Defined.

(** ** C8: deletion does not renumber *)

Lemma ColumnViewSet_destroy_ok board_id user pk db column :
  ColumnViewSet.get_queryset board_id db !! pk = Some column →
  ∃ db',
    ColumnViewSet.destroy board_id user pk db
      = Returns (Response NoContent HTTP_204_NO_CONTENT) db'
    ∧ Column_objects db' = delete pk (Column_objects db)
    ∧ Task_objects db' = filter (λ kx, Task.column kx.2 ≠ pk) (Task_objects db).
Proof.
  intros Hpk. eexists.
  unfold ColumnViewSet.destroy, ColumnViewSet.get_object,
    ColumnViewSet.perform_destroy, Column_delete.
  run_action. rewrite Hpk. cbv beta iota. split; [reflexivity|]. by simpl.
Qed.

Lemma ColumnViewSet_destroy_missing board_id user pk db :
  ColumnViewSet.get_queryset board_id db !! pk = None →
  ColumnViewSet.destroy board_id user pk db = Raises Http404 db.
Proof.
  intros Hpk. unfold ColumnViewSet.destroy, ColumnViewSet.get_object.
  run_action. by rewrite Hpk.
Qed.

(** A request to delete on [columns/<int:pk>/] is answered 404. *)
Lemma handle_delete_column user pk db :
  handle (delete_column user pk) db = Raises Http404 db.
Proof. apply ColumnViewSet_destroy_missing, ColumnViewSet_get_queryset_None. Qed.

Lemma TaskViewSet_destroy_ok user pk db task column :
  Task_objects db !! pk = Some task →
  Column_objects db !! Task.column task = Some column →
  ∃ db',
    TaskViewSet.destroy user pk db
      = Returns (Response NoContent HTTP_204_NO_CONTENT) db'
    ∧ Column_objects db' = Column_objects db
    ∧ Task_objects db' = delete pk (Task_objects db).
Proof.
  intros Hpk Hcol. eexists.
  unfold TaskViewSet.destroy, TaskViewSet.get_object,
    TaskViewSet.perform_destroy, TaskViewSet.column_of, Task_delete.
  run_action. rewrite Hpk. cbv beta iota. cbn [fst snd].
  rewrite (Column_objects_get_Some _ _ _ (lookup_id_pos _ _ _ Hcol)).
  cbv beta iota. split; [reflexivity|]. by simpl.
Qed.

Lemma TaskViewSet_destroy_unchanged user pk db :
  (∀ task, Task_objects db !! pk = Some task →
           Column_objects db !! Task.column task = None) →
  state_of (TaskViewSet.destroy user pk db) = db.
Proof.
  intros Hno.
  unfold TaskViewSet.destroy, TaskViewSet.get_object,
    TaskViewSet.perform_destroy, TaskViewSet.column_of, Column_objects_get.
  run_action. destruct (Task_objects db !! pk) as [task|] eqn:Hpk; [|done].
  cbv beta iota. cbn [fst snd]. unfold lookup_id.
  by rewrite (Hno task eq_refl).
Qed.

(** C8. No delete renumbers a sibling.  Whatever a request to delete a
    column does (its lookup may answer 404), every other column is stored
    as before; when the column is deleted (status 204), the positions of
    its board are the old ones without the position of the removed
    column.  Deleting a task removes that row and changes no other task:
    the positions of its column are the old ones without the position of
    the removed task. *)
Theorem destroy_keeps_sibling_positions (user pk : positive) (db : DB) :
  (∀ board_id,
     (∀ k, k ≠ pk →
        Column_objects (state_of (ColumnViewSet.destroy board_id user pk db)) !! k
          = Column_objects db !! k)
     ∧ (∀ db',
          ColumnViewSet.destroy board_id user pk db
            = Returns (Response NoContent HTTP_204_NO_CONTENT) db' →
          ∃ column,
            Column_objects db !! pk = Some column
            ∧ Column_objects db' !! pk = None
            ∧ Column_sibling_positions (Column.board column) db
                ≡ₚ Column.position column
                   :: Column_sibling_positions (Column.board column) db'))
  ∧ (∀ task column,
       Task_objects db !! pk = Some task →
       Column_objects db !! Task.column task = Some column →
       ∃ db',
         TaskViewSet.destroy user pk db
           = Returns (Response NoContent HTTP_204_NO_CONTENT) db'
         ∧ Task_objects db' !! pk = None
         ∧ (∀ k, k ≠ pk → Task_objects db' !! k = Task_objects db !! k)
         ∧ Task_sibling_positions (Task.column task) db
             ≡ₚ Task.position task
                :: Task_sibling_positions (Task.column task) db').
Proof.
  split.
  - intros board_id.
    destruct (ColumnViewSet.get_queryset board_id db !! pk) as [column|] eqn:Hq.
    + destruct (ColumnViewSet_destroy_ok board_id user pk db column Hq)
        as (db1 & Hrun & Hcols & _).
      apply ColumnViewSet_get_queryset_Some in Hq as [Hpk _].
      rewrite Hrun. simpl. split.
      * intros k Hk. rewrite Hcols. by apply lookup_delete_ne.
      * intros db' Heq. injection Heq as <-. exists column.
        split; [done|]. rewrite Hcols. split; [apply lookup_delete_eq|].
        unfold Column_sibling_positions. rewrite Hcols.
        rewrite (pos_of_delete _ _ _ pk column _ Hpk).
        by rewrite decide_True.
    + rewrite ColumnViewSet_destroy_missing by done. simpl.
      split; [done|]. intros db' Heq. discriminate.
  - intros task column Hpk Hcol.
    destruct (TaskViewSet_destroy_ok user pk db task column Hpk Hcol)
      as (db' & Hrun & _ & Htasks).
    exists db'. split; [exact Hrun|]. rewrite Htasks. repeat split.
    + apply lookup_delete_eq.
    + intros k Hk. by apply lookup_delete_ne.
    + unfold Task_sibling_positions. rewrite Htasks.
      rewrite (pos_of_delete _ _ _ pk task _ Hpk).
      by rewrite decide_True.
Qed.

Lemma destroy_keeps_sibling_positions_witness :
  Column_objects (state_of (handle (delete_column 1 1) kanban)) !! 2%positive
    = Some (Column.mk "C2" 1 1)
  ∧ Column_objects (state_of (ColumnViewSet.destroy (Some 1) 1 1 kanban)) !! 3%positive
    = Some (Column.mk "C3" 1 2)
  ∧ (∃ db',
       TaskViewSet.destroy 1 1 kanban
         = Returns (Response NoContent HTTP_204_NO_CONTENT) db'
       ∧ Task_objects db' !! 2%positive = Some (Task.mk "T2" 1 1 1)
       ∧ Task_objects db' !! 3%positive = Some (Task.mk "T3" 1 2 1)).
Proof.
  destruct (destroy_keeps_sibling_positions 1 1 kanban) as [Hc Ht].
  split; [|split].
  - destruct (Hc (urls.kwargs_board_id (urls.column_detail 1))) as [Hframe _].
    unfold handle. rewrite Hframe by discriminate. reflexivity.
  - destruct (Hc (Some 1)) as [Hframe _].
    rewrite Hframe by discriminate. reflexivity.
  - destruct (Ht (Task.mk "T1" 1 0 1) (Column.mk "C1" 1 0)
                 ltac:(vm_compute; reflexivity) ltac:(vm_compute; reflexivity))
      as (db' & Hrun & _ & Hframe & _).
    exists db'. split; [exact Hrun|].
    rewrite !Hframe by discriminate. split; vm_compute; reflexivity.
Defined.

(** ** C10: label ids without a label *)

Lemma existing_labels_set_task_labels ids f db :
  existing_labels ids (set_task_labels f db) = existing_labels ids db.
Proof. reflexivity. Qed.

Lemma existing_labels_cons id ids db :
  existing_labels (id :: ids) db =
    match lookup_id id (Label_objects db) with
    | Some l => l.1 :: existing_labels ids db
    | None => existing_labels ids db
    end.
Proof.
  unfold existing_labels. simpl.
  by destruct (lookup_id id (Label_objects db)).
Qed.

(** The loop skips every id without a label and links the others, in
    order, as long as no link is made twice. *)
Lemma add_labels_ok (task : positive) (ids : list Z) (db : DB) :
  NoDup (existing_labels ids db) →
  (∀ l, l ∈ existing_labels ids db → TaskLabel.mk task l ∉ TaskLabel_objects db) →
  TaskSerializer.add_labels task ids db =
    Returns tt
      (set_task_labels
         (λ tl, tl ++ (TaskLabel.mk task <$> existing_labels ids db)) db).
Proof.
  revert db. induction ids as [|id ids IH]; intros db Hnd Hnew.
  - simpl. unfold mret, M_ret, set_task_labels. destruct db. simpl.
    by rewrite app_nil_r.
  - rewrite existing_labels_cons in Hnd, Hnew. rewrite existing_labels_cons.
    simpl TaskSerializer.add_labels.
    unfold mbind, M_bind, try_except_DoesNotExist, Label_objects_get.
    destruct (lookup_id id (Label_objects db)) as [[k l]|] eqn:Hid.
    + simpl in Hnd, Hnew. apply NoDup_cons in Hnd as [Hk Hnd].
      unfold TaskLabel_objects_create. cbn [fst snd].
      rewrite decide_False
        by (apply Hnew; rewrite elem_of_cons; by left).
      rewrite IH.
      * unfold set_task_labels. simpl. f_equal. f_equal.
        by rewrite <- app_assoc.
      * done.
      * intros l' Hl'. simpl.
        rewrite existing_labels_set_task_labels in Hl'.
        rewrite elem_of_app, list_elem_of_singleton.
        intros [Hold|Heq].
        -- apply (Hnew l'); [rewrite elem_of_cons; by right | done].
        -- injection Heq as ->. done.
    + unfold mret, M_ret. by apply IH.
Qed.

(** When a link is about to be made twice, the loop stops with
    [IntegrityError]. *)
Lemma add_labels_twice (task : positive) (id : Z) (ids : list Z) (db : DB)
    (l : positive * Label.t) :
  lookup_id id (Label_objects db) = Some l →
  TaskLabel.mk task l.1 ∈ TaskLabel_objects db →
  TaskSerializer.add_labels task (id :: ids) db = Raises IntegrityError db.
Proof.
  intros Hid Hin. simpl.
  unfold mbind, M_bind, try_except_DoesNotExist, Label_objects_get.
  rewrite Hid. unfold TaskLabel_objects_create.
  by rewrite decide_True.
Qed.

(** C10, as stated, fails for a list that names an existing label twice.
    With the ids 7 (no such label), 1 and 1 (an existing label), the id 7
    is skipped, but the second link to label 1 violates the unique
    constraint on (task, label): the create, and the update, end with
    [IntegrityError] instead of succeeding. *)
Lemma repeated_label_id_fails :
  Label_objects kanban !! 7%positive = None
  ∧ is_Some (Label_objects kanban !! 1%positive)
  ∧ exception_of create_with_label_twice = Some IntegrityError
  ∧ TaskLabel_objects (state_of create_with_label_twice) = [TaskLabel.mk 5 1]
  ∧ exception_of update_with_label_twice = Some IntegrityError.
Proof. vm_compute. repeat split. by eexists. Qed.

Lemma elem_of_existing_labels (l : positive) (ids : list Z) (db : DB) :
  l ∈ existing_labels ids db ↔ Zpos l ∈ ids ∧ is_Some (Label_objects db !! l).
Proof.
  unfold existing_labels. rewrite list_elem_of_omap. split.
  - intros (id & Hid & Hl). unfold lookup_id in Hl.
    destruct id as [|k|k]; try discriminate.
    destruct (Label_objects db !! k) as [x|] eqn:Hk; [|discriminate].
    injection Hl as <-. split; [done|by eexists].
  - intros [Hid [x Hx]]. exists (Zpos l). split; [done|].
    unfold lookup_id. by rewrite Hx.
Qed.

(** C10, amended. For a [label_ids] list in which no existing label is
    named twice, the ids without a label are skipped silently: the create
    returns the new task and adds exactly one link per existing label of
    the list (given that every link of the table belongs to a task of the
    table), and the update returns the task and replaces its links by
    exactly one link per existing label of the list. *)
Theorem missing_label_ids_skipped (user : positive) (label_ids : list Z) (db : DB) :
  NoDup (existing_labels label_ids db) →
  (∀ title column position,
     (∀ tl, tl ∈ TaskLabel_objects db →
            is_Some (Task_objects db !! TaskLabel.task tl)) →
     ∃ task db',
       TaskSerializer.create user
         (TaskSerializer.mk_create title column position (Some label_ids)) db
         = Returns task db'
       ∧ Task_objects db !! task.1 = None
       ∧ Task_objects db' !! task.1 = Some task.2
       ∧ TaskLabel_objects db' =
           TaskLabel_objects db
           ++ (TaskLabel.mk task.1 <$> existing_labels label_ids db))
  ∧ (∀ instance new_title new_column new_position,
       ∃ task db',
         TaskSerializer.update instance
           (TaskSerializer.mk_update new_title new_column new_position
              (Some label_ids)) db
           = Returns task db'
         ∧ task.1 = instance.1
         ∧ TaskLabel_objects db' =
             filter (λ tl, TaskLabel.task tl ≠ instance.1) (TaskLabel_objects db)
             ++ (TaskLabel.mk instance.1 <$> existing_labels label_ids db)).
Proof.
  intros Hnd. split.
  - intros title column position Hfk.
    unfold TaskSerializer.create, Task_objects_create.
    cbn [TaskSerializer.label_ids TaskSerializer.title TaskSerializer.column
         TaskSerializer.position default].
    unfold mbind at 1. unfold M_bind at 1. rewrite Task_save_new.
    cbv zeta. unfold mbind, M_bind. cbn [fst snd].
    rewrite add_labels_ok.
    + eexists _, _. split; [reflexivity|]. cbn [fst snd]. repeat split.
      * apply fresh_pk_None.
      * simpl. apply lookup_insert_eq.
    + exact Hnd.
    + intros l _ Hin. apply Hfk in Hin. simpl in Hin.
      rewrite fresh_pk_None in Hin. by destruct Hin.
  - intros [pk x] new_title new_column new_position.
    unfold TaskSerializer.update, TaskSerializer.super_update, Task_save,
      TaskLabel_objects_delete_task.
    cbn [TaskSerializer.new_label_ids fst snd].
    run_action. rewrite add_labels_ok.
    + eexists _, _. split; [reflexivity|]. by simpl.
    + exact Hnd.
    + intros l _ Hin. simpl in Hin.
      apply list_elem_of_filter in Hin as [Hne _]. by simpl in Hne.
Qed.

Lemma missing_label_ids_skipped_witness :
  (∃ task db',
     TaskSerializer.create 1
       (TaskSerializer.mk_create "T5" 2 0 (Some [2; 7; 1; 0])) kanban
       = Returns task db'
     ∧ TaskLabel_objects db' = [TaskLabel.mk task.1 2; TaskLabel.mk task.1 1])
  ∧ (∃ task db',
       TaskSerializer.update (2%positive, Task.mk "T2" 1 1 1)
         (TaskSerializer.mk_update None None None (Some [2; 7; 1; 0])) kanban
         = Returns task db'
       ∧ TaskLabel_objects db' = [TaskLabel.mk 2 2; TaskLabel.mk 2 1]).
Proof.
  assert (NoDup (existing_labels [2; 7; 1; 0] kanban)) as Hnd.
  { vm_compute. repeat constructor; rewrite ?elem_of_cons, ?elem_of_nil.
    - intros [Heq|[]]. discriminate.
    - intros []. }
  destruct (missing_label_ids_skipped 1 [2; 7; 1; 0] kanban Hnd) as [Hc Hu].
  split.
  - destruct (Hc "T5" 2%positive 0) as (task & db' & Hrun & _ & _ & Hlinks).
    { intros tl Hin. vm_compute in Hin. by apply elem_of_nil in Hin. }
    exists task, db'. split; [exact Hrun|]. rewrite Hlinks. reflexivity.
  - destruct (Hu (2%positive, Task.mk "T2" 1 1 1) None None None)
      as (task & db' & Hrun & _ & Hlinks).
    exists task, db'. split; [exact Hrun|]. rewrite Hlinks. reflexivity.
Defined.


(** ** C3: density of the positions *)

(** *** The tables after each operation *)

Lemma run_create_column user board title db :
  Column_objects (run_op db (create_column user board title)) =
    <[fresh_pk (Column_objects db) :=
        Column.mk title board
          (py_or (position__max (Column_sibling_positions board db)) (-1) + 1)]>
      (Column_objects db)
  ∧ Task_objects (run_op db (create_column user board title)) = Task_objects db.
Proof. split; reflexivity. Qed.

Lemma run_op_move_column_state user pk p db :
  run_op db (move_column user pk p) = db.
Proof. unfold run_op. by rewrite handle_move_column. Qed.

Lemma run_op_delete_column_state user pk db :
  run_op db (delete_column user pk) = db.
Proof. unfold run_op. by rewrite handle_delete_column. Qed.

Lemma run_create_task user column title db :
  Column_objects (run_op db (create_task user column title)) = Column_objects db
  ∧ Task_objects (run_op db (create_task user column title)) =
      match Column_objects db !! column with
      | Some _ =>
          <[fresh_pk (Task_objects db) :=
              Task.mk title column
                (py_or (position__max (Task_sibling_positions column db)) (-1) + 1)
                user]>
            (Task_objects db)
      | None => Task_objects db
      end.
Proof.
  unfold run_op, handle. run_action.
  destruct (Column_objects db !! column) as [c|] eqn:Hc.
  - rewrite bool_decide_eq_true_2 by by eexists.
    unfold TaskViewSet.perform_create, TaskSerializer.create,
      Task_objects_create, TaskViewSet.column_of, Column_objects_get.
    run_action. rewrite Task_save_new. cbv zeta. cbv beta iota.
    cbn [fst snd TaskSerializer.column TaskSerializer.title
         TaskSerializer.position TaskSerializer.label_ids default
         TaskSerializer.add_labels Task.column Task.with_position].
    run_action. unfold lookup_id.
    cbn [Task.column Task.with_position Column_objects set_tasks].
    rewrite Hc. split; reflexivity.
  - rewrite bool_decide_eq_false_2; [done|].
    intros [? ?]; congruence.
Qed.

Lemma run_delete_task user pk db :
  Column_objects (run_op db (delete_task user pk)) = Column_objects db
  ∧ (Task_objects (run_op db (delete_task user pk)) = Task_objects db
     ∨ Task_objects (run_op db (delete_task user pk)) = delete pk (Task_objects db)).
Proof.
  unfold run_op, handle.
  destruct (Task_objects db !! pk) as [task|] eqn:Hpk.
  - destruct (Column_objects db !! Task.column task) as [column|] eqn:Hcol.
    + destruct (TaskViewSet_destroy_ok user pk db task column Hpk Hcol)
        as (db' & -> & Hc & Ht). simpl. auto.
    + rewrite TaskViewSet_destroy_unchanged; [auto|].
      intros task' Ht'. congruence.
  - rewrite TaskViewSet_destroy_unchanged; [auto|].
    intros task' Ht'. congruence.
Qed.

(** *** Dense lists under append and move *)

Lemma allocate_dense (ps : list Z) :
  dense ps → length ps ≠ 1%nat →
  dense ((py_or (position__max ps) (-1) + 1) :: ps).
Proof.
  intros Hd Hlen. destruct ps as [|p ps'] eqn:E.
  - simpl. by apply (dense_snoc []).
  - rewrite <- E in *. rewrite dense_position__max by (done || by subst).
    assert (2 ≤ length ps)%nat by (subst; simpl in *; lia).
    replace (py_or (Some (Z.of_nat (length ps) - 1)) (-1) + 1)
      with (Z.of_nat (length ps)).
    + by apply dense_snoc.
    + rewrite py_or_allocate. case_decide; lia.
Qed.

Lemma dense_move (o n : Z) (ps : list Z) :
  dense (o :: ps) → 0 ≤ n < Z.of_nat (length (o :: ps)) →
  dense (n :: (shift_position o n <$> ps)).
Proof.
  intros Hd Hn.
  pose proof (dense_NoDup _ Hd) as [Ho Hnd]%NoDup_cons.
  assert (∀ p, p ∈ o :: ps → 0 ≤ p < Z.of_nat (length (o :: ps))) as Hb
    by (intros p; by apply dense_bounded).
  assert (0 ≤ o < Z.of_nat (length (o :: ps))) as Hob
    by (apply Hb; rewrite elem_of_cons; by left).
  assert (∀ p, p ∈ ps → 0 ≤ p < Z.of_nat (length (o :: ps)) ∧ p ≠ o) as Hps.
  { intros p Hp. split; [apply Hb; rewrite elem_of_cons; by right|].
    by intros ->. }
  simpl length in *.
  apply NoDup_bounded_dense.
  - apply NoDup_cons. split.
    + intros (p & Heq & Hp)%list_elem_of_fmap. destruct (Hps p Hp).
      unfold shift_position in Heq. repeat case_decide; lia.
    + apply NoDup_fmap_2_strong; [|done].
      intros p q Hp Hq Heq. destruct (Hps p Hp), (Hps q Hq).
      unfold shift_position in Heq. repeat case_decide; lia.
  - simpl length. rewrite length_fmap.
    intros p [->|(q & -> & Hq)%list_elem_of_fmap]%elem_of_cons; [lia|].
    destruct (Hps q Hq). unfold shift_position. repeat case_decide; lia.
Qed.

(** *** The outcomes of a task move *)

Lemma TaskViewSet_move_within user pk column_id n db task ck new_column :
  Task_objects db !! pk = Some task →
  lookup_id column_id (Column_objects db) = Some (ck, new_column) →
  Task.column task = ck →
  0 ≤ n →
  TaskViewSet.move user pk (TaskMoveSerializer.mk column_id n) db =
    Returns task_moved_response
      (set_tasks (Task_moved_within pk task (n + 1)) db).
Proof.
  intros Hpk Hnew Hsame Hn.
  assert (Column_objects db !! Task.column task = Some new_column) as Hold.
  { unfold lookup_id in Hnew. destruct column_id as [|k|k]; try discriminate.
    destruct (Column_objects db !! k) as [c|] eqn:Hk; [|discriminate].
    injection Hnew as <- <-. by rewrite Hsame. }
  unfold TaskViewSet.move, TaskViewSet.get_object. run_action.
  rewrite Hpk, (TaskMoveSerializer_valid _ _ _ _ Hnew Hn). cbv beta iota.
  unfold try_except_DoesNotExist.
  rewrite (Column_objects_get_Some _ _ _ Hnew). cbv beta iota.
  unfold TaskViewSet.column_of. cbn [fst snd].
  rewrite (Column_objects_get_Some _ _ _ (lookup_id_pos _ _ _ Hold)).
  cbv beta iota. cbn [fst snd].
  rewrite bool_decide_eq_false_2 by (intros Hne; by apply Hne).
  unfold Task_moved_within, Task_save. run_action.
  by destruct (bool_decide (n + 1 < Task.position task)).
Qed.

Lemma TaskViewSet_move_dangling user pk column_id n db task c :
  Task_objects db !! pk = Some task →
  lookup_id column_id (Column_objects db) = Some c →
  Column_objects db !! Task.column task = None →
  0 ≤ n →
  TaskViewSet.move user pk (TaskMoveSerializer.mk column_id n) db =
    Raises (DoesNotExist "Column") db.
Proof.
  intros Hpk Hnew Hold Hn.
  unfold TaskViewSet.move, TaskViewSet.get_object. run_action.
  rewrite Hpk, (TaskMoveSerializer_valid _ _ _ _ Hnew Hn). cbv beta iota.
  unfold try_except_DoesNotExist.
  rewrite (Column_objects_get_Some _ _ _ Hnew). cbv beta iota.
  unfold TaskViewSet.column_of, Column_objects_get, lookup_id. cbn [fst snd].
  by rewrite Hold.
Qed.

Lemma TaskMoveSerializer_errors_nil column_id n db :
  TaskMoveSerializer.errors (TaskMoveSerializer.mk column_id n) db = [] →
  (∃ c, lookup_id column_id (Column_objects db) = Some c) ∧ 0 ≤ n.
Proof.
  unfold TaskMoveSerializer.errors, TaskMoveSerializer.validate_column_id.
  simpl. destruct (lookup_id column_id (Column_objects db)) as [c|];
    [|discriminate].
  case_bool_decide; [|discriminate]. intros _. split; [by exists c|done].
Qed.

(** The five ways a task move can end. *)
Lemma TaskViewSet_move_cases user pk column_id n db :
  let o := TaskViewSet.move user pk (TaskMoveSerializer.mk column_id n) db in
  (Task_objects db !! pk = None ∧ o = Raises Http404 db)
  ∨ (∃ errors, errors ≠ [] ∧
       o = Returns (Response (Errors errors) HTTP_400_BAD_REQUEST) db)
  ∨ o = Raises (DoesNotExist "Column") db
  ∨ (∃ task ck new_column old_column,
       Task_objects db !! pk = Some task
       ∧ lookup_id column_id (Column_objects db) = Some (ck, new_column)
       ∧ Column_objects db !! Task.column task = Some old_column
       ∧ Task.column task ≠ ck ∧ 0 ≤ n
       ∧ o = Returns task_moved_response
               (set_activity
                  (λ l, l ++ [move_task_entry user pk task old_column new_column (n + 1)])
                  (set_tasks (Task_moved_across pk task ck (n + 1)) db)))
  ∨ (∃ task new_column,
       Task_objects db !! pk = Some task
       ∧ lookup_id column_id (Column_objects db)
           = Some (Task.column task, new_column)
       ∧ 0 ≤ n
       ∧ o = Returns task_moved_response
               (set_tasks (Task_moved_within pk task (n + 1)) db)).
Proof.
  intros o. unfold o. clear o.
  destruct (Task_objects db !! pk) as [task|] eqn:Hpk;
    [|left; split; [done|by apply TaskViewSet_move_missing]].
  right.
  destruct (TaskMoveSerializer.errors (TaskMoveSerializer.mk column_id n) db)
    as [|e errs] eqn:Herr.
  - right.
    destruct (TaskMoveSerializer_errors_nil _ _ _ Herr) as [[[ck new_column] Hnew] Hn].
    destruct (Column_objects db !! Task.column task) as [old_column|] eqn:Hold.
    + right. destruct (decide (Task.column task = ck)) as [Heq|Hne].
      * right. exists task, new_column. subst ck. repeat split; try done.
        by eapply TaskViewSet_move_within.
      * left. exists task, ck, new_column, old_column. repeat split; try done.
        by apply TaskViewSet_move_across.
    + left. by eapply TaskViewSet_move_dangling.
  - left. exists (e :: errs). split; [done|]. rewrite <- Herr.
    apply (TaskViewSet_move_invalid _ _ _ _ task Hpk). by rewrite Herr.
Qed.

(** *** The positions of a column after a task move *)

Lemma dense_close_gap (o : Z) (ps : list Z) :
  dense (o :: ps) →
  dense ((λ q, if decide (o < q) then q - 1 else q) <$> ps).
Proof.
  intros Hd.
  pose proof (dense_NoDup _ Hd) as [Ho Hnd]%NoDup_cons.
  assert (∀ p, p ∈ ps → 0 ≤ p < Z.of_nat (S (length ps)) ∧ p ≠ o) as Hps.
  { intros p Hp. split; [|by intros ->].
    apply (dense_bounded _ p Hd). rewrite elem_of_cons. by right. }
  assert (0 ≤ o < Z.of_nat (S (length ps))) as Hob.
  { apply (dense_bounded _ o Hd). rewrite elem_of_cons. by left. }
  apply NoDup_bounded_dense.
  - apply NoDup_fmap_2_strong; [|done].
    intros p q Hp Hq Heq. destruct (Hps p Hp), (Hps q Hq).
    repeat case_decide; lia.
  - rewrite length_fmap. intros p (q & -> & Hq)%list_elem_of_fmap.
    destruct (Hps q Hq). case_decide; lia.
Qed.

Lemma dense_open_gap (n : Z) (ps : list Z) :
  dense ps → 0 ≤ n ≤ Z.of_nat (length ps) →
  dense (n :: ((λ q, if decide (n ≤ q) then q + 1 else q) <$> ps)).
Proof.
  intros Hd Hn.
  pose proof (dense_NoDup _ Hd) as Hnd.
  assert (∀ p, p ∈ ps → 0 ≤ p < Z.of_nat (length ps)) as Hps
    by (intros p; by apply dense_bounded).
  apply NoDup_bounded_dense.
  - apply NoDup_cons. split.
    + intros (p & Heq & Hp)%list_elem_of_fmap. case_decide; lia.
    + apply NoDup_fmap_2_strong; [|done].
      intros p q Hp Hq Heq. repeat case_decide; lia.
  - simpl length. rewrite length_fmap.
    intros p [->|(q & -> & Hq)%list_elem_of_fmap]%elem_of_cons; [lia|].
    specialize (Hps q Hq). case_decide; lia.
Qed.

Lemma Task_moved_within_positions pk task n tasks c :
  tasks !! pk = Some task →
  sibling_positions Task.column Task.position c (Task_moved_within pk task n tasks)
  ≡ₚ if decide (Task.column task = c) then
       n :: (shift_position (Task.position task) n
               <$> sibling_positions Task.column Task.position c (delete pk tasks))
     else sibling_positions Task.column Task.position c tasks.
Proof.
  intros Hpk.
  set (g := if bool_decide (n < Task.position task) then
              λ x : Task.t,
                if bool_decide (Task.column x = Task.column task)
                   && bool_decide (n ≤ Task.position x)
                   && bool_decide (Task.position x < Task.position task)
                then Task_shift 1 x else x
            else
              λ x : Task.t,
                if bool_decide (Task.column x = Task.column task)
                   && bool_decide (Task.position task < Task.position x)
                   && bool_decide (Task.position x ≤ n)
                then Task_shift (-1) x else x).
  assert (Task_moved_within pk task n tasks
          = <[pk := Task.with_position n task]> (g <$> tasks)) as ->.
  { unfold Task_moved_within, qs_update, g. f_equal. by case_bool_decide. }
  assert (∀ x, Task.column (g x) = Task.column x) as Hcol.
  { intros x. unfold g. case_bool_decide; by case_match. }
  rewrite pos_of_insert. rewrite <- fmap_delete. simpl Task.column.
  destruct (decide (Task.column task = c)) as [Hc|Hc].
  - f_equiv. apply pos_of_fmap; [done|].
    intros x Hx. unfold g, shift_position.
    repeat case_bool_decide; repeat case_decide; simpl in *;
      try lia; try congruence.
  - rewrite (pos_of_fmap _ _ c g id); [|done|].
    + rewrite list_fmap_id.
      rewrite (pos_of_delete _ _ c pk task tasks Hpk).
      by rewrite decide_False.
    + intros x Hx. unfold g.
      repeat case_bool_decide; simpl in *; try done; congruence.
Qed.

Lemma Task_moved_across_positions pk task ck n tasks c :
  tasks !! pk = Some task →
  Task.column task ≠ ck →
  sibling_positions Task.column Task.position c (Task_moved_across pk task ck n tasks)
  ≡ₚ if decide (c = ck) then
       n :: ((λ q, if decide (n ≤ q) then q + 1 else q)
               <$> sibling_positions Task.column Task.position c tasks)
     else if decide (c = Task.column task) then
       (λ q, if decide (Task.position task < q) then q - 1 else q)
         <$> sibling_positions Task.column Task.position c (delete pk tasks)
     else sibling_positions Task.column Task.position c tasks.
Proof.
  intros Hpk Hne. unfold Task_moved_across, qs_update.
  set (g1 := λ x : Task.t,
         if bool_decide (Task.column x = Task.column task)
            && bool_decide (Task.position task < Task.position x)
         then Task_shift (-1) x else x).
  set (g2 := λ x : Task.t,
         if bool_decide (Task.column x = ck)
            && bool_decide (n ≤ Task.position x)
         then Task_shift 1 x else x).
  assert (∀ x, Task.column (g1 x) = Task.column x) as Hc1
    by (intros x; unfold g1; by case_match).
  assert (∀ x, Task.column (g2 x) = Task.column x) as Hc2
    by (intros x; unfold g2; by case_match).
  rewrite pos_of_insert. rewrite <- !fmap_delete. simpl Task.column.
  pose proof (pos_of_delete Task.column Task.position c pk task tasks Hpk) as Hdel.
  destruct (decide (c = ck)) as [->|Hck].
  - rewrite decide_True by done. rewrite decide_False in Hdel by done.
    f_equiv. rewrite Hdel.
    rewrite (pos_of_fmap _ _ ck g2 (λ q, if decide (n ≤ q) then q + 1 else q));
      [|done|].
    + f_equiv. rewrite (pos_of_fmap _ _ ck g1 id); [by rewrite list_fmap_id|done|].
      intros x Hx. unfold g1.
      repeat case_bool_decide; simpl in *; try done; congruence.
    + intros x Hx. unfold g2.
      repeat case_bool_decide; repeat case_decide; simpl in *;
        try lia; try congruence.
  - rewrite decide_False by done.
    rewrite (pos_of_fmap _ _ c g2 id); [|done|].
    + rewrite list_fmap_id.
      destruct (decide (c = Task.column task)) as [->|Hsrc].
      * apply pos_of_fmap; [done|].
        intros x Hx. unfold g1.
        repeat case_bool_decide; repeat case_decide; simpl in *;
          try lia; try congruence.
      * rewrite decide_False in Hdel by done. rewrite Hdel.
        rewrite (pos_of_fmap _ _ c g1 id); [by rewrite list_fmap_id|done|].
        intros x Hx. unfold g1.
        repeat case_bool_decide; simpl in *; try done; congruence.
    + intros x Hx. unfold g2.
      repeat case_bool_decide; simpl in *; try done; congruence.
Qed.

(** *** One admissible operation *)

Lemma dense_after_delete {A} (container : A → positive) (position : A → Z)
    (tbl : gmap positive A) (pk k : positive) :
  (∀ j, dense (sibling_positions container position j tbl)) →
  (∀ r, tbl !! pk = Some r →
        position r = Z.of_nat (length (sibling_positions container position
                                         (container r) tbl)) - 1) →
  dense (sibling_positions container position k (delete pk tbl)).
Proof.
  intros Hd Hlast. destruct (tbl !! pk) as [r|] eqn:Hpk.
  - pose proof (Hd k) as Hk. specialize (Hlast r eq_refl).
    pose proof (pos_of_delete container position k pk r tbl Hpk) as Hperm.
    destruct (decide (container r = k)) as [<-|Hne].
    + rewrite Hperm in Hk. apply (dense_remove _ _ Hk).
      rewrite Hlast, Hperm. simpl length. lia.
    + by rewrite <- Hperm.
  - rewrite delete_id by done. apply Hd.
Qed.

Lemma dense_after_create {A} (container : A → positive) (position : A → Z)
    (tbl : gmap positive A) (r : A) (k : positive) :
  (∀ j, dense (sibling_positions container position j tbl)) →
  length (sibling_positions container position (container r) tbl) ≠ 1%nat →
  position r = py_or (position__max (sibling_positions container position
                                       (container r) tbl)) (-1) + 1 →
  dense (sibling_positions container position k (<[fresh_pk tbl := r]> tbl)).
Proof.
  intros Hd Hlen Hpos.
  rewrite pos_of_insert_fresh by apply fresh_pk_None.
  destruct (decide (container r = k)) as [<-|Hne]; [|apply Hd].
  rewrite Hpos. by apply allocate_dense.
Qed.

Lemma dense_after_move_within (pk : positive) (task : Task.t) (n : Z)
    (tasks : gmap positive Task.t) (c : positive) :
  (∀ j, dense (sibling_positions Task.column Task.position j tasks)) →
  tasks !! pk = Some task →
  0 ≤ n < Z.of_nat (length (sibling_positions Task.column Task.position
                              (Task.column task) tasks)) →
  dense (sibling_positions Task.column Task.position c
           (Task_moved_within pk task n tasks)).
Proof.
  intros Hd Hpk Hn.
  pose proof (pos_of_delete Task.column Task.position (Task.column task)
                pk task _ Hpk) as Hdel.
  rewrite decide_True in Hdel by done.
  rewrite Task_moved_within_positions by done.
  case_decide as Hc; [|apply Hd]. subst c.
  apply dense_move.
  - rewrite <- Hdel. apply Hd.
  - by rewrite <- Hdel.
Qed.

Lemma dense_after_move_across (pk : positive) (task : Task.t) (ck : positive)
    (n : Z) (tasks : gmap positive Task.t) (c : positive) :
  (∀ j, dense (sibling_positions Task.column Task.position j tasks)) →
  tasks !! pk = Some task →
  Task.column task ≠ ck →
  (c = ck →
   0 ≤ n ≤ Z.of_nat (length (sibling_positions Task.column Task.position ck tasks))) →
  dense (sibling_positions Task.column Task.position c
           (Task_moved_across pk task ck n tasks)).
Proof.
  intros Hd Hpk Hne Hn.
  pose proof (pos_of_delete Task.column Task.position (Task.column task)
                pk task _ Hpk) as Hdel.
  rewrite decide_True in Hdel by done.
  rewrite Task_moved_across_positions by done.
  case_decide as Hc.
  - subst c. apply dense_open_gap; [apply Hd|by apply Hn].
  - case_decide as Hsrc; [|apply Hd].
    subst c. apply dense_close_gap. rewrite <- Hdel. apply Hd.
Qed.

Lemma dense_step (db : DB) (op : Op) :
  board_dense db → column_dense db → admissible db op →
  board_dense (run_op db op) ∧ column_dense (run_op db op).
Proof.
  intros Hbd Hcd Hadm. unfold board_dense, column_dense in *.
  unfold Column_sibling_positions, Task_sibling_positions in *.
  destruct op as [user board title|user pk p|user pk
                 |user column title|user pk c p|user pk]; simpl in Hadm.
  - destruct (run_create_column user board title db) as [-> ->].
    split; [|done]. intros b. by apply dense_after_create.
  - by rewrite run_op_move_column_state.
  - by rewrite run_op_delete_column_state.
  - destruct (run_create_task user column title db) as [-> ->].
    split; [done|]. intros c.
    destruct (Column_objects db !! column); [|done].
    by apply dense_after_create.
  - unfold run_op, handle.
    destruct (TaskViewSet_move_cases user pk c p db)
      as [[_ E]|[(errs & _ & E)|[E|[(task & ck & nc & oc & Hpk & Hnew & _ & Hne & Hp & E)
         |(task & nc & Hpk & Hnew & Hp & E)]]]]; rewrite E; simpl; try done.
    + specialize (Hadm task ck nc Hpk Hnew).
      rewrite decide_False in Hadm by done.
      unfold Task_sibling_positions in Hadm.
      split; [done|]. intros j.
      apply dense_after_move_across; try done. intros _. lia.
    + specialize (Hadm task (Task.column task) nc Hpk Hnew).
      rewrite decide_True in Hadm by done.
      unfold Task_sibling_positions in Hadm.
      split; [done|]. intros j.
      apply dense_after_move_within; try done. lia.
  - destruct (run_delete_task user pk db) as [-> [-> | ->]];
      split; try done.
    intros c. by apply dense_after_delete.
Qed.

(** Along a sequence of admissible operations the positions stay dense. *)
Lemma dense_run (ops : list Op) (db : DB) :
  board_dense db → column_dense db → admissible_run db ops →
  board_dense (run ops db) ∧ column_dense (run ops db).
Proof.
  revert db. induction ops as [|op ops IH]; intros db Hbd Hcd Hadm; [by split|].
  destruct Hadm as [Hop Hrest]. simpl.
  destruct (dense_step db op Hbd Hcd Hop) as [Hbd' Hcd'].
  by apply IH.
Qed.


(** *** The concrete board is dense *)

Lemma pos_of_no_rows {A} (container : A → positive) (position : A → Z)
    (tbl : gmap positive A) (k : positive) :
  map_Forall (λ _ r, container r ≠ k) tbl →
  sibling_positions container position k tbl = [].
Proof.
  intros Hall. apply elem_of_nil_inv. intros p Hp.
  unfold sibling_positions, qs_filter in Hp.
  apply list_elem_of_fmap in Hp as (r & -> & Hr).
  apply list_elem_of_filter in Hr as [Hk Hr].
  apply bool_decide_eq_true in Hk.
  apply list_elem_of_fmap in Hr as ([i r'] & -> & Hir).
  apply elem_of_map_to_list in Hir. by apply (Hall i r').
Qed.

Lemma dense_kanban : board_dense kanban ∧ column_dense kanban.
Proof.
  assert (dense [2; 1; 0]) as H3
    by (apply NoDup_bounded_dense;
        [apply (bool_decide_unpack _); by vm_compute
        |intros p Hp; rewrite !elem_of_cons, elem_of_nil in Hp; simpl; lia]).
  assert (dense [0]) as H1 by apply (dense_snoc []), dense_nil.
  split.
  - intros b. destruct (decide (b = 1%positive)) as [->|Hb].
    + exact H3.
    + unfold Column_sibling_positions. rewrite pos_of_no_rows; [apply dense_nil|].
      intros i r Hr Hk. apply Hb. rewrite <- Hk. clear Hk Hb.
      revert i r Hr. change (map_Forall (λ _ r, Column.board r = 1%positive)
                               (Column_objects kanban)).
      apply (bool_decide_unpack _). by vm_compute.
  - intros c. destruct (decide (c = 1%positive)) as [->|Hc1]; [exact H3|].
    destruct (decide (c = 2%positive)) as [->|Hc2]; [exact H1|].
    unfold Task_sibling_positions. rewrite pos_of_no_rows; [apply dense_nil|].
    intros i r Hr Hk.
    assert (Task.column r = 1%positive ∨ Task.column r = 2%positive) as [|];
      [|congruence..].
    clear Hk Hc1 Hc2. revert i r Hr.
    change (map_Forall (λ _ r, Task.column r = 1%positive ∨ Task.column r = 2%positive)
              (Task_objects kanban)).
    apply (bool_decide_unpack _). by vm_compute.
Qed.

Lemma dense_empty_db : board_dense empty_db ∧ column_dense empty_db.
Proof.
  split; intros k.
  - unfold Column_sibling_positions.
    rewrite pos_of_no_rows; [apply dense_nil|]. apply map_Forall_empty.
  - unfold Task_sibling_positions.
    rewrite pos_of_no_rows; [apply dense_nil|]. apply map_Forall_empty.
Qed.




(** * Further properties of the handlers *)

(** ** Every outcome of a task move *)

Lemma Task_moved_within_self pk task n tasks :
  Task_moved_within pk task n tasks !! pk = Some (Task.with_position n task).
Proof. unfold Task_moved_within. apply lookup_insert_eq. Qed.

Lemma Task_moved_within_other pk task n tasks k x :
  k ≠ pk → tasks !! k = Some x →
  Task_moved_within pk task n tasks !! k =
    Some (if decide (Task.column x = Task.column task) then
            if decide (n < Task.position task
                       ∧ n ≤ Task.position x < Task.position task)
            then Task_shift 1 x
            else if decide (Task.position task < Task.position x ≤ n)
            then Task_shift (-1) x
            else x
          else x).
Proof.
  intros Hne Hk. unfold Task_moved_within. rewrite lookup_insert_ne by done.
  case_bool_decide; unfold qs_update; rewrite lookup_fmap, Hk; simpl;
    repeat case_bool_decide; repeat case_decide; simpl;
    try reflexivity; try lia; try contradiction.
Qed.

Lemma Task_moved_within_None pk task n tasks k :
  k ≠ pk → tasks !! k = None → Task_moved_within pk task n tasks !! k = None.
Proof.
  intros Hne Hk. unfold Task_moved_within. rewrite lookup_insert_ne by done.
  case_bool_decide; unfold qs_update; by rewrite lookup_fmap, Hk.
Qed.

Lemma Task_moved_across_self pk task ck n tasks :
  Task_moved_across pk task ck n tasks !! pk
    = Some (Task.with_position n (Task.with_column ck task)).
Proof. unfold Task_moved_across. apply lookup_insert_eq. Qed.

Lemma Task_moved_across_other pk task ck n tasks k x :
  Task.column task ≠ ck → k ≠ pk → tasks !! k = Some x →
  Task_moved_across pk task ck n tasks !! k =
    Some (if decide (Task.column x = Task.column task
                     ∧ Task.position task < Task.position x)
          then Task_shift (-1) x
          else if decide (Task.column x = ck ∧ n ≤ Task.position x)
          then Task_shift 1 x
          else x).
Proof.
  intros Hcol Hne Hk. unfold Task_moved_across.
  rewrite lookup_insert_ne by done.
  unfold qs_update. rewrite !lookup_fmap, Hk. simpl.
  repeat case_bool_decide; repeat case_decide; simpl in *;
    try reflexivity; try lia; try congruence; try tauto.
  all: repeat case_bool_decide; simpl in *; try reflexivity; try congruence;
    try tauto.
Qed.

(** X1. A task move inside the column of the task, with requested position
    [n], is answered "task moved" and uses [n + 1] as target: when
    [n + 1] is below the old position [o] the siblings with
    [n + 1 <= position < o] move up by one, otherwise the siblings with
    [o < position <= n + 1] move down by one; the task is stored at
    [n + 1]; every other task, a sibling that shares the old position [o]
    included, is unchanged; and no activity entry is written. *)
Theorem task_move_within_column
    (user pk : positive) (column_id n : Z) (db : DB) (task : Task.t)
    (new_column : Column.t) :
  Task_objects db !! pk = Some task →
  lookup_id column_id (Column_objects db) = Some (Task.column task, new_column) →
  0 ≤ n →
  ∃ db',
    TaskViewSet.move user pk (TaskMoveSerializer.mk column_id n) db
      = Returns task_moved_response db'
    ∧ Task_objects db' !! pk = Some (Task.with_position (n + 1) task)
    ∧ (n + 1 < Task.position task →
       ∀ k x, Task_objects db !! k = Some x → k ≠ pk →
              Task.column x = Task.column task →
              n + 1 ≤ Task.position x < Task.position task →
              Task_objects db' !! k
                = Some (Task.with_position (Task.position x + 1) x))
    ∧ (Task.position task ≤ n + 1 →
       ∀ k x, Task_objects db !! k = Some x → k ≠ pk →
              Task.column x = Task.column task →
              Task.position task < Task.position x ≤ n + 1 →
              Task_objects db' !! k
                = Some (Task.with_position (Task.position x - 1) x))
    ∧ (∀ k x, Task_objects db !! k = Some x → k ≠ pk →
              ¬ (Task.column x = Task.column task
                 ∧ n + 1 ≤ Task.position x < Task.position task) →
              ¬ (Task.column x = Task.column task
                 ∧ Task.position task < Task.position x ≤ n + 1) →
              Task_objects db' !! k = Some x)
    ∧ (∀ k, Task_objects db !! k = None → Task_objects db' !! k = None)
    ∧ ActivityLog_objects db' = ActivityLog_objects db.
Proof.
  intros Hpk Hnew Hn. eexists.
  split; [by eapply TaskViewSet_move_within|].
  simpl. repeat split.
  - apply Task_moved_within_self.
  - intros Hlt k x Hk Hne Hc Hrange.
    rewrite (Task_moved_within_other _ _ _ _ k x Hne Hk).
    rewrite decide_True by done. by rewrite decide_True by lia.
  - intros Hle k x Hk Hne Hc Hrange.
    rewrite (Task_moved_within_other _ _ _ _ k x Hne Hk).
    rewrite decide_True by done. rewrite decide_False by lia.
    by rewrite decide_True by lia.
  - intros k x Hk Hne Hup Hdown.
    rewrite (Task_moved_within_other _ _ _ _ k x Hne Hk).
    case_decide; [|done].
    rewrite decide_False by (intros [_ ?]; by apply Hup).
    by rewrite decide_False by (intros ?; by apply Hdown).
  - intros k Hk. destruct (decide (k = pk)) as [->|Hne]; [congruence|].
    by apply Task_moved_within_None.
Qed.

Lemma task_move_within_column_witness :
  ∃ db',
    TaskViewSet.move 1 3 (TaskMoveSerializer.mk 1 0) kanban
      = Returns task_moved_response db'
    ∧ Task_objects db' !! 3%positive = Some (Task.mk "T3" 1 1 1)
    ∧ Task_objects db' !! 2%positive = Some (Task.mk "T2" 1 2 1)
    ∧ Task_objects db' !! 1%positive = Some (Task.mk "T1" 1 0 1).
Proof.
  destruct (task_move_within_column 1 3 1 0 kanban (Task.mk "T3" 1 2 1)
              (Column.mk "C1" 1 0))
    as (db' & Hmove & Hself & Hup & _ & Hrest & _);
    [vm_compute; reflexivity | vm_compute; reflexivity | lia |].
  exists db'. split; [exact Hmove|]. split; [exact Hself|]. split.
  - apply (Hup ltac:(simpl; lia) 2%positive (Task.mk "T2" 1 1 1));
      [vm_compute; reflexivity | discriminate | reflexivity | simpl; lia].
  - apply (Hrest 1%positive (Task.mk "T1" 1 0 1));
      [vm_compute; reflexivity | discriminate | simpl; lia | simpl; lia].
Defined.

(** X2. A task move into another column, with requested position [n],
    is answered "task moved": the task is stored in the destination column
    at position [n + 1]; in the source column every task above the old
    position moves down by one; in the destination column every task at
    [n + 1] or above moves up by one; every other task is unchanged. *)
Theorem task_move_across_columns
    (user pk : positive) (column_id n : Z) (db : DB) (task : Task.t)
    (ck : positive) (new_column old_column : Column.t) :
  Task_objects db !! pk = Some task →
  lookup_id column_id (Column_objects db) = Some (ck, new_column) →
  Column_objects db !! Task.column task = Some old_column →
  Task.column task ≠ ck →
  0 ≤ n →
  ∃ db',
    TaskViewSet.move user pk (TaskMoveSerializer.mk column_id n) db
      = Returns task_moved_response db'
    ∧ Task_objects db' !! pk
        = Some (Task.mk (Task.title task) ck (n + 1) (Task.creator task))
    ∧ (∀ k x, Task_objects db !! k = Some x → k ≠ pk →
              Task.column x = Task.column task →
              Task.position task < Task.position x →
              Task_objects db' !! k
                = Some (Task.with_position (Task.position x - 1) x))
    ∧ (∀ k x, Task_objects db !! k = Some x → k ≠ pk →
              Task.column x = ck → n + 1 ≤ Task.position x →
              Task_objects db' !! k
                = Some (Task.with_position (Task.position x + 1) x))
    ∧ (∀ k x, Task_objects db !! k = Some x → k ≠ pk →
              ¬ (Task.column x = Task.column task
                 ∧ Task.position task < Task.position x) →
              ¬ (Task.column x = ck ∧ n + 1 ≤ Task.position x) →
              Task_objects db' !! k = Some x).
Proof.
  intros Hpk Hnew Hold Hcol Hn. eexists.
  split; [by eapply TaskViewSet_move_across|].
  simpl. repeat split.
  - apply Task_moved_across_self.
  - intros k x Hk Hne Hc Hpos.
    rewrite (Task_moved_across_other _ _ _ _ _ k x Hcol Hne Hk).
    by rewrite decide_True by done.
  - intros k x Hk Hne Hc Hpos.
    rewrite (Task_moved_across_other _ _ _ _ _ k x Hcol Hne Hk).
    rewrite decide_False by (intros [? _]; congruence).
    by rewrite decide_True by done.
  - intros k x Hk Hne Hsrc Hdst.
    rewrite (Task_moved_across_other _ _ _ _ _ k x Hcol Hne Hk).
    rewrite decide_False by done. by rewrite decide_False by done.
Qed.

Lemma task_move_across_columns_witness :
  ∃ db',
    TaskViewSet.move 1 1 (TaskMoveSerializer.mk 2 0) kanban
      = Returns task_moved_response db'
    ∧ Task_objects db' !! 1%positive = Some (Task.mk "T1" 2 1 1)
    ∧ Task_objects db' !! 2%positive = Some (Task.mk "T2" 1 0 1)
    ∧ Task_objects db' !! 3%positive = Some (Task.mk "T3" 1 1 1)
    ∧ Task_objects db' !! 4%positive = Some (Task.mk "T4" 2 0 1).
Proof.
  destruct (task_move_across_columns 1 1 2 0 kanban (Task.mk "T1" 1 0 1)
              2%positive (Column.mk "C2" 1 1) (Column.mk "C1" 1 0))
    as (db' & Hmove & Hself & Hsrc & _ & Hrest);
    [vm_compute; reflexivity | vm_compute; reflexivity
    | vm_compute; reflexivity | discriminate | lia |].
  exists db'. split; [exact Hmove|]. split; [exact Hself|]. repeat split.
  - apply (Hsrc 2%positive (Task.mk "T2" 1 1 1));
      [vm_compute; reflexivity | discriminate | reflexivity | simpl; lia].
  - apply (Hsrc 3%positive (Task.mk "T3" 1 2 1));
      [vm_compute; reflexivity | discriminate | reflexivity | simpl; lia].
  - apply (Hrest 4%positive (Task.mk "T4" 2 0 1));
      [vm_compute; reflexivity | discriminate | simpl; lia | simpl; lia].
Defined.

(** X3. No task move ever stores the task at position 0: whenever the
    handler answers "task moved", the moved task is stored at the requested
    position plus one, which is at least 1. *)
Theorem task_move_never_first
    (user pk : positive) (column_id n : Z) (db db' : DB) :
  TaskViewSet.move user pk (TaskMoveSerializer.mk column_id n) db
    = Returns task_moved_response db' →
  ∃ x, Task_objects db' !! pk = Some x
       ∧ Task.position x = n + 1 ∧ 1 ≤ Task.position x.
Proof.
  intros Hmove.
  destruct (TaskViewSet_move_cases user pk column_id n db)
    as [[_ E]|[(errs & _ & E)|[E|[(task & ck & nc & oc & _ & _ & _ & _ & Hn & E)
       |(task & nc & _ & _ & Hn & E)]]]];
    rewrite E in Hmove; try discriminate; injection Hmove as <-; simpl.
  - rewrite Task_moved_across_self. eexists. split; [done|]. simpl. lia.
  - rewrite Task_moved_within_self. eexists. split; [done|]. simpl. lia.
Qed.

Lemma task_move_never_first_witness :
  ∃ x, Task_objects (state_of T2_to_C2) !! 2%positive = Some x
       ∧ Task.position x = 0 + 1 ∧ 1 ≤ Task.position x.
Proof.
  apply (task_move_never_first 1 2 2 0 kanban (state_of T2_to_C2)).
  vm_compute. reflexivity.
Defined.

(** X4. The "Column not found" answer of the task move handler (status
    404) is never given: an unknown column is already rejected by the
    serializer, and a known one is found again by the handler. *)
Theorem column_not_found_is_unreachable
    (user pk : positive) (data : TaskMoveSerializer.data) (db db' : DB) :
  TaskViewSet.move user pk data db
    ≠ Returns (Response (Error "Column not found") HTTP_404_NOT_FOUND) db'.
Proof.
  destruct data as [column_id n]. intros Hmove.
  destruct (TaskViewSet_move_cases user pk column_id n db)
    as [[_ E]|[(errs & _ & E)|[E|[(task & ck & nc & oc & _ & _ & _ & _ & _ & E)
       |(task & nc & _ & _ & _ & E)]]]];
    rewrite E in Hmove; discriminate.
Qed.

(** ** The column move once the column is found

    [get_object] finds a column only in a view whose keyword argument
    [board_id] names the board of the column, as no route of api/urls.py
    supplies it; the properties of this section are those of the handler
    in such a view. *)

Lemma ColumnViewSet_get_queryset_own_board (db : DB) (pk : positive) (column : Column.t) :
  Column_objects db !! pk = Some column →
  ColumnViewSet.get_queryset (Some (Zpos (Column.board column))) db !! pk
    = Some column.
Proof. intros Hpk. by apply ColumnViewSet_get_queryset_Some. Qed.

Lemma Column_moved_None pk column n cols k :
  k ≠ pk → cols !! k = None → Column_moved pk column n cols !! k = None.
Proof.
  intros Hne Hk. unfold Column_moved. rewrite lookup_insert_ne by done.
  case_bool_decide; unfold qs_update; by rewrite lookup_fmap, Hk.
Qed.

Lemma Column_with_position_id (c : Column.t) :
  Column.with_position (Column.position c) c = c.
Proof. by destruct c. Qed.

(** X23. In a view whose keyword argument [board_id] names the board of
    the column, a column move from position [o] to a target [n >= 0] is
    answered "column moved": when [n < o] every sibling with
    [n <= position < o] moves up by one, when [n > o] every sibling with
    [o < position <= n] moves down by one, the moved column ends at [n],
    and every other column is unchanged. *)
Theorem column_move_within_its_board
    (user pk : positive) (n : Z) (db : DB) (column : Column.t) :
  Column_objects db !! pk = Some column →
  0 ≤ n →
  ∃ db',
    ColumnViewSet.move (Some (Zpos (Column.board column))) user pk
      (ColumnMoveSerializer.mk n) db
      = Returns column_moved_response db'
    ∧ (n < Column.position column →
       ∀ k c, Column_objects db !! k = Some c → k ≠ pk →
              Column.board c = Column.board column →
              n ≤ Column.position c < Column.position column →
              Column_objects db' !! k
                = Some (Column.with_position (Column.position c + 1) c))
    ∧ (Column.position column < n →
       ∀ k c, Column_objects db !! k = Some c → k ≠ pk →
              Column.board c = Column.board column →
              Column.position column < Column.position c ≤ n →
              Column_objects db' !! k
                = Some (Column.with_position (Column.position c - 1) c))
    ∧ Column_objects db' !! pk = Some (Column.with_position n column)
    ∧ (∀ k c, Column_objects db !! k = Some c → k ≠ pk →
              ¬ (Column.board c = Column.board column
                 ∧ n ≤ Column.position c < Column.position column) →
              ¬ (Column.board c = Column.board column
                 ∧ Column.position column < Column.position c ≤ n) →
              Column_objects db' !! k = Some c)
    ∧ (∀ k, Column_objects db !! k = None → Column_objects db' !! k = None)
    ∧ Task_objects db' = Task_objects db.
Proof.
  intros Hpk Hn. eexists.
  split; [apply ColumnViewSet_move_ok;
            [by apply ColumnViewSet_get_queryset_own_board|done]|].
  simpl. repeat split.
  - intros Hlt k c Hk Hne Hb Hrange.
    rewrite (Column_moved_other _ _ _ _ k c Hne Hk).
    rewrite decide_True by done. by rewrite decide_True by lia.
  - intros Hlt k c Hk Hne Hb Hrange.
    rewrite (Column_moved_other _ _ _ _ k c Hne Hk).
    rewrite decide_True by done. rewrite decide_False by lia.
    by rewrite decide_True by lia.
  - apply Column_moved_self.
  - intros k c Hk Hne Hup Hdown.
    rewrite (Column_moved_other _ _ _ _ k c Hne Hk).
    case_decide; [|done].
    rewrite decide_False by (intros [_ ?]; by apply Hup).
    by rewrite decide_False by (intros ?; by apply Hdown).
  - intros k Hk. destruct (decide (k = pk)) as [->|Hne]; [congruence|].
    by apply Column_moved_None.
Qed.

Lemma column_move_within_its_board_witness :
  ∃ db',
    C3_to_front_on_board_1 = Returns column_moved_response db'
    ∧ Column_objects db' !! 1%positive = Some (Column.mk "C1" 1 1)
    ∧ Column_objects db' !! 2%positive = Some (Column.mk "C2" 1 2)
    ∧ Column_objects db' !! 3%positive = Some (Column.mk "C3" 1 0).
Proof.
  destruct (column_move_within_its_board 1 3 0 kanban (Column.mk "C3" 1 2))
    as (db' & Hmove & Hup & _ & Hself & _);
    [vm_compute; reflexivity | lia |].
  exists db'. split; [exact Hmove|]. simpl in Hup. repeat split.
  - apply (Hup ltac:(lia) 1%positive (Column.mk "C1" 1 0));
      [vm_compute; reflexivity | discriminate | reflexivity | simpl; lia].
  - apply (Hup ltac:(lia) 2%positive (Column.mk "C2" 1 1));
      [vm_compute; reflexivity | discriminate | reflexivity | simpl; lia].
  - exact Hself.
Defined.

(** X5. In a view whose keyword argument [board_id] names the board of the
    column, moving a column to the position it already holds is answered
    "column moved", leaves every column and every task as it was, and
    still appends one activity entry. *)
Theorem column_move_to_own_position
    (user pk : positive) (db : DB) (column : Column.t) :
  Column_objects db !! pk = Some column →
  0 ≤ Column.position column →
  ∃ db' entry,
    ColumnViewSet.move (Some (Zpos (Column.board column))) user pk
      (ColumnMoveSerializer.mk (Column.position column)) db
      = Returns column_moved_response db'
    ∧ Column_objects db' = Column_objects db
    ∧ Task_objects db' = Task_objects db
    ∧ ActivityLog_objects db' = ActivityLog_objects db ++ [entry].
Proof.
  intros Hpk Hpos. eexists _, _.
  split; [apply ColumnViewSet_move_ok;
            [by apply ColumnViewSet_get_queryset_own_board|done]|].
  simpl.
  split; [|by split]. apply map_eq. intros k.
  destruct (decide (k = pk)) as [->|Hne].
  - by rewrite Column_moved_self, Column_with_position_id.
  - destruct (Column_objects db !! k) as [c|] eqn:Hk.
    + rewrite (Column_moved_other _ _ _ _ k c Hne Hk).
      repeat case_decide; try done; lia.
    + by apply Column_moved_None.
Qed.

Lemma column_move_to_own_position_witness :
  ∃ db' entry,
    ColumnViewSet.move (Some 1) 1 2 (ColumnMoveSerializer.mk 1) kanban
      = Returns column_moved_response db'
    ∧ Column_objects db' = Column_objects kanban
    ∧ Task_objects db' = Task_objects kanban
    ∧ ActivityLog_objects db' = ActivityLog_objects kanban ++ [entry].
Proof.
  apply (column_move_to_own_position 1 2 kanban (Column.mk "C2" 1 1));
    [vm_compute; reflexivity | simpl; lia].
Defined.

(** X6. In a view whose keyword argument [board_id] names the board of the
    column, a column move is undone by moving the column back: when no
    other column of the board holds the position [o] of the column, moving
    it to [n] and then back to [o] restores the position of every
    column. *)
Theorem column_move_round_trip
    (user pk : positive) (n : Z) (db : DB) (column : Column.t) :
  Column_objects db !! pk = Some column →
  0 ≤ n →
  0 ≤ Column.position column →
  (∀ k c, Column_objects db !! k = Some c → k ≠ pk →
          Column.board c = Column.board column →
          Column.position c ≠ Column.position column) →
  ∃ db1 db2,
    ColumnViewSet.move (Some (Zpos (Column.board column))) user pk
      (ColumnMoveSerializer.mk n) db
      = Returns column_moved_response db1
    ∧ ColumnViewSet.move (Some (Zpos (Column.board column))) user pk
        (ColumnMoveSerializer.mk (Column.position column)) db1
      = Returns column_moved_response db2
    ∧ Column_objects db2 = Column_objects db.
Proof.
  intros Hpk Hn Ho Huniq. eexists _, _.
  split; [apply ColumnViewSet_move_ok;
            [by apply ColumnViewSet_get_queryset_own_board|done]|].
  split.
  - apply ColumnViewSet_move_ok; [|done].
    apply ColumnViewSet_get_queryset_Some. simpl.
    split; [apply Column_moved_self|done].
  - simpl. apply map_eq. intros k.
    destruct (decide (k = pk)) as [->|Hne].
    + rewrite Column_moved_self. rewrite Hpk. by destruct column.
    + destruct (Column_objects db !! k) as [c|] eqn:Hk.
      * pose proof (Column_moved_other pk column n _ k c Hne Hk) as H1.
        rewrite (Column_moved_other _ _ _ _ k _ Hne H1).
        specialize (Huniq k c Hk Hne). destruct c as [t b p].
        unfold Column_shift, Column.with_position in *. simpl in *.
        repeat case_decide; simpl in *; try reflexivity;
          try (exfalso; lia); try (f_equal; f_equal; lia);
          try (exfalso; apply Huniq; [done|lia]).
      * apply Column_moved_None; [done|]. by apply Column_moved_None.
Qed.

Lemma column_move_round_trip_witness :
  ∃ db1 db2,
    ColumnViewSet.move (Some 1) 1 3 (ColumnMoveSerializer.mk 0) kanban
      = Returns column_moved_response db1
    ∧ ColumnViewSet.move (Some 1) 1 3 (ColumnMoveSerializer.mk 2) db1
      = Returns column_moved_response db2
    ∧ Column_objects db2 = Column_objects kanban.
Proof.
  apply (column_move_round_trip 1 3 0 kanban (Column.mk "C3" 1 2));
    [vm_compute; reflexivity | lia | simpl; lia |].
  intros k c Hk Hne _. simpl.
  assert (map_Forall (λ k c, k ≠ 3%positive → Column.position c ≠ 2)
            (Column_objects kanban)) as Hall
    by (apply (bool_decide_unpack _); by vm_compute).
  by apply (Hall k c).
Defined.

(** ** The database after each operation *)

Lemma run_op_create_column_state user board title db :
  run_op db (create_column user board title) =
    let column :=
      Column.mk title board
        (py_or (position__max (Column_sibling_positions board db)) (-1) + 1) in
    set_activity
      (λ l, l ++ [ActivityLog.mk user board "create_column"
                    [("column_title", JStr title);
                     ("position", JInt (Column.position column))]])
      (set_columns (insert (fresh_pk (Column_objects db)) column) db).
Proof. reflexivity. Qed.

Lemma run_op_create_task_state user column title db :
  run_op db (create_task user column title) =
    match Column_objects db !! column with
    | Some c =>
        let task :=
          Task.mk title column
            (py_or (position__max (Task_sibling_positions column db)) (-1) + 1)
            user in
        set_activity
          (λ l, l ++ [ActivityLog.mk user (Column.board c) "create_task"
                        [("task_id", JInt (Zpos (fresh_pk (Task_objects db))));
                         ("task_title", JStr title);
                         ("column", JStr (Column.title c))]])
          (set_tasks (insert (fresh_pk (Task_objects db)) task) db)
    | None => db
    end.
Proof.
  unfold run_op, handle. run_action.
  destruct (Column_objects db !! column) as [c|] eqn:Hc.
  - rewrite bool_decide_eq_true_2 by by eexists.
    unfold TaskViewSet.perform_create, TaskSerializer.create,
      Task_objects_create, TaskViewSet.column_of, Column_objects_get.
    run_action. rewrite Task_save_new. cbv zeta. cbv beta iota.
    cbn [fst snd TaskSerializer.column TaskSerializer.title
         TaskSerializer.position TaskSerializer.label_ids default
         TaskSerializer.add_labels Task.column Task.with_position].
    run_action. unfold lookup_id.
    cbn [Task.column Task.with_position Column_objects set_tasks].
    rewrite Hc. reflexivity.
  - rewrite bool_decide_eq_false_2; [done|].
    intros [? ?]; congruence.
Qed.

Lemma run_op_move_task_state user pk column_id n db :
  run_op db (move_task user pk column_id n) = db
  ∨ (∃ task ck new_column old_column,
       Task_objects db !! pk = Some task
       ∧ Column_objects db !! ck = Some new_column
       ∧ Task.column task ≠ ck ∧ 0 ≤ n
       ∧ run_op db (move_task user pk column_id n) =
           set_activity
             (λ l, l ++ [move_task_entry user pk task old_column new_column (n + 1)])
             (set_tasks (Task_moved_across pk task ck (n + 1)) db))
  ∨ (∃ task,
       Task_objects db !! pk = Some task ∧ 0 ≤ n
       ∧ run_op db (move_task user pk column_id n) =
           set_tasks (Task_moved_within pk task (n + 1)) db).
Proof.
  unfold run_op, handle.
  destruct (TaskViewSet_move_cases user pk column_id n db)
    as [[_ E]|[(errs & _ & E)|[E|[(task & ck & nc & oc & Hpk & Hnew & _ & Hne & Hn & E)
       |(task & nc & Hpk & _ & Hn & E)]]]]; rewrite E; simpl; auto.
  - right. left. exists task, ck, nc, oc. repeat split; try done.
    unfold lookup_id in Hnew. destruct column_id as [|k|k]; try discriminate.
    destruct (Column_objects db !! k) as [c|] eqn:Hk; [|discriminate].
    by injection Hnew as <- <-.
  - right. right. by exists task.
Qed.

Lemma run_op_delete_task_state user pk db :
  run_op db (delete_task user pk) =
    match Task_objects db !! pk with
    | Some task =>
        match Column_objects db !! Task.column task with
        | Some column =>
            set_tasks (delete pk)
              (set_task_labels (filter (λ tl, TaskLabel.task tl ≠ pk))
                 (set_activity
                    (λ l, l ++ [ActivityLog.mk user (Column.board column)
                                  "delete_task"
                                  [("task_id", JInt (Zpos pk));
                                   ("task_title", JStr (Task.title task))]])
                    db))
        | None => db
        end
    | None => db
    end.
Proof.
  unfold run_op, handle, TaskViewSet.destroy, TaskViewSet.get_object,
    TaskViewSet.perform_destroy, TaskViewSet.column_of, Column_objects_get,
    Task_delete, lookup_id.
  run_action. destruct (Task_objects db !! pk) as [task|]; [|done].
  cbv beta iota. cbn [fst snd].
  by destruct (Column_objects db !! Task.column task).
Qed.

(** ** Invariants of every operation *)

Lemma sibling_positions_elem {A} (container : A → positive) (position : A → Z)
    (k : positive) (tbl : gmap positive A) (p : Z) :
  p ∈ sibling_positions container position k tbl →
  ∃ i r, tbl !! i = Some r ∧ container r = k ∧ position r = p.
Proof.
  unfold sibling_positions, qs_filter. intros Hp.
  apply list_elem_of_fmap in Hp as (r & -> & Hr).
  apply list_elem_of_filter in Hr as [Hk Hr].
  apply bool_decide_eq_true in Hk.
  apply list_elem_of_fmap in Hr as ([i r'] & -> & Hir).
  apply elem_of_map_to_list in Hir. by exists i, r'.
Qed.

Lemma allocate_nonnegative (ps : list Z) :
  (∀ p, p ∈ ps → 0 ≤ p) → 0 ≤ py_or (position__max ps) (-1) + 1.
Proof.
  intros Hps. rewrite py_or_allocate.
  destruct (position__max ps) as [m|] eqn:E; [|done].
  apply position__max_spec in E as [Hin _]. specialize (Hps m Hin).
  case_decide; lia.
Qed.

Lemma map_Forall_qs_update {A} (P : A → Prop) (cond : A → bool) (f : A → A)
    (tbl : gmap positive A) :
  map_Forall (λ _, P) tbl →
  (∀ r, P r → cond r = true → P (f r)) →
  map_Forall (λ _, P) (qs_update cond f tbl).
Proof.
  intros Hall Hf. unfold qs_update. apply map_Forall_fmap.
  intros i r Hr. simpl. specialize (Hall i r Hr). simpl in Hall.
  destruct (cond r) eqn:E; auto.
Qed.

Lemma positions_nonnegative_step (db : DB) (op : Op) :
  positions_nonnegative db → positions_nonnegative (run_op db op).
Proof.
  intros [Hc Ht]. unfold positions_nonnegative.
  destruct op as [user board title|user pk p|user pk
                 |user column title|user pk c p|user pk].
  - rewrite run_op_create_column_state. simpl. split; [|done].
    apply map_Forall_insert_2; [|done]. simpl.
    apply allocate_nonnegative. intros q Hq.
    apply sibling_positions_elem in Hq as (i & r & Hr & _ & <-).
    apply (Hc i r Hr).
  - by rewrite run_op_move_column_state.
  - by rewrite run_op_delete_column_state.
  - rewrite run_op_create_task_state.
    destruct (Column_objects db !! column); [|done]. simpl. split; [done|].
    apply map_Forall_insert_2; [|done]. simpl.
    apply allocate_nonnegative. intros q Hq.
    apply sibling_positions_elem in Hq as (i & r & Hr & _ & <-).
    apply (Ht i r Hr).
  - destruct (run_op_move_task_state user pk c p db)
      as [->|[(task & ck & nc & oc & Hpk & _ & _ & Hp & ->)|(task & Hpk & Hp & ->)]];
      [done| |]; simpl; (split; [done|]);
      pose proof (Ht pk task Hpk) as Ho; simpl in Ho.
    + unfold Task_moved_across. apply map_Forall_insert_2; [simpl; lia|].
      apply map_Forall_qs_update;
        [apply map_Forall_qs_update; [done|]|];
        intros r Hr Hcond; unfold Task_shift; simpl;
        repeat (apply andb_prop in Hcond as [Hcond ?]);
        repeat match goal with
               | H : bool_decide _ = true |- _ => apply bool_decide_eq_true in H
               end; lia.
    + unfold Task_moved_within. apply map_Forall_insert_2; [simpl; lia|].
      case_bool_decide; apply map_Forall_qs_update; try done;
        intros r Hr Hcond; unfold Task_shift; simpl;
        repeat (apply andb_prop in Hcond as [Hcond ?]);
        repeat match goal with
               | H : bool_decide _ = true |- _ => apply bool_decide_eq_true in H
               end; lia.
  - rewrite run_op_delete_task_state.
    destruct (Task_objects db !! pk) as [task|]; [|done].
    destruct (Column_objects db !! Task.column task); [|done].
    simpl. split; [done|]. by apply map_Forall_delete.
Qed.

(** X7. No sequence of create, move and delete requests ever stores a
    negative position: when all stored column and task positions are at
    least 0, they still are after every request of the sequence. *)
Theorem positions_stay_nonnegative (ops : list Op) (db : DB) :
  positions_nonnegative db → positions_nonnegative (run ops db).
Proof.
  revert db. induction ops as [|op ops IH]; intros db Hdb; [done|].
  simpl. by apply IH, positions_nonnegative_step.
Qed.

Lemma positions_stay_nonnegative_witness :
  positions_nonnegative
    (run [move_task 1 1 2 0; move_column 1 1 5; create_task 1 2 "T5";
          delete_task 1 3; move_task 1 2 1 4] kanban).
Proof.
  apply positions_stay_nonnegative.
  split; apply (bool_decide_unpack _); by vm_compute.
Defined.

Lemma activity_log_step (db : DB) (op : Op) :
  ∃ entries,
    ActivityLog_objects (run_op db op) = ActivityLog_objects db ++ entries
    ∧ (length entries ≤ 1)%nat.
Proof.
  assert (∀ l : list ActivityLog.t, ∃ entries,
            l = l ++ entries ∧ (length entries ≤ 1)%nat) as Hsame
    by (intros l; exists []; by rewrite app_nil_r; simpl; split; [|lia]).
  assert (∀ (l : list ActivityLog.t) e, ∃ entries,
            l ++ [e] = l ++ entries ∧ (length entries ≤ 1)%nat) as Hone
    by (intros l e; exists [e]; split; [done|simpl; lia]).
  destruct op as [user board title|user pk p|user pk
                 |user column title|user pk c p|user pk].
  - rewrite run_op_create_column_state. apply Hone.
  - rewrite run_op_move_column_state. apply Hsame.
  - rewrite run_op_delete_column_state. apply Hsame.
  - rewrite run_op_create_task_state.
    destruct (Column_objects db !! column); [apply Hone|apply Hsame].
  - destruct (run_op_move_task_state user pk c p db)
      as [->|[(task & ck & nc & oc & _ & _ & _ & _ & ->)|(task & _ & _ & ->)]];
      [apply Hsame|apply Hone|apply Hsame].
  - rewrite run_op_delete_task_state.
    destruct (Task_objects db !! pk) as [task|]; [|apply Hsame].
    destruct (Column_objects db !! Task.column task); [apply Hone|apply Hsame].
Qed.

(** X8. The activity log is append-only: along every sequence of create,
    move and delete requests the entries already written stay in place,
    and each request adds at most one entry. *)
Theorem activity_log_is_append_only (ops : list Op) (db : DB) :
  ActivityLog_objects db `prefix_of` ActivityLog_objects (run ops db)
  ∧ (length (ActivityLog_objects (run ops db))
     ≤ length (ActivityLog_objects db) + length ops)%nat.
Proof.
  revert db. induction ops as [|op ops IH]; intros db.
  - simpl. split; [done|lia].
  - simpl. destruct (IH (run_op db op)) as [Hpre Hlen].
    destruct (activity_log_step db op) as (entries & Hstep & Hone).
    rewrite Hstep in Hpre, Hlen. rewrite length_app in Hlen. split.
    + by eapply prefix_app_l.
    + lia.
Qed.

Lemma no_orphans_step (db : DB) (op : Op) :
  no_orphans db → no_orphans (run_op db op).
Proof.
  intros [Ht Hl]. unfold no_orphans. rewrite Forall_forall in Hl.
  destruct op as [user board title|user pk p|user pk
                 |user column title|user pk c p|user pk].
  - rewrite run_op_create_column_state. simpl. split.
    + intros i x Hx; cbv beta. destruct (Ht i x Hx) as [col Hcol].
      rewrite lookup_insert_ne; [by eexists|].
      intros Heq. rewrite <- Heq in Hcol. by rewrite fresh_pk_None in Hcol.
    + by apply Forall_forall.
  - rewrite run_op_move_column_state. by split; [|apply Forall_forall].
  - rewrite run_op_delete_column_state. by split; [|apply Forall_forall].
  - rewrite run_op_create_task_state.
    destruct (Column_objects db !! column) as [col|] eqn:Hcol; [|by split; [|apply Forall_forall]].
    simpl. split.
    + apply map_Forall_insert_2; [by eexists|done].
    + apply Forall_forall. intros tl Hin. destruct (Hl tl Hin) as [x Hx].
      rewrite lookup_insert_ne; [by eexists|].
      intros Heq. rewrite <- Heq in Hx. by rewrite fresh_pk_None in Hx.
  - destruct (run_op_move_task_state user pk c p db)
      as [->|[(task & ck & nc & oc & Hpk & Hck & Hne & _ & ->)|(task & Hpk & _ & ->)]];
      [by split; [|apply Forall_forall]| |]; simpl; split.
    + intros i x Hx; cbv beta. destruct (decide (i = pk)) as [->|Hi].
      * rewrite Task_moved_across_self in Hx. injection Hx as <-.
        simpl. by eexists.
      * destruct (Task_objects db !! i) as [y|] eqn:Hy.
        -- rewrite (Task_moved_across_other _ _ _ _ _ i y Hne Hi Hy) in Hx.
           injection Hx as <-. pose proof (Ht i y Hy) as Hcol. simpl in Hcol.
           repeat case_decide; by simpl.
        -- unfold Task_moved_across, qs_update in Hx.
           by rewrite lookup_insert_ne, !lookup_fmap, Hy in Hx.
    + apply Forall_forall. intros tl Hin. destruct (Hl tl Hin) as [x Hx].
      destruct (decide (TaskLabel.task tl = pk)) as [->|Hi].
      * rewrite Task_moved_across_self. by eexists.
      * rewrite (Task_moved_across_other _ _ _ _ _ _ x Hne Hi Hx). by eexists.
    + intros i x Hx; cbv beta. destruct (decide (i = pk)) as [->|Hi].
      * rewrite Task_moved_within_self in Hx. injection Hx as <-.
        simpl. by apply (Ht pk task).
      * destruct (Task_objects db !! i) as [y|] eqn:Hy.
        -- rewrite (Task_moved_within_other _ _ _ _ i y Hi Hy) in Hx.
           injection Hx as <-. pose proof (Ht i y Hy) as Hcol. simpl in Hcol.
           repeat case_decide; by simpl.
        -- unfold Task_moved_within in Hx. rewrite lookup_insert_ne in Hx by done.
           unfold qs_update in Hx. case_bool_decide;
             by rewrite lookup_fmap, Hy in Hx.
    + apply Forall_forall. intros tl Hin. destruct (Hl tl Hin) as [x Hx].
      destruct (decide (TaskLabel.task tl = pk)) as [->|Hi].
      * rewrite Task_moved_within_self. by eexists.
      * rewrite (Task_moved_within_other _ _ _ _ _ x Hi Hx). by eexists.
  - rewrite run_op_delete_task_state.
    destruct (Task_objects db !! pk) as [task|] eqn:Hpk; [|by split; [|apply Forall_forall]].
    destruct (Column_objects db !! Task.column task); [|by split; [|apply Forall_forall]].
    simpl. split.
    + by apply map_Forall_delete.
    + apply Forall_forall. intros tl [Hne Hin]%list_elem_of_filter.
      rewrite lookup_delete_ne by done. by apply Hl.
Qed.

(** X9. No request leaves an orphan: when the column of every task and
    the task of every label link are stored, they still are after every
    sequence of create, move and delete requests (a deleted task takes its
    links with it; a column delete request is answered 404 on its route
    and removes nothing). *)
Theorem no_orphans_preserved (ops : list Op) (db : DB) :
  no_orphans db → no_orphans (run ops db).
Proof.
  revert db. induction ops as [|op ops IH]; intros db Hdb; [done|].
  simpl. by apply IH, no_orphans_step.
Qed.

Lemma no_orphans_preserved_witness :
  no_orphans
    (run [delete_column 1 1; move_task 1 4 3 0; create_task 1 3 "T5";
          delete_task 1 4] kanban).
Proof.
  apply no_orphans_preserved. split.
  - apply (bool_decide_unpack _). by vm_compute.
  - constructor.
Defined.

(** ** The position of a new item *)

Lemma allocate_above (ps : list Z) (p : Z) :
  p ∈ ps → 1 ≤ p →
  ∀ q, q ∈ ps → q < py_or (position__max ps) (-1) + 1.
Proof.
  intros Hp Hp1 q Hq. rewrite py_or_allocate.
  destruct (position__max ps) as [m|] eqn:E.
  - apply position__max_spec in E as [_ Hmax].
    pose proof (Hmax p Hp). pose proof (Hmax q Hq). case_decide; lia.
  - apply position__max_nil_iff in E. subst ps. by apply elem_of_nil in Hp.
Qed.

(** X10. When some sibling of the container sits at position 1 or above, a
    new column (task) is stored under a fresh key at a position above
    every sibling of its board (column), whatever position the request
    supplied; no other row is touched. *)
Theorem new_item_goes_last (db : DB) :
  (∀ fields p,
     p ∈ Column_sibling_positions (Column.board fields) db → 1 ≤ p →
     ∃ pk position db',
       Column_objects_create fields db
         = Returns (pk, Column.mk (Column.title fields) (Column.board fields) position) db'
       ∧ (∀ q, q ∈ Column_sibling_positions (Column.board fields) db → q < position)
       ∧ Column_objects db !! pk = None
       ∧ Column_objects db' =
           <[pk := Column.mk (Column.title fields) (Column.board fields) position]>
             (Column_objects db))
  ∧ (∀ fields p,
       p ∈ Task_sibling_positions (Task.column fields) db → 1 ≤ p →
       ∃ pk position db',
         Task_objects_create fields db
           = Returns (pk, Task.mk (Task.title fields) (Task.column fields)
                                  position (Task.creator fields)) db'
         ∧ (∀ q, q ∈ Task_sibling_positions (Task.column fields) db → q < position)
         ∧ Task_objects db !! pk = None
         ∧ Task_objects db' =
             <[pk := Task.mk (Task.title fields) (Task.column fields)
                             position (Task.creator fields)]>
               (Task_objects db)).
Proof.
  split; intros fields p Hp Hp1; eexists _, _, _.
  - unfold Column_objects_create. rewrite Column_save_new. cbv zeta.
    split; [reflexivity|]. split; [by eapply allocate_above|].
    split; [apply fresh_pk_None|reflexivity].
  - unfold Task_objects_create. rewrite Task_save_new. cbv zeta.
    split; [reflexivity|]. split; [by eapply allocate_above|].
    split; [apply fresh_pk_None|reflexivity].
Qed.

Lemma new_item_goes_last_witness :
  (∃ pk db',
     Column_objects_create (Column.mk "C4" 1 0) kanban
       = Returns (pk, Column.mk "C4" 1 3) db')
  ∧ (∃ pk db',
       Task_objects_create (Task.mk "T5" 1 9 1) kanban
         = Returns (pk, Task.mk "T5" 1 3 1) db').
Proof.
  destruct (new_item_goes_last kanban) as [Hc Ht]. split.
  - destruct (Hc (Column.mk "C4" 1 0) 2) as (pk & position & db' & Hrun & _);
      [change (2 ∈ [2; 1; 0]); rewrite !elem_of_cons; auto | lia |].
    exists pk, db'. rewrite Hrun.
    unfold Column_objects_create in Hrun. rewrite Column_save_new in Hrun.
    cbv zeta in Hrun. injection Hrun as _ Hpos _. by rewrite <- Hpos.
  - destruct (Ht (Task.mk "T5" 1 9 1) 2) as (pk & position & db' & Hrun & _);
      [change (2 ∈ [2; 1; 0]); rewrite !elem_of_cons; auto | lia |].
    exists pk, db'. rewrite Hrun.
    unfold Task_objects_create in Hrun. rewrite Task_save_new in Hrun.
    cbv zeta in Hrun. injection Hrun as _ Hpos _. by rewrite <- Hpos.
Defined.

(** ** Label links: errors and frame *)

(** Whatever its outcome, the loop only appends links of its task. *)
Lemma add_labels_state (task : positive) (ids : list Z) (db : DB) :
  ∃ extra,
    state_of (TaskSerializer.add_labels task ids db)
      = set_task_labels (λ l, l ++ (TaskLabel.mk task <$> extra)) db.
Proof.
  revert db. induction ids as [|id ids IH]; intros db.
  - exists []. simpl. unfold set_task_labels. destruct db; simpl.
    by rewrite app_nil_r.
  - simpl TaskSerializer.add_labels.
    unfold mbind, M_bind, try_except_DoesNotExist, Label_objects_get.
    destruct (lookup_id id (Label_objects db)) as [[k l]|] eqn:Hid.
    + unfold TaskLabel_objects_create. cbn [fst snd].
      case_decide.
      * exists []. simpl. unfold set_task_labels. destruct db; simpl.
        by rewrite app_nil_r.
      * destruct (IH (set_task_labels (λ l, l ++ [TaskLabel.mk task k]) db))
          as (extra & Hextra).
        exists (k :: extra). rewrite Hextra.
        unfold set_task_labels. simpl. f_equal. by rewrite <- app_assoc.
    + unfold mret, M_ret. apply IH.
Qed.

Lemma add_labels_raises (task : positive) (ids : list Z) (db : DB) :
  ¬ NoDup (existing_labels ids db)
  ∨ (∃ l, l ∈ existing_labels ids db
          ∧ TaskLabel.mk task l ∈ TaskLabel_objects db) →
  exception_of (TaskSerializer.add_labels task ids db) = Some IntegrityError.
Proof.
  revert db. induction ids as [|id ids IH]; intros db Hbad.
  - exfalso. destruct Hbad as [Hnd|(l & Hl & _)].
    + apply Hnd. constructor.
    + by apply elem_of_nil in Hl.
  - rewrite existing_labels_cons in Hbad.
    simpl TaskSerializer.add_labels.
    unfold mbind, M_bind, try_except_DoesNotExist, Label_objects_get.
    destruct (lookup_id id (Label_objects db)) as [[k lab]|] eqn:Hid.
    + unfold TaskLabel_objects_create. cbn [fst snd] in *.
      case_decide as Hin; [done|].
      apply IH. rewrite existing_labels_set_task_labels. simpl.
      destruct Hbad as [Hnd|(l & Hl & Hlink)].
      * destruct (decide (k ∈ existing_labels ids db)) as [Hk|Hk].
        -- right. exists k. split; [done|].
           rewrite elem_of_app, list_elem_of_singleton. by right.
        -- left. intros Hnd'. apply Hnd. by apply NoDup_cons.
      * apply elem_of_cons in Hl as [->|Hl]; [done|].
        right. exists l. split; [done|]. rewrite elem_of_app. by left.
    + unfold mret, M_ret. by apply IH.
Qed.

(** X11. A create whose [label_ids] name an existing label twice ends with
    [IntegrityError], and nothing is rolled back: the new task stays
    stored under its fresh key. *)
Theorem repeated_label_keeps_the_task
    (user : positive) (title : string) (column : positive) (position : Z)
    (label_ids : list Z) (db : DB) :
  ¬ NoDup (existing_labels label_ids db) →
  ∃ db' stored,
    TaskSerializer.create user
      (TaskSerializer.mk_create title column position (Some label_ids)) db
      = Raises IntegrityError db'
    ∧ Task_objects db !! fresh_pk (Task_objects db) = None
    ∧ Task_objects db' !! fresh_pk (Task_objects db)
        = Some (Task.mk title column stored user).
Proof.
  intros Hnd.
  unfold TaskSerializer.create, Task_objects_create.
  cbn [TaskSerializer.label_ids TaskSerializer.title TaskSerializer.column
       TaskSerializer.position default].
  unfold mbind at 1. unfold M_bind at 1. rewrite Task_save_new.
  cbv zeta. unfold mbind, M_bind. cbn [fst snd].
  change (id label_ids) with label_ids.
  set (task := Task.with_position _ _).
  set (db1 := set_tasks _ db).
  pose proof (add_labels_raises (fresh_pk (Task_objects db)) label_ids db1
                (or_introl Hnd)) as Hexn.
  destruct (add_labels_state (fresh_pk (Task_objects db)) label_ids db1)
    as (extra & Hstate).
  destruct (TaskSerializer.add_labels _ label_ids db1) as [[] db2|e db2];
    [discriminate|].
  simpl in Hexn, Hstate. injection Hexn as ->. subst db2.
  eexists _, _. split; [reflexivity|]. split; [apply fresh_pk_None|].
  simpl. apply lookup_insert_eq.
Qed.

Lemma repeated_label_keeps_the_task_witness :
  ∃ db' stored,
    TaskSerializer.create 1
      (TaskSerializer.mk_create "T5" 2 0 (Some [7; 1; 1])) kanban
      = Raises IntegrityError db'
    ∧ Task_objects kanban !! fresh_pk (Task_objects kanban) = None
    ∧ Task_objects db' !! fresh_pk (Task_objects kanban)
        = Some (Task.mk "T5" 2 stored 1).
Proof.
  apply (repeated_label_keeps_the_task 1 "T5" 2 0 [7; 1; 1] kanban).
  change (¬ NoDup [1%positive; 1%positive]).
  intros [Hin _]%NoDup_cons. apply Hin. rewrite elem_of_cons. by left.
Defined.

(** X12. An update of a task touches nothing of the other tasks, whether
    it succeeds or fails: their rows and their label links are as before;
    without [label_ids] in the request no link at all is changed. *)
Theorem update_touches_only_its_task
    (instance : positive * Task.t) (data : TaskSerializer.update_data) (db : DB) :
  (∀ k, k ≠ instance.1 →
        Task_objects (state_of (TaskSerializer.update instance data db)) !! k
          = Task_objects db !! k)
  ∧ filter (λ tl, TaskLabel.task tl ≠ instance.1)
      (TaskLabel_objects (state_of (TaskSerializer.update instance data db)))
    = filter (λ tl, TaskLabel.task tl ≠ instance.1) (TaskLabel_objects db)
  ∧ (TaskSerializer.new_label_ids data = None →
     TaskLabel_objects (state_of (TaskSerializer.update instance data db))
       = TaskLabel_objects db).
Proof.
  destruct instance as [pk x]. destruct data as [t c p ids].
  unfold TaskSerializer.update, TaskSerializer.super_update, Task_save,
    TaskLabel_objects_delete_task.
  cbn [TaskSerializer.new_label_ids TaskSerializer.new_title
       TaskSerializer.new_column TaskSerializer.new_position fst snd].
  run_action. destruct ids as [ids|].
  - set (db1 := set_task_labels _ _).
    destruct (add_labels_state pk ids db1) as (extra & Hstate).
    destruct (TaskSerializer.add_labels pk ids db1) as [[] db2|e db2];
      simpl in Hstate; subst db2; simpl.
    all: split; [intros k Hk; by rewrite lookup_insert_ne|].
    all: split; [|discriminate].
    all: rewrite filter_app, list_filter_filter.
    all: replace (filter (λ tl, TaskLabel.task tl ≠ pk) (TaskLabel.mk pk <$> extra))
           with (@nil TaskLabel.t)
           by (symmetry; induction extra as [|l extra IH]; [done|];
               simpl; by rewrite filter_cons_False by (simpl; intros H; by apply H)).
    all: rewrite app_nil_r; apply list_filter_iff; intros tl; tauto.
  - simpl. split; [intros k Hk; by rewrite lookup_insert_ne|]. by split.
Qed.

Lemma update_touches_only_its_task_witness :
  Task_objects
    (state_of (TaskSerializer.update (2%positive, Task.mk "T2" 1 1 1)
                 (TaskSerializer.mk_update (Some "renamed") None (Some 5)
                    (Some [2; 7])) kanban)) !! 3%positive
  = Task_objects kanban !! 3%positive.
Proof.
  apply (update_touches_only_its_task (2%positive, Task.mk "T2" 1 1 1)
           (TaskSerializer.mk_update (Some "renamed") None (Some 5)
              (Some [2; 7])) kanban).
  discriminate.
Defined.

(** ** Task moves and density *)

(** X13. Task moves and density.  In a database whose task positions are
    exactly [0 .. count-1] in every column: a move inside the column with
    requested position [n] keeps them so when [n + 1] is below the number
    of tasks of the column; a move into another column keeps them so when
    [n + 1] is at most the number of tasks of the destination; and a move
    into another column always leaves the source column at exactly
    [0 .. count-1], the gap of the moved task being closed. *)
Theorem task_move_keeps_density
    (user pk : positive) (column_id n : Z) (db : DB) (task : Task.t)
    (ck : positive) (new_column old_column : Column.t) :
  column_dense db →
  Task_objects db !! pk = Some task →
  lookup_id column_id (Column_objects db) = Some (ck, new_column) →
  Column_objects db !! Task.column task = Some old_column →
  0 ≤ n →
  ∃ db',
    TaskViewSet.move user pk (TaskMoveSerializer.mk column_id n) db
      = Returns task_moved_response db'
    ∧ (Task.column task = ck →
       n + 1 < Z.of_nat (length (Task_sibling_positions ck db)) →
       column_dense db')
    ∧ (Task.column task ≠ ck →
       n + 1 ≤ Z.of_nat (length (Task_sibling_positions ck db)) →
       column_dense db')
    ∧ (Task.column task ≠ ck →
       dense (Task_sibling_positions (Task.column task) db')).
Proof.
  intros Hd Hpk Hnew Hold Hn.
  pose proof (pos_of_delete Task.column Task.position (Task.column task)
                pk task _ Hpk) as Hdel.
  rewrite decide_True in Hdel by done.
  destruct (decide (Task.column task = ck)) as [Heq|Hne].
  - eexists. split; [by eapply TaskViewSet_move_within|].
    split; [|split; intros; done]. intros _ Hrange c.
    unfold Task_sibling_positions in *. simpl.
    rewrite Task_moved_within_positions by done.
    case_decide as Hc; [|apply Hd]. subst c.
    apply dense_move.
    + rewrite <- Hdel. apply Hd.
    + rewrite <- Hdel, Heq. lia.
  - eexists. split; [by eapply TaskViewSet_move_across|].
    split; [intros; done|].
    assert (∀ c, c ≠ ck →
              dense (sibling_positions Task.column Task.position c
                       (Task_moved_across pk task ck (n + 1) (Task_objects db))))
      as Hother.
    { intros c Hc. rewrite Task_moved_across_positions by done.
      rewrite decide_False by done. case_decide as Hsrc; [|apply Hd].
      subst c. apply dense_close_gap. rewrite <- Hdel. apply Hd. }
    split.
    + intros _ Hrange c. unfold Task_sibling_positions in *. simpl.
      destruct (decide (c = ck)) as [->|Hc]; [|by apply Hother].
      rewrite Task_moved_across_positions by done.
      rewrite decide_True by done.
      apply dense_open_gap; [apply Hd|lia].
    + intros _. unfold Task_sibling_positions. simpl. by apply Hother.
Qed.

Lemma task_move_keeps_density_witness :
  ∃ db',
    TaskViewSet.move 1 1 (TaskMoveSerializer.mk 2 0) kanban
      = Returns task_moved_response db'
    ∧ column_dense db'.
Proof.
  destruct (task_move_keeps_density 1 1 2 0 kanban (Task.mk "T1" 1 0 1)
              2%positive (Column.mk "C2" 1 1) (Column.mk "C1" 1 0))
    as (db' & Hmove & _ & Hacross & _);
    [apply dense_kanban | vm_compute; reflexivity | vm_compute; reflexivity
    | vm_compute; reflexivity | lia |].
  exists db'. split; [exact Hmove|].
  apply Hacross; [discriminate|].
  change (0 + 1 ≤ Z.of_nat (length [0])). simpl. lia.
Defined.

(** ** Updating a column *)

(** X14. In a view whose keyword argument [board_id] names the board of the
    column, an update of a stored column writes the supplied title, board
    and position to the row of that column and to no other row: no sibling
    is renumbered when the position changes, and no task is touched.  An
    activity entry with the old and the new title is appended exactly when
    the title changes. *)
Theorem column_update_is_local
    (user pk : positive) (data : ColumnSerializer.update_data) (db : DB)
    (column : Column.t) :
  Column_objects db !! pk = Some column →
  ∃ db',
    ColumnViewSet_perform_update (Some (Zpos (Column.board column))) user pk data db
      = Returns
          (pk, Column.mk
                 (default (Column.title column) (ColumnSerializer.new_title data))
                 (default (Column.board column) (ColumnSerializer.new_board data))
                 (default (Column.position column) (ColumnSerializer.new_position data)))
          db'
    ∧ Column_objects db' =
        <[pk := Column.mk
                  (default (Column.title column) (ColumnSerializer.new_title data))
                  (default (Column.board column) (ColumnSerializer.new_board data))
                  (default (Column.position column) (ColumnSerializer.new_position data))]>
          (Column_objects db)
    ∧ Task_objects db' = Task_objects db
    ∧ ActivityLog_objects db' =
        ActivityLog_objects db ++
        match ColumnSerializer.new_title data with
        | Some t =>
            if decide (t = Column.title column) then []
            else [ActivityLog.mk user
                    (default (Column.board column) (ColumnSerializer.new_board data))
                    "update_column"
                    [("old_title", JStr (Column.title column));
                     ("new_title", JStr t)]]
        | None => []
        end.
Proof.
  intros Hpk.
  pose proof (ColumnViewSet_get_queryset_own_board db pk column Hpk) as Hq.
  destruct data as [t b p]. destruct column as [t0 b0 p0].
  unfold ColumnViewSet_perform_update, ColumnViewSet.get_object,
    ColumnSerializer.update, Column_save.
  run_action. rewrite Hq. cbv beta iota. cbn [fst snd].
  rewrite Hq. cbv beta iota.
  cbn [fst snd ColumnSerializer.new_title ColumnSerializer.new_board
       ColumnSerializer.new_position Column.title Column.board Column.position].
  destruct t as [t|], b as [b|], p as [p|]; simpl;
    repeat case_bool_decide; repeat case_decide; try congruence;
    eexists; (split; [reflexivity|]); simpl;
    rewrite ?app_nil_r; by repeat split.
Qed.

Lemma column_update_is_local_witness :
  ∃ db',
    ColumnViewSet_perform_update (Some 1) 1 3
      (ColumnSerializer.mk_update (Some "Done") None (Some 0)) kanban
      = Returns (3%positive, Column.mk "Done" 1 0) db'
    ∧ Column_objects db' !! 1%positive = Some (Column.mk "C1" 1 0)
    ∧ ActivityLog_objects db' =
        [ActivityLog.mk 1 1 "update_column"
           [("old_title", JStr "C3"); ("new_title", JStr "Done")]].
Proof.
  destruct (column_update_is_local 1 3
              (ColumnSerializer.mk_update (Some "Done") None (Some 0)) kanban
              (Column.mk "C3" 1 2))
    as (db' & Hrun & Hcols & _ & Hlog); [vm_compute; reflexivity|].
  exists db'. split; [exact Hrun|]. rewrite Hcols, Hlog.
  split; vm_compute; reflexivity.
Defined.

(** ** The column routes *)

(** X24. No request on [columns/<int:pk>/] finds its column: the lookup,
    the update and the delete are answered 404 and leave the database as
    it was, whatever columns are stored.  A column is found only in a view
    whose keyword argument [board_id] names its board. *)
Theorem column_detail_routes_are_not_found (user pk : positive) (db : DB) :
  ColumnViewSet.get_object (urls.kwargs_board_id (urls.column_detail pk)) pk db
    = Raises Http404 db
  ∧ (∀ data,
       ColumnViewSet_perform_update (urls.kwargs_board_id (urls.column_detail pk))
         user pk data db
         = Raises Http404 db)
  ∧ handle (delete_column user pk) db = Raises Http404 db
  ∧ (∀ board_id column,
       ColumnViewSet.get_object board_id pk db = Returns (pk, column) db ↔
       Column_objects db !! pk = Some column
       ∧ board_id = Some (Zpos (Column.board column))).
Proof.
  assert (ColumnViewSet.get_object None pk db = Raises Http404 db) as Hget.
  { unfold ColumnViewSet.get_object.
    by rewrite ColumnViewSet_get_queryset_None. }
  split; [exact Hget|]. split; [|split].
  - intros data. unfold ColumnViewSet_perform_update. simpl.
    unfold mbind at 1. unfold M_bind at 1. by rewrite Hget.
  - apply handle_delete_column.
  - intros board_id column. rewrite <- ColumnViewSet_get_queryset_Some.
    unfold ColumnViewSet.get_object.
    destruct (ColumnViewSet.get_queryset board_id db !! pk) as [c|];
      split; intros H; try discriminate; congruence.
Qed.

(** X25. In a view whose keyword argument [board_id] names the board of the
    column, deleting a stored column is answered 204 and removes the
    column with its tasks; one activity entry is appended; and when the
    column of every task and the task of every label link were stored,
    they still are: the links of the removed tasks are removed with
    them. *)
Theorem column_delete_cascades
    (user pk : positive) (db : DB) (column : Column.t) :
  Column_objects db !! pk = Some column →
  ∃ db',
    ColumnViewSet.destroy (Some (Zpos (Column.board column))) user pk db
      = Returns (Response NoContent HTTP_204_NO_CONTENT) db'
    ∧ Column_objects db' = delete pk (Column_objects db)
    ∧ Task_objects db' = filter (λ kx, Task.column kx.2 ≠ pk) (Task_objects db)
    ∧ ActivityLog_objects db' =
        ActivityLog_objects db ++
        [ActivityLog.mk user (Column.board column) "delete_column"
           [("column_title", JStr (Column.title column))]]
    ∧ (no_orphans db → no_orphans db').
Proof.
  intros Hpk.
  pose proof (ColumnViewSet_get_queryset_own_board db pk column Hpk) as Hq.
  eexists.
  unfold ColumnViewSet.destroy, ColumnViewSet.get_object,
    ColumnViewSet.perform_destroy, Column_delete.
  run_action. rewrite Hq. cbv beta iota. split; [reflexivity|].
  cbn [fst snd]. simpl. split; [done|]. split; [done|]. split; [done|].
  intros [Ht Hl]. rewrite Forall_forall in Hl. split; simpl.
  - intros i x [Hx Hcol]%map_lookup_filter_Some; cbv beta. simpl in Hcol.
    rewrite lookup_delete_ne by done. by apply (Ht i x).
  - apply Forall_forall. intros tl [Hkeep Hin]%list_elem_of_filter.
    destruct (Hl tl Hin) as [x Hx]. rewrite Hx in Hkeep.
    apply bool_decide_eq_false in Hkeep.
    exists x. by apply map_lookup_filter_Some.
Qed.

Lemma column_delete_cascades_witness :
  ∃ db',
    ColumnViewSet.destroy (Some 1) 1 1 kanban
      = Returns (Response NoContent HTTP_204_NO_CONTENT) db'
    ∧ Task_objects db' !! 1%positive = None
    ∧ Task_objects db' !! 4%positive = Some (Task.mk "T4" 2 0 1).
Proof.
  destruct (column_delete_cascades 1 1 kanban (Column.mk "C1" 1 0))
    as (db' & Hrun & _ & Htasks & _); [vm_compute; reflexivity|].
  exists db'. split; [exact Hrun|]. rewrite Htasks.
  split; vm_compute; reflexivity.
Defined.

(** ** Permission classes *)

Lemma owner_or_member_owner (board : Board.t) :
  owner_or_member (Board.owner board) board = true.
Proof. unfold owner_or_member. by rewrite bool_decide_eq_true_2. Qed.

(** X15. The owner of a board passes every permission class on the board
    and on its columns, tasks and labels, for every request method; on a
    comment the owner may read, but may write only as its author. *)
Theorem owner_passes_every_permission
    (method : Method) (board : Board.t) (creator author : positive)
    (assignee : option positive) :
  IsBoardOwnerOrMember.has_object_permission (Board.owner board) method board = true
  ∧ IsBoardMember.has_object_permission (Board.owner board) method (BoardObj board)
      = Some true
  ∧ IsBoardMember.has_object_permission (Board.owner board) method (ColumnObj board)
      = Some true
  ∧ IsBoardMember.has_object_permission (Board.owner board) method
      (TaskObj board creator assignee) = Some true
  ∧ IsBoardMember.has_object_permission (Board.owner board) method (LabelObj board)
      = Some true
  ∧ IsTaskAssigneeOrCreator.has_object_permission (Board.owner board) method
      board creator assignee = true
  ∧ IsCommentAuthor.has_object_permission (Board.owner board) method board author
      = (SAFE_METHODS method || bool_decide (author = Board.owner board)).
Proof.
  unfold IsBoardOwnerOrMember.has_object_permission,
    IsBoardMember.has_object_permission,
    IsTaskAssigneeOrCreator.has_object_permission,
    IsCommentAuthor.has_object_permission.
  rewrite owner_or_member_owner, bool_decide_eq_true_2 by done.
  repeat split; by destruct (SAFE_METHODS method).
Qed.

(** X16. For tasks, the right to write does not include the right to read.
    A user who is neither the owner nor a member of the board is granted a
    request on a task exactly when the request is unsafe and the user is
    the creator or the assignee; a member who is neither owner, creator
    nor assignee is granted exactly the safe requests. *)
Theorem task_permission_by_role
    (user : positive) (method : Method) (board : Board.t)
    (creator : positive) (assignee : option positive) :
  Board.owner board ≠ user →
  (user ∉ Board.members board →
   IsTaskAssigneeOrCreator.has_object_permission user method board creator assignee
     = negb (SAFE_METHODS method)
       && (bool_decide (creator = user) || bool_decide (assignee = Some user)))
  ∧ (user ∈ Board.members board → creator ≠ user → assignee ≠ Some user →
     IsTaskAssigneeOrCreator.has_object_permission user method board creator assignee
       = SAFE_METHODS method).
Proof.
  intros Howner. unfold IsTaskAssigneeOrCreator.has_object_permission.
  rewrite bool_decide_eq_false_2 by done. split.
  - intros Hmem. rewrite (bool_decide_eq_false_2 (user ∈ _)) by done.
    by destruct (SAFE_METHODS method).
  - intros Hmem Hc Ha. rewrite (bool_decide_eq_true_2 (user ∈ _)) by done.
    rewrite !bool_decide_eq_false_2 by done.
    by destruct (SAFE_METHODS method).
Qed.

Lemma task_permission_by_role_witness :
  IsTaskAssigneeOrCreator.has_object_permission 3 PATCH
    (Board.mk "Roadmap" 1 {[2%positive]}) 3 None = true
  ∧ IsTaskAssigneeOrCreator.has_object_permission 3 GET
      (Board.mk "Roadmap" 1 {[2%positive]}) 3 None = false
  ∧ IsTaskAssigneeOrCreator.has_object_permission 2 DELETE
      (Board.mk "Roadmap" 1 {[2%positive]}) 3 None = false.
Proof.
  destruct (task_permission_by_role 3 PATCH (Board.mk "Roadmap" 1 {[2%positive]})
              3 None ltac:(discriminate)) as [H1 _].
  destruct (task_permission_by_role 3 GET (Board.mk "Roadmap" 1 {[2%positive]})
              3 None ltac:(discriminate)) as [H2 _].
  destruct (task_permission_by_role 2 DELETE (Board.mk "Roadmap" 1 {[2%positive]})
              3 None ltac:(discriminate)) as [_ H3].
  split; [|split].
  - rewrite H1; [reflexivity|]. simpl. set_solver.
  - rewrite H2; [reflexivity|]. simpl. set_solver.
  - rewrite H3; [reflexivity|simpl; set_solver|discriminate|discriminate].
Defined.

(** X17. On a board, whoever [IsBoardOwnerOrMember] lets write it also lets
    read, and whoever it grants any request is granted every request by
    [IsBoardMember], whose answer does not depend on the method. *)
Theorem board_permissions_are_ordered
    (user : positive) (method method' : Method) (board : Board.t) :
  IsBoardOwnerOrMember.has_object_permission user method board = true →
  IsBoardOwnerOrMember.has_object_permission user GET board = true
  ∧ IsBoardMember.has_object_permission user method' (BoardObj board) = Some true.
Proof.
  unfold IsBoardOwnerOrMember.has_object_permission,
    IsBoardMember.has_object_permission, owner_or_member.
  simpl. destruct (SAFE_METHODS method).
  - intros ->. by split.
  - intros ->. by split.
Qed.

Lemma board_permissions_are_ordered_witness :
  IsBoardOwnerOrMember.has_object_permission 1 GET
    (Board.mk "Roadmap" 1 {[2%positive]}) = true
  ∧ IsBoardMember.has_object_permission 1 DELETE
      (BoardObj (Board.mk "Roadmap" 1 {[2%positive]})) = Some true.
Proof.
  apply (board_permissions_are_ordered 1 PUT DELETE
           (Board.mk "Roadmap" 1 {[2%positive]})).
  reflexivity.
Defined.

(** ** Members of a board *)

Lemma post_cases (request_user board_id : positive) (user_id : option Z)
    (site : Site) :
  (BoardMembersAPIView.post request_user board_id user_id site).2 = site
  ∨ ∃ board user username,
      Board_objects site !! board_id = Some board
      ∧ Board.owner board = request_user
      ∧ user_id = Some (Zpos user)
      ∧ User_objects site !! user = Some username
      ∧ user ≠ Board.owner board
      ∧ BoardMembersAPIView.post request_user board_id user_id site =
          (Response (Status "member added") HTTP_201_CREATED,
           mkSite
             (<[board_id := Board.mk (Board.title board) (Board.owner board)
                              ({[user]} ∪ Board.members board)]>
                (Board_objects site))
             (User_objects site)
             (Site_activity site ++
                [ActivityLog.mk request_user board_id "add_member"
                   [("member_id", JInt (Zpos user));
                    ("member_username", JStr username)]])).
Proof.
  unfold BoardMembersAPIView.post.
  destruct (Board_objects site !! board_id) as [board|] eqn:Hb; [|by left].
  case_bool_decide as Howner; [by left|].
  destruct user_id as [[|u|u]|]; try by left.
  - unfold lookup_id.
    destruct (User_objects site !! u) as [username|] eqn:Hu; [|by left].
    simpl. case_bool_decide as Hself; [by left|].
    right. exists board, u, username. repeat split; try done.
    all: destruct (decide (Board.owner board = request_user)); [done|].
    all: by destruct Howner.
Qed.

(** X18. Only the owner of a board adds members: a request by anyone else
    is answered 403, and every answer other than "member added" (unknown
    board, missing or zero [user_id], unknown user, the owner named as
    member) leaves boards, users and log as they were. *)
Theorem only_the_owner_adds_members
    (request_user board_id : positive) (user_id : option Z) (site : Site) :
  (∀ board, Board_objects site !! board_id = Some board →
            Board.owner board ≠ request_user →
            BoardMembersAPIView.post request_user board_id user_id site
              = (Response (Error "Only board owner can add members")
                          HTTP_403_FORBIDDEN, site))
  ∧ ((BoardMembersAPIView.post request_user board_id user_id site).1
       ≠ Response (Status "member added") HTTP_201_CREATED →
     (BoardMembersAPIView.post request_user board_id user_id site).2 = site).
Proof.
  split.
  - intros board Hb Hne. unfold BoardMembersAPIView.post.
    rewrite Hb. by rewrite bool_decide_eq_true_2.
  - intros Hresp.
    destruct (post_cases request_user board_id user_id site)
      as [Hsame|(board & user & username & _ & _ & _ & _ & _ & Hpost)];
      [done|].
    rewrite Hpost in Hresp. by destruct Hresp.
Qed.

Lemma only_the_owner_adds_members_witness :
  BoardMembersAPIView.post 2 1 (Some 3) small_site
    = (Response (Error "Only board owner can add members") HTTP_403_FORBIDDEN,
       small_site)
  ∧ (BoardMembersAPIView.post 1 1 (Some 0) small_site).2 = small_site.
Proof.
  destruct (only_the_owner_adds_members 2 1 (Some 3) small_site) as [H403 _].
  destruct (only_the_owner_adds_members 1 1 (Some 0) small_site) as [_ Hsame].
  split.
  - apply (H403 (Board.mk "Roadmap" 1 {[2%positive]}));
      [vm_compute; reflexivity | discriminate].
  - apply Hsame. vm_compute. discriminate.
Defined.

(** X19. When the owner adds a stored user other than the owner, the answer
    is "member added" (201); afterwards the user is a member of the board,
    the member set has grown by nobody else and lost nobody, the owner is a
    member only if the owner was one before, the other boards and the
    users are untouched, and the log has exactly one more entry, naming
    the new member.  Adding the same user again changes no board. *)
Theorem member_added
    (board_id user : positive) (site : Site) (board : Board.t) (username : string) :
  Board_objects site !! board_id = Some board →
  User_objects site !! user = Some username →
  user ≠ Board.owner board →
  ∃ site' board',
    BoardMembersAPIView.post (Board.owner board) board_id (Some (Zpos user)) site
      = (Response (Status "member added") HTTP_201_CREATED, site')
    ∧ Board_objects site' !! board_id = Some board'
    ∧ Board.owner board' = Board.owner board
    ∧ (∀ u, u ∈ Board.members board' ↔ u = user ∨ u ∈ Board.members board)
    ∧ (∀ k, k ≠ board_id → Board_objects site' !! k = Board_objects site !! k)
    ∧ User_objects site' = User_objects site
    ∧ Site_activity site' =
        Site_activity site ++
        [ActivityLog.mk (Board.owner board) board_id "add_member"
           [("member_id", JInt (Zpos user));
            ("member_username", JStr username)]]
    ∧ Board_objects
        (BoardMembersAPIView.post (Board.owner board) board_id
           (Some (Zpos user)) site').2
      = Board_objects site'.
Proof.
  intros Hb Hu Hne. eexists _, _.
  unfold BoardMembersAPIView.post at 1. rewrite Hb.
  rewrite bool_decide_eq_false_2 by (intros H; by apply H).
  unfold lookup_id. rewrite Hu. simpl.
  rewrite bool_decide_eq_false_2 by done.
  split; [reflexivity|]. simpl.
  split; [apply lookup_insert_eq|]. split; [done|].
  split; [intros u; set_solver|].
  split; [intros k Hk; by apply lookup_insert_ne|].
  split; [done|]. split; [done|].
  unfold BoardMembersAPIView.post. simpl. rewrite lookup_insert_eq. simpl.
  rewrite bool_decide_eq_false_2 by (intros H; by apply H).
  unfold lookup_id. rewrite Hu. simpl.
  rewrite bool_decide_eq_false_2 by done. simpl.
  rewrite insert_insert_eq. f_equal. f_equal.
  apply set_eq. intros u. rewrite !elem_of_union. tauto.
Qed.

Lemma member_added_witness :
  ∃ site' board',
    BoardMembersAPIView.post 1 1 (Some 3) small_site
      = (Response (Status "member added") HTTP_201_CREATED, site')
    ∧ Board_objects site' !! 1%positive = Some board'
    ∧ (∀ u, u ∈ Board.members board' ↔ u = 3%positive ∨ u ∈ ({[2%positive]} : gset positive)).
Proof.
  destruct (member_added 1 3 small_site (Board.mk "Roadmap" 1 {[2%positive]}) "cy")
    as (site' & board' & Hpost & Hb & _ & Hmem & _);
    [vm_compute; reflexivity | vm_compute; reflexivity | discriminate |].
  by exists site', board'.
Defined.

(** X20. Reading the member list: a requester who is neither the owner nor
    a member of a stored board is answered 403; the owner and the members
    are answered the stored users that are the owner or a member.  After
    the owner has added a user, that user is no longer refused and is
    listed. *)
Theorem member_list_access
    (request_user board_id : positive) (site : Site) (board : Board.t) :
  Board_objects site !! board_id = Some board →
  (owner_or_member request_user board = false →
   BoardMembersAPIView.get request_user board_id site
     = BoardMembersAPIView.Plain
         (Response (Error "Permission denied") HTTP_403_FORBIDDEN))
  ∧ (owner_or_member request_user board = true →
     ∃ ids,
       BoardMembersAPIView.get request_user board_id site
         = BoardMembersAPIView.Users ids
       ∧ ∀ u, u ∈ ids ↔
              is_Some (User_objects site !! u)
              ∧ (u = Board.owner board ∨ u ∈ Board.members board))
  ∧ (∀ user username,
       User_objects site !! user = Some username →
       user ≠ Board.owner board →
       ∃ ids,
         BoardMembersAPIView.get user board_id
           (BoardMembersAPIView.post (Board.owner board) board_id
              (Some (Zpos user)) site).2
           = BoardMembersAPIView.Users ids
         ∧ user ∈ ids).
Proof.
  intros Hb. split; [|split].
  - intros Hno. unfold BoardMembersAPIView.get. by rewrite Hb, Hno.
  - intros Hyes. eexists. unfold BoardMembersAPIView.get.
    rewrite Hb, Hyes. simpl. split; [reflexivity|].
    intros u. unfold BoardMembersAPIView.get_queryset. rewrite Hb.
    rewrite elem_of_filter, elem_of_dom. tauto.
  - intros user username Hu Hne.
    unfold BoardMembersAPIView.post. rewrite Hb.
    rewrite bool_decide_eq_false_2 by (intros H; by apply H).
    unfold lookup_id. rewrite Hu. simpl.
    rewrite bool_decide_eq_false_2 by done. simpl.
    unfold BoardMembersAPIView.get, BoardMembersAPIView.get_queryset. simpl.
    rewrite lookup_insert_eq.
    assert (owner_or_member user
              (Board.mk (Board.title board) (Board.owner board)
                 ({[user]} ∪ Board.members board)) = true) as ->.
    { unfold owner_or_member. simpl.
      rewrite (bool_decide_eq_true_2 (user ∈ _)) by set_solver.
      by rewrite orb_true_r. }
    simpl. eexists. split; [reflexivity|].
    rewrite elem_of_filter, elem_of_dom. simpl.
    split; [right; set_solver|by eexists].
Qed.

Lemma member_list_access_witness :
  BoardMembersAPIView.get 3 1 small_site
    = BoardMembersAPIView.Plain
        (Response (Error "Permission denied") HTTP_403_FORBIDDEN)
  ∧ ∃ ids,
      BoardMembersAPIView.get 3 1
        (BoardMembersAPIView.post 1 1 (Some 3) small_site).2
        = BoardMembersAPIView.Users ids
      ∧ 3%positive ∈ ids.
Proof.
  destruct (member_list_access 3 1 small_site (Board.mk "Roadmap" 1 {[2%positive]}))
    as (H403 & _ & Hafter); [vm_compute; reflexivity|].
  split.
  - apply H403. vm_compute. reflexivity.
  - apply (Hafter 3%positive "cy"); [vm_compute; reflexivity | discriminate].
Defined.

(** ** The log of a board *)

(** X21. Deleting a board leaves no trace of it in the log: the board is
    gone, the log is the old log without the entries of that board, and
    the "delete_board" entry written by the handler is removed with them;
    the entries of other boards stay in place. *)
Theorem board_delete_erases_its_log
    (user pk : positive) (board : Board.t) (site : Site) :
  Board_objects (BoardViewSet_perform_destroy user (pk, board) site) !! pk = None
  ∧ Site_activity (BoardViewSet_perform_destroy user (pk, board) site)
    = filter (λ e, ActivityLog.board e ≠ pk) (Site_activity site)
  ∧ Forall (λ e, ActivityLog.board e ≠ pk)
      (Site_activity (BoardViewSet_perform_destroy user (pk, board) site))
  ∧ (∀ k, k ≠ pk →
          Board_objects (BoardViewSet_perform_destroy user (pk, board) site) !! k
            = Board_objects site !! k).
Proof.
  unfold BoardViewSet_perform_destroy. simpl.
  assert (filter (λ e, ActivityLog.board e ≠ pk)
            (Site_activity site ++
             [ActivityLog.mk user pk "delete_board"
                [("board_title", JStr (Board.title board))]])
          = filter (λ e, ActivityLog.board e ≠ pk) (Site_activity site)) as ->.
  { rewrite filter_app.
    rewrite (filter_cons_False _ _ []) by (simpl; intros H; by apply H).
    by rewrite filter_nil, app_nil_r. }
  split; [apply lookup_delete_eq|]. split; [done|]. split.
  - apply Forall_forall. by intros e [He _]%list_elem_of_filter.
  - intros k Hk. by apply lookup_delete_ne.
Qed.

Lemma board_delete_erases_its_log_witness :
  Board_objects
    (BoardViewSet_perform_destroy 1 (1%positive, Board.mk "Roadmap" 1 {[2%positive]})
       (BoardMembersAPIView.post 1 1 (Some 3) small_site).2) !! 2%positive
  = Board_objects
      (BoardMembersAPIView.post 1 1 (Some 3) small_site).2 !! 2%positive.
Proof.
  apply (board_delete_erases_its_log 1 1 (Board.mk "Roadmap" 1 {[2%positive]})
           (BoardMembersAPIView.post 1 1 (Some 3) small_site).2).
  discriminate.
Defined.

(** X22. A user sees exactly the log entries of the stored boards the user
    owns or is a member of.  In particular, once the owner has added a
    user, the newest entry that user sees is the one recording the
    addition. *)
Theorem log_visibility (user : positive) (site : Site) :
  (∀ e, e ∈ ActivityLogViewSet_get_queryset user site ↔
        e ∈ Site_activity site
        ∧ ∃ board, Board_objects site !! ActivityLog.board e = Some board
                   ∧ owner_or_member user board = true)
  ∧ (∀ board_id board username,
       Board_objects site !! board_id = Some board →
       User_objects site !! user = Some username →
       user ≠ Board.owner board →
       head (ActivityLogViewSet_get_queryset user
               (BoardMembersAPIView.post (Board.owner board) board_id
                  (Some (Zpos user)) site).2)
         = Some (ActivityLog.mk (Board.owner board) board_id "add_member"
                   [("member_id", JInt (Zpos user));
                    ("member_username", JStr username)])).
Proof.
  split.
  - intros e. unfold ActivityLogViewSet_get_queryset.
    rewrite elem_of_reverse, list_elem_of_filter, elem_of_dom.
    split.
    + intros [[board [Hb Hok]%map_lookup_filter_Some] He]. split; [done|].
      by exists board.
    + intros [He (board & Hb & Hok)]. split; [|done].
      exists board. by apply map_lookup_filter_Some.
  - intros board_id board username Hb Hu Hne.
    unfold BoardMembersAPIView.post. rewrite Hb.
    rewrite bool_decide_eq_false_2 by (intros H; by apply H).
    unfold lookup_id. rewrite Hu. simpl.
    rewrite bool_decide_eq_false_2 by done. simpl.
    unfold ActivityLogViewSet_get_queryset. simpl.
    rewrite filter_app, reverse_app.
    rewrite (filter_cons_True _ _ []); [by rewrite filter_nil|].
    simpl. apply elem_of_dom.
    eexists. apply map_lookup_filter_Some. split; [apply lookup_insert_eq|].
    simpl. unfold owner_or_member. simpl.
    rewrite (bool_decide_eq_true_2 (user ∈ _)).
    + by rewrite orb_true_r.
    + rewrite elem_of_union, elem_of_singleton. by left.
Qed.

Lemma log_visibility_witness :
  head (ActivityLogViewSet_get_queryset 3
          (BoardMembersAPIView.post 1 1 (Some 3) small_site).2)
    = Some (ActivityLog.mk 1 1 "add_member"
              [("member_id", JInt 3); ("member_username", JStr "cy")]).
Proof.
  destruct (log_visibility 3 small_site) as [_ H].
  apply (H 1%positive (Board.mk "Roadmap" 1 {[2%positive]}) "cy");
    [vm_compute; reflexivity | vm_compute; reflexivity | discriminate].
Defined.
